(** * Pipeline V3 build workflows: a shallow embedding and its properties

    Sources embedded here:
    - [pipeline/util/normalise.py]      : [postcode_norm], [postcode_display]
    - [pipeline/manifest.py]            : [BUILD_PROFILES], [BuildBundleManifest],
      [SOURCE_NAMES], [_require_string], [_parse_optional_string],
      [load_bundle_manifest]
    - [pipeline/build/workflows.py]     : [_weight_config], [_bundle_hash],
      [create_build_bundle], [_onspd_country_mapping], the SQL of passes 3, 6
      and 8, [publish_build]; [_dataset_version_from_bundle_hash],
      [_safe_version_suffix], [_normalise_onspd_status],
      [_country_enrichment_available], [_infer_lids_relation],
      [_mapped_fields_for_source], [_field_name_candidates], [_field_value],
      [_assert_required_mapped_fields_present], [_single_source_run],
      passes 0a and 0b, [_load_bundle], [_latest_resumable_run],
      [_load_completed_passes], the [meta.build_run] and checkpoint
      updates, [_clear_run_outputs], [run_build] and the probability check
      of [verify_build].

    Python [str] values are modelled as Rocq [string]s, except in
    [Normalise] where the character classes of the regular expression
    matter and a [str] is the list of its code points.  SQL tables are lists
    of records; an SQL statement is a function from the tables it reads to
    the rows it writes.  PostgreSQL's [uuid] input and output, through
    which ingest run ids are looked up, stored and read back, are modelled
    in [PgUuid]. *)

From Stdlib Require Import String Ascii DecimalString.
From Stdlib Require Import List Permutation Sorted Bool ZArith QArith Qround Lia.
Import ListNotations.
Set Warnings "-register-all".
Open Scope Z_scope.

(* ------------------------------------------------------------------ *)
(** ** [pipeline/util/normalise.py] *)

Module Normalise.

(** A Python [str] as its sequence of Unicode code points. *)
Definition pystr := list Z.

Definition is_ascii_upper (c : Z) : bool := (65 <=? c) && (c <=? 90).
Definition is_ascii_lower (c : Z) : bool := (97 <=? c) && (c <=? 122).
Definition is_ascii_digit (c : Z) : bool := (48 <=? c) && (c <=? 57).

(** The character class [[A-Za-z0-9]] of the regular expression. *)
Definition is_alnum (c : Z) : bool :=
is_ascii_upper c || is_ascii_lower c || is_ascii_digit c.

(** [str.upper] on one character.  It is only ever applied to the output
  of the [re.sub] below, which holds ASCII letters and digits only, and on
  those it is the ASCII case mapping. *)
Definition upper_char (c : Z) : Z :=
if is_ascii_lower c then c - 32 else c.

(** [re.sub(r"[^A-Za-z0-9]", "", value).upper()] *)
Definition clean (value : pystr) : pystr :=
map upper_char (filter is_alnum value).

(** [postcode_norm(value)] *)
Definition postcode_norm (value : option pystr) : option pystr :=
match value with
| None => None
| Some v =>
    let cleaned := clean v in
    match cleaned with
    | [] => None
    | _ => Some cleaned
    end
end.

(** The code point of [" "]. *)
Definition space : Z := 32.

(** [postcode_display(value)]: [f"{normalized[:-3]} {normalized[-3:]}"]. *)
Definition postcode_display (value : option pystr) : option pystr :=
match postcode_norm value with
| None => None
| Some normalized =>
    if (length normalized <=? 3)%nat then Some normalized
    else
      let k := (length normalized - 3)%nat in
      Some (firstn k normalized ++ [space] ++ skipn k normalized)
end.

End Normalise.

(* ------------------------------------------------------------------ *)
(** ** Python's [sorted] and SQL [ORDER BY] *)

(** [sorted(xs)] and an SQL [ORDER BY] over a total order, as an insertion
    sort with the order's [<=] test.  On a total order every sorting
    algorithm returns the same list, so this is the list Python's (stable
    merge) sort or PostgreSQL's sort returns. *)
Module PySort.
Section Sort.
Context {A : Type} (leb : A -> A -> bool).

Fixpoint insert (x : A) (l : list A) : list A :=
match l with
| [] => [x]
| y :: r => if leb x y then x :: y :: r else y :: insert x r
end.

Fixpoint sort (l : list A) : list A :=
match l with
| [] => []
| x :: r => insert x (sort r)
end.
End Sort.
End PySort.

(** Python's ordering of [str] values: code point by code point. *)
Definition str_leb : string -> string -> bool := String.leb.

(** [sorted(...)] applied to a list of [str]. *)
Definition sorted_strs (l : list string) : list string := PySort.sort str_leb l.

(* ------------------------------------------------------------------ *)
(** ** [json.dumps(payload, separators=(",", ":"), ensure_ascii=True)] *)

Module Json.
Local Open Scope string_scope.

(** The JSON values [_bundle_hash] builds: strings, lists of them, and
  dicts, whose keys keep their insertion order. *)
Inductive json :=
| JStr (s : string)
| JList (l : list json)
| JObj (l : list (string * json)).

Definition hex_digit (n : nat) : ascii :=
if (n <? 10)%nat then ascii_of_nat (48 + n) else ascii_of_nat (87 + n).

(** [\u00xx]: the lowercase four-digit escape [ensure_ascii] writes. *)
Definition u_escape (n : nat) : string :=
String "\" (String "u" (String "0" (String "0"
  (String (hex_digit (n / 16)) (String (hex_digit (n mod 16)) EmptyString))))).

(** One character of a string literal: [ESCAPE_ASCII] escapes the
  backslash, the double quote and every character outside the range from
  space to tilde. *)
Definition escape_char (c : ascii) : string :=
let n := nat_of_ascii c in
if (n =? 34)%nat then String "\" (String c EmptyString)
else if (n =? 92)%nat then String "\" (String "\" EmptyString)
else if (n =? 10)%nat then String "\" (String "n" EmptyString)
else if (n =? 13)%nat then String "\" (String "r" EmptyString)
else if (n =? 9)%nat then String "\" (String "t" EmptyString)
else if (n =? 8)%nat then String "\" (String "b" EmptyString)
else if (n =? 12)%nat then String "\" (String "f" EmptyString)
else if ((32 <=? n) && (n <=? 126))%nat then String c EmptyString
else u_escape n.

Fixpoint escape_body (s : string) : string :=
match s with
| EmptyString => EmptyString
| String c r => escape_char c ++ escape_body r
end.

Definition quote : string := String (ascii_of_nat 34) EmptyString.

Definition encode_str (s : string) : string := quote ++ escape_body s ++ quote.

Fixpoint dumps (j : json) : string :=
match j with
| JStr s => encode_str s
| JList l => "[" ++ String.concat "," (map dumps l) ++ "]"
| JObj l =>
    "{" ++ String.concat "," (map (fun '(k, v) => encode_str k ++ ":" ++ dumps v) l) ++ "}"
end.

(** [.encode("utf-8")] of the ASCII text [dumps] returns. *)
Definition utf8_encode (s : string) : list Byte.byte := list_byte_of_string s.

End Json.

(* ------------------------------------------------------------------ *)
(** ** [pipeline/manifest.py] and [_bundle_hash] (workflows.py) *)

Module Bundle.
Import Json.
Local Open Scope string_scope.

(** A Python [dict] keyed by [str], as the list of its items in insertion
  order (its keys are pairwise distinct). *)
Definition dict (V : Type) := list (string * V).

(** [d.get(k)] *)
Fixpoint dict_get {V : Type} (k : string) (d : dict V) : option V :=
match d with
| [] => None
| (k', v) :: r => if String.eqb k k' then Some v else dict_get k r
end.

(** [BuildBundleManifest.source_runs]: source name to ingest run ids. *)
Definition source_runs_t := dict (list string).

Section BundleHash.
(** [hashlib.sha256(data).hexdigest()] *)
Variable sha256_hexdigest : list Byte.byte -> string.

(** The [payload] dict of [_bundle_hash]. *)
Definition bundle_payload (build_profile : string) (source_runs : source_runs_t) : json :=
let normalized_source_runs :=
map (fun '(source_name, run_ids) => (source_name, sorted_strs run_ids)) source_runs in
JObj [("build_profile", JStr build_profile);
  ("source_runs",
    JObj (map (fun key =>
                 (* [normalized_source_runs[key]]: [key] is one of its keys *)
                 (key, JList (map JStr (match dict_get key normalized_source_runs with
                                        | Some v => v
                                        | None => []
                                        end))))
              (sorted_strs (map fst normalized_source_runs))))].

(** [_bundle_hash(build_profile, source_runs)] *)
Definition _bundle_hash (build_profile : string) (source_runs : source_runs_t) : string :=
sha256_hexdigest (utf8_encode (dumps (bundle_payload build_profile source_runs))).
End BundleHash.

(** The payload as the specification describes it: the build profile and
  the source runs as (source, sorted run ids) pairs, ordered by source. *)
Definition spec_payload (build_profile : string) (source_runs : source_runs_t) : json :=
JObj [("build_profile", JStr build_profile);
      ("source_runs",
        JObj (map (fun '(k, ids) => (k, JList (map JStr (sorted_strs ids))))
                  (PySort.sort (fun a b : string * list string => str_leb (fst a) (fst b))
                               source_runs)))].

(** Two [source_runs] dicts that differ only by the order of their keys
  and by the order of the run ids listed under each key. *)
Definition same_source_runs (m1 m2 : source_runs_t) : Prop :=
exists m', Permutation m1 m' /\
  Forall2 (fun a b => fst a = fst b /\ Permutation (snd a) (snd b)) m' m2.

End Bundle.

(* ------------------------------------------------------------------ *)
(** ** PostgreSQL's [uuid] type

    Ingest run ids are stored in [uuid] columns.  A query parameter
    compared with or inserted into such a column goes through [uuid_in]
    ([string_to_uuid] in PostgreSQL's [utils/adt/uuid.c]); a value read
    back with [::text] is [uuid_out] of it.  A [uuid] column is modelled by
    the canonical text of its values, so that two values are equal exactly
    when their texts are. *)

Module PgUuid.
Local Open Scope string_scope.

(** [isxdigit] in the C locale, with the value [strtoul(_, NULL, 16)]
  gives the digit. *)
Definition hex_digit (c : ascii) : option nat :=
let n := nat_of_ascii c in
if (48 <=? n)%nat && (n <=? 57)%nat then Some (n - 48)%nat
else if (97 <=? n)%nat && (n <=? 102)%nat then Some (n - 87)%nat
else if (65 <=? n)%nat && (n <=? 70)%nat then Some (n - 55)%nat
else None.

(** The [for (i = 0; i < UUID_LEN; i++)] loop of [string_to_uuid]: two
  hex digits per byte [i], then one ['-'] is skipped when [i] is odd and
  not the last byte.  Returns the 32 digits and the rest of the input. *)
Fixpoint parse_bytes (fuel i : nat) (src : list ascii) : option (list nat * list ascii) :=
match fuel with
| O => Some ([], src)
| S fuel' =>
    match src with
    | a :: b :: src' =>
        match hex_digit a, hex_digit b with
        | Some hi, Some lo =>
            let src'' :=
              match src' with
              | c :: r => if Ascii.eqb c "-" && Nat.odd i && (i <? 15)%nat then r else src'
              | [] => src'
              end in
            match parse_bytes fuel' (S i) src'' with
            | Some (ds, rest) => Some (hi :: lo :: ds, rest)
            | None => None
            end
        | _, _ => None
        end
    | _ => None
    end
end.

(** [uuid_in]: an optional ['{'], the 16 bytes, the matching ['}'], and
  the end of the string; [None] is the error [invalid input syntax for
  type uuid]. *)
Definition uuid_in (s : string) : option (list nat) :=
let src := list_ascii_of_string s in
let '(braces, src1) :=
  match src with
  | c :: r => if Ascii.eqb c "{" then (true, r) else (false, src)
  | [] => (false, src)
  end in
match parse_bytes 16 0 src1 with
| None => None
| Some (ds, rest) =>
    match rest with
    | [] => if braces then None else Some ds
    | [c] => if braces && Ascii.eqb c "}" then Some ds else None
    | _ => None
    end
end.

(** [uuid_out]: lower-case hex digits, a ['-'] before bytes 4, 6, 8 and 10. *)
Definition hex_chars : string := "0123456789abcdef".

Definition hex_char (d : nat) : ascii :=
match String.get d hex_chars with Some c => c | None => "0"%char end.

Fixpoint out_digits (i : nat) (ds : list nat) : list ascii :=
match ds with
| [] => []
| d :: rest =>
    (if (i =? 8)%nat || (i =? 12)%nat || (i =? 16)%nat || (i =? 20)%nat
     then ["-"%char; hex_char d] else [hex_char d]) ++ out_digits (S i) rest
end.

Definition uuid_out (ds : list nat) : string := string_of_list_ascii (out_digits 0 ds).

(** [%s::uuid::text]: the canonical text of a parameter, or [None] when
  PostgreSQL rejects it. *)
Definition uuid_text (s : string) : option string := option_map uuid_out (uuid_in s).

End PgUuid.

(* ------------------------------------------------------------------ *)
(** ** [create_build_bundle] (workflows.py) *)

Module BuildBundle.
Import Bundle.
Local Open Scope string_scope.

(** [BUILD_PROFILES] (manifest.py): profile name to its required sources. *)
Definition BUILD_PROFILES : dict (list string) :=
[("gb_core", ["onspd"; "os_open_usrn"; "os_open_names"; "os_open_roads";
              "os_open_uprn"; "os_open_lids"; "nsul"]);
 ("gb_core_ppd", ["onspd"; "os_open_usrn"; "os_open_names"; "os_open_roads";
                  "os_open_uprn"; "os_open_lids"; "nsul"; "ppd"]);
 ("core_ni", ["onspd"; "os_open_usrn"; "os_open_names"; "os_open_roads";
              "os_open_uprn"; "os_open_lids"; "nsul"; "osni_gazetteer"; "dfi_highway"])].

(** [BuildBundleManifest] (its [raw] payload plays no part here). *)
Record manifest := { build_profile : string; source_runs : source_runs_t }.

(** Rows of [meta.build_bundle], [meta.build_bundle_source] and
  [meta.ingest_run]; ingest run ids, held in [uuid] columns, are in their
  canonical text form ([PgUuid.uuid_out]). *)
Record bundle_row := {
bb_bundle_id : string; bb_build_profile : string;
bb_bundle_hash : string; bb_status : string }.
Record bundle_source_row := {
bs_bundle_id : string; bs_source_name : string; bs_ingest_run_id : string }.
Record ingest_run_row := { ir_run_id : string; ir_source_name : string }.

Record db := {
meta_build_bundle : list bundle_row;
meta_build_bundle_source : list bundle_source_row;
meta_ingest_run : list ingest_run_row }.

(** [BuildBundleResult] *)
Record BuildBundleResult := {
r_bundle_id : string; r_status : string; r_bundle_hash : string }.

(** The exceptions [create_build_bundle] raises; [InvalidTextRepresentation]
  is psycopg's error for a parameter PostgreSQL does not accept as a
  [uuid]. *)
Inductive error :=
| BuildError (msg : string)
| KeyError (key : string)
| InvalidTextRepresentation (value : string).

(** [SELECT bundle_id FROM meta.build_bundle WHERE build_profile = %s AND
  bundle_hash = %s] followed by [fetchone()]. *)
Definition select_bundle (st : db) (profile hash : string) : option bundle_row :=
find (fun b => (bb_build_profile b =? profile) && (bb_bundle_hash b =? hash))
     (meta_build_bundle st).

(** [SELECT source_name FROM meta.ingest_run WHERE run_id = %s] and
  [fetchone()]: the parameter is read as a [uuid] and compared by value. *)
Definition select_ingest_run (st : db) (run_id : string) : error + option string :=
match PgUuid.uuid_text run_id with
| None => inl (InvalidTextRepresentation run_id)
| Some u => inr (option_map ir_source_name (find (fun r => ir_run_id r =? u) (meta_ingest_run st)))
end.

(** The inner [for run_id in run_ids] loop of one source. *)
Fixpoint check_runs (st : db) (source_name : string) (run_ids : list string) : option error :=
match run_ids with
| [] => None
| run_id :: rest =>
    match select_ingest_run st run_id with
    | inl e => Some e
    | inr None => Some (BuildError ("Unknown ingest_run_id for source " ++ source_name ++ ": " ++ run_id))
    | inr (Some row_source) =>
        if negb (row_source =? source_name) then
          Some (BuildError ("Ingest run/source mismatch: source=" ++ source_name
                            ++ " run_id=" ++ run_id ++ " row_source=" ++ row_source))
        else check_runs st source_name rest
    end
end.

(** One iteration of [for source_name in sorted(required_sources)]. *)
Definition check_source (st : db) (m : manifest) (source_name : string) : option error :=
match dict_get source_name (source_runs m) with
| None => Some (KeyError source_name)
| Some run_ids =>
    if source_name =? "ppd" then
      if (length run_ids =? 0)%nat
      then Some (BuildError "Bundle must include at least one ppd ingest run")
      else check_runs st source_name run_ids
    else
      if negb (length run_ids =? 1)%nat
      then Some (BuildError ("Source " ++ source_name ++ " must map to exactly one ingest run in a bundle"))
      else check_runs st source_name run_ids
end.

Fixpoint check_sources (st : db) (m : manifest) (sources : list string) : option error :=
match sources with
| [] => None
| s :: rest =>
    match check_source st m s with
    | Some e => Some e
    | None => check_sources st m rest
    end
end.

(** The ids of one source read as [uuid]s, in order; the first one
  PostgreSQL rejects raises. *)
Fixpoint uuid_texts (run_ids : list string) : error + list string :=
match run_ids with
| [] => inr []
| run_id :: rest =>
    match PgUuid.uuid_text run_id with
    | None => inl (InvalidTextRepresentation run_id)
    | Some u =>
        match uuid_texts rest with
        | inl e => inl e
        | inr us => inr (u :: us)
        end
    end
end.

(** All the ids of [manifest.source_runs.items()], in iteration order. *)
Fixpoint canonical_source_runs (runs : source_runs_t) : error + source_runs_t :=
match runs with
| [] => inr []
| (source_name, run_ids) :: rest =>
    match uuid_texts run_ids with
    | inl e => inl e
    | inr us =>
        match canonical_source_runs rest with
        | inl e => inl e
        | inr rest' => inr ((source_name, us) :: rest')
        end
    end
end.

(** The rows the [INSERT INTO meta.build_bundle_source] loop over
  [manifest.source_runs.items()] writes, once every id was accepted. *)
Definition bundle_source_rows_canonical (bundle_id : string) (runs : source_runs_t)
  : list bundle_source_row :=
flat_map (fun '(source_name, run_ids) =>
            map (fun ingest_run_id => {| bs_bundle_id := bundle_id;
                                         bs_source_name := source_name;
                                         bs_ingest_run_id := ingest_run_id |}) run_ids)
         runs.

(** The [INSERT INTO meta.build_bundle_source] loop: each id is stored in
  its canonical form, and the first id that is not a [uuid] raises (the
  transaction is then not committed). *)
Definition bundle_source_rows (bundle_id : string) (runs : source_runs_t)
  : error + list bundle_source_row :=
match canonical_source_runs runs with
| inl e => inl e
| inr runs' => inr (bundle_source_rows_canonical bundle_id runs')
end.

(** [create_build_bundle(conn, manifest)]; [new_bundle_id] is the value of
  [str(uuid.uuid4())] and the digest function is a parameter. *)
Definition create_build_bundle (sha256_hexdigest : list Byte.byte -> string)
  (new_bundle_id : string) (m : manifest) (st : db)
  : error + (BuildBundleResult * db) :=
let bundle_hash := _bundle_hash sha256_hexdigest (build_profile m) (source_runs m) in
match select_bundle st (build_profile m) bundle_hash with
| Some existing =>
    inr ({| r_bundle_id := bb_bundle_id existing; r_status := "existing";
            r_bundle_hash := bundle_hash |}, st)
| None =>
    match dict_get (build_profile m) BUILD_PROFILES with
    | None => inl (KeyError (build_profile m))
    | Some required_sources =>
        let missing := sorted_strs
          (filter (fun s => negb (existsb (String.eqb s) (map fst (source_runs m))))
                  required_sources) in
        match missing with
        | _ :: _ =>
            inl (BuildError ("Bundle manifest missing required sources: "
                             ++ String.concat ", " missing))
        | [] =>
            match check_sources st m (sorted_strs required_sources) with
            | Some e => inl e
            | None =>
                match bundle_source_rows new_bundle_id (source_runs m) with
                | inl e => inl e
                | inr rows =>
                    let st' :=
                      {| meta_build_bundle :=
                           meta_build_bundle st ++
                           [{| bb_bundle_id := new_bundle_id; bb_build_profile := build_profile m;
                               bb_bundle_hash := bundle_hash; bb_status := "created" |}];
                         meta_build_bundle_source := meta_build_bundle_source st ++ rows;
                         meta_ingest_run := meta_ingest_run st |} in
                    inr ({| r_bundle_id := new_bundle_id; r_status := "created";
                            r_bundle_hash := bundle_hash |}, st')
                end
            end
        end
    end
end.

End BuildBundle.

(* ------------------------------------------------------------------ *)
(** ** [_weight_config] (workflows.py) *)

Module Weights.
Import Bundle.
Local Open Scope string_scope.

(** [CANDIDATE_TYPES] *)
Definition CANDIDATE_TYPES : list string :=
["names_postcode_feature"; "oli_toid_usrn"; "uprn_usrn"; "spatial_os_open_roads";
 "osni_gazetteer_direct"; "spatial_dfi_highway"; "ppd_parse_matched"; "ppd_parse_unmatched"].

(** A [decimal.Decimal]: a finite value, an infinity, or a (quiet) NaN, the
  value [Decimal(str(x))] gives for the JSON constants [NaN],
  [Infinity] and [-Infinity] that [json.loads] accepts. *)
Inductive decimal :=
| DFinite (q : Q)
| DInfinity (negative : bool)
| DNaN.

(** The exceptions [_weight_config] raises. *)
Inductive exn :=
| BuildError (msg : string)
| InvalidOperation.

(** [weight <= Decimal("0")]: an ordering comparison with a NaN raises
  [InvalidOperation] in the default decimal context. *)
Definition dec_le_zero (w : decimal) : exn + bool :=
match w with
| DFinite q => inr (Qle_bool q 0)
| DInfinity negative => inr negative
| DNaN => inl InvalidOperation
end.

(** The [weights] value of the config: [None] when it is not a JSON
  object, otherwise its items in file order, each with the outcome of
  [Decimal(str(value))] ([None] when the conversion raises). *)
Definition raw_weights_t := option (dict (option decimal)).

(** The [for key, value in raw_weights.items()] parsing loop. *)
Fixpoint parse_weights (items : dict (option decimal)) : exn + dict decimal :=
match items with
| [] => inr []
| (key, None) :: _ => inl (BuildError ("Invalid frequency weight for " ++ key))
| (key, Some w) :: rest =>
    match parse_weights rest with
    | inl e => inl e
    | inr parsed => inr ((key, w) :: parsed)
    end
end.

(** The [weight <= 0] loop over [parsed.items()]. *)
Fixpoint check_positive (parsed : dict decimal) : option exn :=
match parsed with
| [] => None
| (candidate_type, w) :: rest =>
    match dec_le_zero w with
    | inl e => Some e
    | inr true =>
        Some (BuildError ("frequency weight must be > 0 for candidate_type=" ++ candidate_type))
    | inr false => check_positive rest
    end
end.

Definition mem (s : string) (l : list string) : bool := existsb (String.eqb s) l.

(** [_weight_config()] from the parsed config payload. *)
Definition _weight_config (raw_weights : raw_weights_t) : exn + dict decimal :=
match raw_weights with
| None => inl (BuildError "frequency_weights config must contain object key 'weights'")
| Some items =>
    match parse_weights items with
    | inl e => inl e
    | inr parsed =>
        let keys := map fst parsed in
        let missing := sorted_strs (filter (fun c => negb (mem c keys)) CANDIDATE_TYPES) in
        match missing with
        | _ :: _ => inl (BuildError ("frequency_weights missing candidate types: "
                                     ++ String.concat ", " missing))
        | [] =>
            match check_positive parsed with
            | Some e => inl e
            | None =>
                let unknown := sorted_strs (filter (fun k => negb (mem k CANDIDATE_TYPES)) keys) in
                match unknown with
                | _ :: _ => inl (BuildError ("frequency_weights has unknown candidate types: "
                                             ++ String.concat ", " unknown))
                | [] =>
                    inr (map (fun c => (c, match dict_get c parsed with
                                           | Some w => w
                                           | None => DFinite 0 (* unreachable: no key is missing *)
                                           end)) CANDIDATE_TYPES)
                end
            end
        end
    end
end.

End Weights.

(* ------------------------------------------------------------------ *)
(** ** [derived.postcode_street_candidates] *)

Module Candidates.
Import Bundle.
Local Open Scope string_scope.

(** Values of the [evidence_json] objects the passes build. *)
Inductive evval :=
| EvStr (s : string)
| EvInt (z : Z)
| EvNull.

(** The text of a JSON integer. *)
Definition z_text (z : Z) : string := NilZero.string_of_int (Z.to_int z).

(** [evidence_json ->> key]: the value as text, SQL [NULL] for a JSON
  [null] or a missing key. *)
Definition json_text (key : string) (ev : dict evval) : option string :=
match dict_get key ev with
| Some (EvStr s) => Some s
| Some (EvInt z) => Some (z_text z)
| Some EvNull | None => None
end.

(** A row of [derived.postcode_street_candidates]. *)
Record candidate := {
candidate_id : Z;
produced_build_run_id : string;
postcode : string;
street_name_raw : option string;
street_name_canonical : option string;
usrn : option Z;
candidate_type : string;
confidence : string;
evidence_ref : string;
source_name : string;
ingest_run_id : string;
evidence_json : dict evval }.

(** The table with its [candidate_id] serial: the next value it hands out. *)
Record table := { rows : list candidate; next_id : Z }.

(** A row to insert, before the serial gives it an id. *)
Definition new_row := Z -> candidate.

(** [INSERT INTO derived.postcode_street_candidates ...]: the rows in the
  order the statement produces them, numbered by the serial. *)
Fixpoint insert_rows (t : table) (rs : list new_row) : table :=
match rs with
| [] => t
| r :: rest =>
    insert_rows {| rows := (rows t ++ [r (next_id t)])%list; next_id := next_id t + 1 |} rest
end.

(** [replace(p.postcode, ' ', '')] *)
Fixpoint remove_spaces (s : string) : string :=
match s with
| EmptyString => EmptyString
| String c r => if Ascii.eqb c " "%char then remove_spaces r else String c (remove_spaces r)
end.

(** A row of [core.postcodes] (the columns the passes read). *)
Record postcode_row := {
p_produced_build_run_id : string;
p_postcode : string;
p_subdivision_code : option string }.

End Candidates.

(* ------------------------------------------------------------------ *)
(** ** [_pass_8_finalisation] (workflows.py) *)

(** SQL [numeric] values of scale 4 are integers counting units of 0.0001;
    the quotient [weighted_score / total_weight] is kept exact, as a [Q]. *)
Module Finalisation.
Import Bundle Candidates Weights.
Local Open Scope string_scope.

(** Rounding half away from zero to an integer: PostgreSQL's [ROUND] on
  [numeric] and Python's [ROUND_HALF_UP]. *)
Definition round_half_away (q : Q) : Z :=
if Qle_bool 0 q then Qfloor (q + (1 # 2)) else - Qfloor (- q + (1 # 2)).

(** Rounding to 4 decimal places, in units of 0.0001: [ROUND(x, 4)], a
  cast to [numeric(10,4)] and [.quantize(Decimal("0.0001"), ROUND_HALF_UP)]. *)
Definition round4 (q : Q) : Z := round_half_away (q * 10000).

(** A 4-decimal value as a rational. *)
Definition of4 (z : Z) : Q := z # 10000.

Inductive error :=
| WeightError (e : Weights.exn)
| SqlError (msg : string)
| BuildError (msg : string).

(** The cast of a weight to [numeric(10,4)] when it is inserted into
  [tmp_candidate_weights]. *)
Definition numeric_10_4 (d : decimal) : error + Z :=
match d with
| DFinite q =>
    let z := round4 q in
    if (Z.abs z <? 10 ^ 10)%Z then inr z else inl (SqlError "numeric field overflow")
| DInfinity _ => inl (SqlError "numeric field overflow")
| DNaN => inl (SqlError "NaN weight") (* unreachable: [_weight_config] rejects NaN *)
end.

Fixpoint weight_rows (w : dict decimal) : error + list (string * Z) :=
match w with
| [] => inr []
| (ct, d) :: rest =>
    match numeric_10_4 d, weight_rows rest with
    | inl e, _ => inl e
    | inr _, inl e => inl e
    | inr z, inr r => inr ((ct, z) :: r)
    end
end.

(** A row of [core.streets_usrn] (the columns pass 8 reads). *)
Record street_row := {
s_produced_build_run_id : string; s_usrn : Z; s_street_name : option string }.

(** [CASE c.confidence WHEN 'high' THEN 3 ...] *)
Definition conf_rank_of (confidence : string) : nat :=
if confidence =? "high" then 3
else if confidence =? "medium" then 2
else if confidence =? "low" then 1
else 0.

(** A row of [tmp_weighted_candidates]. *)
Record wrow := {
w_candidate_id : Z; w_postcode : string; w_canonical_street_name : option string;
w_usrn : option Z; w_candidate_type : string; w_weight : Z; w_conf_rank : nat }.

Definition usrn_matches (c : candidate) (s : street_row) : bool :=
match usrn c with Some u => (s_usrn s =? u)%Z | None => false end.

(** [CREATE TEMP TABLE tmp_weighted_candidates AS SELECT ... FROM
  derived.postcode_street_candidates c JOIN tmp_candidate_weights w
  LEFT JOIN core.streets_usrn s ... WHERE c.produced_build_run_id = %s]. *)
Definition tmp_weighted_candidates (build_run_id : string) (cands : list candidate)
  (weights : list (string * Z)) (streets : list street_row) : list wrow :=
flat_map (fun c =>
  if produced_build_run_id c =? build_run_id then
    flat_map (fun '(ct, w) =>
      if ct =? candidate_type c then
        let mk (name : option string) :=
          {| w_candidate_id := candidate_id c; w_postcode := postcode c;
             w_canonical_street_name := name; w_usrn := usrn c;
             w_candidate_type := candidate_type c; w_weight := w;
             w_conf_rank := conf_rank_of (confidence c) |} in
        match filter (fun s => (s_produced_build_run_id s =? produced_build_run_id c)
                               && usrn_matches c s) streets with
        | [] => [mk (street_name_canonical c)]
        | ms => map (fun s => mk (match s_street_name s with
                                  | Some n => Some n
                                  | None => street_name_canonical c
                                  end)) ms
        end
      else []) weights
  else []) cands.

(** The distinct values of a list, in order of first appearance. *)
Fixpoint distinct_from {A} (eqb : A -> A -> bool) (seen l : list A) : list A :=
match l with
| [] => []
| x :: r =>
    if existsb (eqb x) seen then distinct_from eqb seen r
    else x :: distinct_from eqb (x :: seen) r
end.

Definition distinct {A} (eqb : A -> A -> bool) (l : list A) : list A := distinct_from eqb [] l.

Definition sum_Z {A} (f : A -> Z) (l : list A) : Z := fold_right (fun x acc => f x + acc) 0 l.

Definition opt_eqb {A} (eqb : A -> A -> bool) (a b : option A) : bool :=
match a, b with
| Some x, Some y => eqb x y
| None, None => true
| _, _ => false
end.

(** [MIN(usrn)]: the least non-NULL value, NULL when there is none. *)
Definition min_usrn (l : list (option Z)) : option Z :=
fold_right (fun x acc => match x, acc with
                         | Some a, Some b => Some (Z.min a b)
                         | Some a, None => Some a
                         | None, _ => acc
                         end) None l.

(** A row of the [grouped] CTE. *)
Record grp := {
g_postcode : string; g_canonical_street_name : option string; g_usrn : option Z;
g_weighted_score : Z; g_conf_rank : nat }.

Definition group_key (r : wrow) : string * option string := (w_postcode r, w_canonical_street_name r).

Definition key_eqb (a b : string * option string) : bool :=
(fst a =? fst b) && opt_eqb String.eqb (snd a) (snd b).

(** [grouped]: [GROUP BY postcode, canonical_street_name]. *)
Definition grouped (ws : list wrow) : list grp :=
map (fun k =>
       let rs := filter (fun r => key_eqb k (group_key r)) ws in
       {| g_postcode := fst k; g_canonical_street_name := snd k;
          g_usrn := min_usrn (map w_usrn rs);
          g_weighted_score := sum_Z w_weight rs;
          g_conf_rank := fold_right Nat.max 0%nat (map w_conf_rank rs) |})
    (distinct key_eqb (map group_key ws)).

(** [totals]: [SUM(weighted_score)] of a postcode. *)
Definition total_weight (gs : list grp) (p : string) : Z :=
sum_Z g_weighted_score (filter (fun g => g_postcode g =? p) gs).

(** [raw_probability = g.weighted_score / t.total_weight]. *)
Definition raw_probability (total : Z) (g : grp) : Q :=
inject_Z (g_weighted_score g) / inject_Z total.

(** [ROW_NUMBER() OVER (PARTITION BY postcode ORDER BY raw_probability DESC,
  conf_rank DESC, canonical_street_name COLLATE "C" ASC, usrn ASC NULLS
  LAST)]: the comparison of two scored rows of one postcode. *)
Definition nulls_last {A} (cmp : A -> A -> comparison) (a b : option A) : comparison :=
match a, b with
| Some x, Some y => cmp x y
| Some _, None => Lt
| None, Some _ => Gt
| None, None => Eq
end.

Definition lex (c1 c2 : comparison) : comparison :=
match c1 with Eq => c2 | c => c end.

Definition rank_cmp (a b : grp * Q) : comparison :=
lex (Qcompare (snd b) (snd a))
(lex (Nat.compare (g_conf_rank (fst b)) (g_conf_rank (fst a)))
(lex (nulls_last String.compare (g_canonical_street_name (fst a)) (g_canonical_street_name (fst b)))
    (nulls_last Z.compare (g_usrn (fst a)) (g_usrn (fst b))))).

Definition rank_leb (a b : grp * Q) : bool :=
match rank_cmp a b with Gt => false | _ => true end.

(** A row of the final [SELECT]. *)
Record final_row := {
f_postcode : string; f_canonical_street_name : option string; f_usrn : option Z;
f_weighted_score : Z; f_conf_rank : nat; f_final_probability : Z; f_rn : nat }.

(** [CASE WHEN rn = 1 THEN ROUND((rounded_probability + (1.0000 -
  rounded_sum))::numeric, 4) ELSE rounded_probability END]. *)
Definition final_probability (rn : nat) (rounded rounded_sum : Z) : Z :=
if (rn =? 1)%nat then round4 (of4 rounded + (1 - of4 rounded_sum)) else rounded.

Fixpoint number_rows (rounded_sum : Z) (rn : nat) (l : list (grp * Q)) : list final_row :=
match l with
| [] => []
| (g, raw) :: rest =>
    {| f_postcode := g_postcode g; f_canonical_street_name := g_canonical_street_name g;
       f_usrn := g_usrn g; f_weighted_score := g_weighted_score g;
       f_conf_rank := g_conf_rank g;
       f_final_probability := final_probability rn (round4 raw) rounded_sum;
       f_rn := rn |} :: number_rows rounded_sum (S rn) rest
end.

(** The rows of one postcode partition, in [rn] order. *)
Definition postcode_block (gs : list grp) (p : string) : list final_row :=
let total := total_weight gs p in
let scored := map (fun g => (g, raw_probability total g))
                  (filter (fun g => g_postcode g =? p) gs) in
let rounded_sum := sum_Z (fun x => round4 (snd x)) scored in
number_rows rounded_sum 1 (PySort.sort rank_leb scored).

(** The final [SELECT ... ORDER BY postcode COLLATE "C" ASC, rn ASC]. *)
Definition final_rows (gs : list grp) : list final_row :=
flat_map (postcode_block gs) (sorted_strs (distinct String.eqb (map g_postcode gs))).

(** A row of [derived.postcode_streets_final]. *)
Record streets_final_row := {
sf_produced_build_run_id : string; sf_postcode : string; sf_street_name : option string;
sf_usrn : option Z; sf_confidence : string; sf_frequency_score : Z; sf_probability : Z }.

(** [_confidence_from_rank] *)
Definition _confidence_from_rank (conf_rank : nat) : string :=
if (3 <=? conf_rank)%nat then "high"
else if (conf_rank =? 2)%nat then "medium"
else if (conf_rank =? 1)%nat then "low"
else "none".

(** The [INSERT INTO derived.postcode_streets_final] of one final row. *)
Definition streets_final_of (build_run_id : string) (f : final_row) : streets_final_row :=
{| sf_produced_build_run_id := build_run_id; sf_postcode := f_postcode f;
   sf_street_name := f_canonical_street_name f; sf_usrn := f_usrn f;
   sf_confidence := _confidence_from_rank (f_conf_rank f);
   sf_frequency_score := round4 (of4 (f_weighted_score f));
   sf_probability := round4 (of4 (f_final_probability f)) |}.

(** [_pass_8_finalisation]: the final rows the [SELECT] returns and the
  [derived.postcode_streets_final] rows inserted from them (the
  final-candidate and final-source link rows are not modelled). *)
Definition _pass_8_finalisation (raw_weights : raw_weights_t) (build_run_id : string)
  (cands : list candidate) (streets : list street_row)
  : error + (list final_row * list streets_final_row) :=
match _weight_config raw_weights with
| inl e => inl (WeightError e)
| inr weight_map =>
    match weight_rows weight_map with
    | inl e => inl e
    | inr weights =>
        let ws := tmp_weighted_candidates build_run_id cands weights streets in
        let bad := filter (fun p => Z.leb (sum_Z w_weight (filter (fun r => w_postcode r =? p) ws)) 0)
                          (distinct String.eqb (map w_postcode ws)) in
        match bad with
        | p :: _ => inl (BuildError ("Finalisation failed: total_weight <= 0 for postcode=" ++ p))
        | [] =>
            let fr := final_rows (grouped ws) in
            inr (fr, map (streets_final_of build_run_id) fr)
        end
    end
end.

End Finalisation.

(* ------------------------------------------------------------------ *)
(** ** Reading a final row back as a ranked group *)

Module FinalisationView.
Import Finalisation.

(** The [grouped] row a final row was selected from. *)
Definition row_grp (f : final_row) : grp :=
{| g_postcode := f_postcode f; g_canonical_street_name := f_canonical_street_name f;
   g_usrn := f_usrn f; g_weighted_score := f_weighted_score f; g_conf_rank := f_conf_rank f |}.

(** Its [raw_probability] against a postcode total. *)
Definition row_raw (total : Z) (f : final_row) : Q := raw_probability total (row_grp f).

(** The rank key of a final row: the pair [ROW_NUMBER] orders. *)
Definition row_key (total : Z) (f : final_row) : grp * Q := (row_grp f, row_raw total f).
End FinalisationView.

(* ------------------------------------------------------------------ *)
(** ** [_pass_3_open_names_candidates] (workflows.py)

    The schema-config checks at the start of the pass are not modelled. *)

Module Pass3.
Import Bundle Candidates.
Local Open Scope string_scope.

(** A row of [stage.open_names_road_feature] (the columns pass 3 reads). *)
Record names_feature := {
n_build_run_id : string; n_feature_id : string; n_toid : option string;
n_postcode_norm : string; n_street_name_raw : option string;
n_street_name_casefolded : option string; n_ingest_run_id : string }.

(** A row of [stage.oli_toid_usrn]. *)
Record oli_row := {
o_build_run_id : string; o_toid : string; o_usrn : Z; o_ingest_run_id : string }.

(** A row of [derived.postcode_street_candidate_lineage]. *)
Record edge := {
parent_candidate_id : Z; child_candidate_id : Z; relation_type : string;
e_produced_build_run_id : string }.

Record state := { candidates : table; lineage : list edge }.

(** [jsonb_build_object('feature_id', n.feature_id, 'toid', n.toid)] *)
Definition base_evidence (n : names_feature) : dict evval :=
[("feature_id", EvStr (n_feature_id n));
 ("toid", match n_toid n with Some t => EvStr t | None => EvNull end)].

Definition base_row (build_run_id : string) (n : names_feature) (p : postcode_row) : new_row :=
fun id =>
  {| candidate_id := id; produced_build_run_id := build_run_id; postcode := p_postcode p;
     street_name_raw := n_street_name_raw n;
     street_name_canonical := n_street_name_casefolded n; usrn := None;
     candidate_type := "names_postcode_feature"; confidence := "medium";
     evidence_ref := "open_names:feature:" ++ n_feature_id n;
     source_name := "os_open_names"; ingest_run_id := n_ingest_run_id n;
     evidence_json := base_evidence n |}.

(** The [SELECT] of the base [INSERT]: features of the run joined with the
  run's postcodes on the space-free postcode, [ORDER BY n.feature_id
  COLLATE "C"]. *)
Definition base_rows (build_run_id : string) (features : list names_feature)
  (postcodes : list postcode_row) : list new_row :=
flat_map (fun n =>
  if n_build_run_id n =? build_run_id then
    map (base_row build_run_id n)
        (filter (fun p => (p_produced_build_run_id p =? build_run_id)
                          && (remove_spaces (p_postcode p) =? n_postcode_norm n)) postcodes)
  else [])
  (PySort.sort (fun a b => str_leb (n_feature_id a) (n_feature_id b)) features).

(** A row of the promotion [SELECT]. *)
Record promotion_row := {
pr_parent_id : Z; pr_postcode : string; pr_street_name_raw : option string;
pr_street_name_canonical : option string; pr_toid : string; pr_usrn : Z;
pr_oli_run_id : string }.

Definition promotion_leb (a b : promotion_row) : bool :=
(pr_parent_id a <? pr_parent_id b)%Z
|| ((pr_parent_id a =? pr_parent_id b)%Z && (pr_usrn a <=? pr_usrn b)%Z).

(** [SELECT ... FROM derived.postcode_street_candidates AS parent JOIN
  stage.oli_toid_usrn AS oli ON oli.build_run_id =
  parent.produced_build_run_id AND oli.toid = parent.evidence_json ->>
  'toid' WHERE ... ORDER BY parent.candidate_id ASC, oli.usrn ASC]. *)
Definition promotion_rows (build_run_id : string) (cands : list candidate)
  (oli : list oli_row) : list promotion_row :=
PySort.sort promotion_leb
  (flat_map (fun c =>
     if (produced_build_run_id c =? build_run_id)
        && (candidate_type c =? "names_postcode_feature") then
       match json_text "toid" (evidence_json c) with
       | Some t =>
           map (fun o => {| pr_parent_id := candidate_id c; pr_postcode := postcode c;
                            pr_street_name_raw := street_name_raw c;
                            pr_street_name_canonical := street_name_canonical c;
                            pr_toid := t; pr_usrn := o_usrn o;
                            pr_oli_run_id := o_ingest_run_id o |})
               (filter (fun o => (o_build_run_id o =? produced_build_run_id c)
                                 && (o_toid o =? t)) oli)
       | None => []
       end
     else []) cands).

(** The promoted row of the [INSERT ... VALUES (...) RETURNING candidate_id]. *)
Definition child_row (build_run_id : string) (r : promotion_row) : new_row :=
fun id =>
  {| candidate_id := id; produced_build_run_id := build_run_id; postcode := pr_postcode r;
     street_name_raw := pr_street_name_raw r;
     street_name_canonical := pr_street_name_canonical r; usrn := Some (pr_usrn r);
     candidate_type := "oli_toid_usrn"; confidence := "high";
     evidence_ref := "oli:toid_usrn:" ++ pr_toid r; source_name := "os_open_lids";
     ingest_run_id := pr_oli_run_id r;
     evidence_json := [("toid", EvStr (pr_toid r)); ("usrn", EvInt (pr_usrn r))] |}.

(** [INSERT ... RETURNING candidate_id]: the table and the id handed out. *)
Definition insert_returning (t : table) (r : new_row) : table * Z :=
({| rows := (rows t ++ [r (next_id t)])%list; next_id := next_id t + 1 |}, next_id t).

Definition edge_eqb (a b : edge) : bool :=
(parent_candidate_id a =? parent_candidate_id b)%Z
&& (child_candidate_id a =? child_candidate_id b)%Z
&& (relation_type a =? relation_type b)
&& (e_produced_build_run_id a =? e_produced_build_run_id b).

(** [INSERT INTO derived.postcode_street_candidate_lineage ... ON CONFLICT
  DO NOTHING]; the table's DDL is not in this repository, and a row is
  taken to conflict with an equal row. *)
Definition insert_lineage (l : list edge) (e : edge) : list edge :=
if existsb (edge_eqb e) l then l else (l ++ [e])%list.

(** The [for ... in promotion_rows] loop. *)
Fixpoint promote (build_run_id : string) (st : state) (prs : list promotion_row) : state :=
match prs with
| [] => st
| r :: rest =>
    let '(t, child_id) := insert_returning (candidates st) (child_row build_run_id r) in
    let e := {| parent_candidate_id := pr_parent_id r; child_candidate_id := child_id;
                relation_type := "promotion_toid_usrn";
                e_produced_build_run_id := build_run_id |} in
    promote build_run_id {| candidates := t; lineage := insert_lineage (lineage st) e |} rest
end.

(** The base insert of pass 3. *)
Definition base_insert (build_run_id : string) (features : list names_feature)
  (postcodes : list postcode_row) (st : state) : state :=
{| candidates := insert_rows (candidates st) (base_rows build_run_id features postcodes);
   lineage := lineage st |}.

Definition _pass_3_open_names_candidates (build_run_id : string)
  (features : list names_feature) (postcodes : list postcode_row) (oli : list oli_row)
  (st : state) : state :=
let st1 := base_insert build_run_id features postcodes st in
promote build_run_id st1 (promotion_rows build_run_id (rows (candidates st1)) oli).
End Pass3.

(* ------------------------------------------------------------------ *)
(** ** [_pass_6_ni_candidates] (workflows.py) *)

Module Pass6.
Import Bundle Candidates.
Local Open Scope string_scope.

(** A row of [stage.osni_street_point] (the columns pass 6 reads). *)
Record osni_point := {
os_build_run_id : string; os_feature_id : string; os_postcode_norm : string;
os_street_name_raw : option string; os_street_name_casefolded : option string;
os_ingest_run_id : string }.

(** A row of [stage.dfi_road_segment]. *)
Record dfi_segment := {
d_build_run_id : string; d_segment_id : string; d_postcode_norm : string;
d_street_name_raw : option string; d_street_name_casefolded : option string;
d_ingest_run_id : string }.

(** [p.subdivision_code = 'GB-NIR'] *)
Definition is_nir (p : postcode_row) : bool :=
match p_subdivision_code p with Some s => s =? "GB-NIR" | None => false end.

Definition direct_row (build_run_id : string) (n : osni_point) (p : postcode_row) : new_row :=
fun id =>
  {| candidate_id := id; produced_build_run_id := build_run_id; postcode := p_postcode p;
     street_name_raw := os_street_name_raw n;
     street_name_canonical := os_street_name_casefolded n; usrn := None;
     candidate_type := "osni_gazetteer_direct"; confidence := "medium";
     evidence_ref := "osni_gazetteer:feature:" ++ os_feature_id n;
     source_name := "osni_gazetteer"; ingest_run_id := os_ingest_run_id n;
     evidence_json := [("feature_id", EvStr (os_feature_id n))] |}.

(** The [SELECT] of the direct [INSERT]. *)
Definition direct_rows (build_run_id : string) (points : list osni_point)
  (postcodes : list postcode_row) : list new_row :=
flat_map (fun n =>
  if os_build_run_id n =? build_run_id then
    map (direct_row build_run_id n)
        (filter (fun p => (p_produced_build_run_id p =? build_run_id)
                          && (remove_spaces (p_postcode p) =? os_postcode_norm n)
                          && is_nir p) postcodes)
  else [])
  (PySort.sort (fun a b => str_leb (os_feature_id a) (os_feature_id b)) points).

(** [ni_without_candidates]: [(postcode, postcode_norm)] of the run's
  GB-NIR postcodes with no candidate row of the run for that postcode. *)
Definition ni_without_candidates (build_run_id : string) (postcodes : list postcode_row)
  (cands : list candidate) : list (string * string) :=
map (fun p => (p_postcode p, remove_spaces (p_postcode p)))
  (filter (fun p => (p_produced_build_run_id p =? build_run_id) && is_nir p
                    && negb (existsb (fun c => (produced_build_run_id c =? p_produced_build_run_id p)
                                               && (postcode c =? p_postcode p)) cands))
          postcodes).

(** The join of [ranked_segments], before the row numbers. *)
Definition ranked_segments (build_run_id : string) (dfi : list dfi_segment)
  (ni : list (string * string)) : list (string * dfi_segment) :=
flat_map (fun n =>
  map (fun d => (fst n, d))
      (filter (fun d => (d_build_run_id d =? build_run_id) && (d_postcode_norm d =? snd n)) dfi))
  ni.

Definition segment_leb (a b : dfi_segment) : bool := str_leb (d_segment_id a) (d_segment_id b).

Definition fallback_row (build_run_id pc : string) (d : dfi_segment) : new_row :=
fun id =>
  {| candidate_id := id; produced_build_run_id := build_run_id; postcode := pc;
     street_name_raw := d_street_name_raw d;
     street_name_canonical := d_street_name_casefolded d; usrn := None;
     candidate_type := "spatial_dfi_highway"; confidence := "low";
     evidence_ref := "spatial:dfi_highway:" ++ d_segment_id d ++ ":fallback";
     source_name := "dfi_highway"; ingest_run_id := d_ingest_run_id d;
     evidence_json := [("segment_id", EvStr (d_segment_id d))] |}.

(** [WHERE r.rn = 1 ORDER BY r.postcode COLLATE "C"]: per postcode, the
  first segment in [segment_id] order. *)
Definition fallback_rows (build_run_id : string) (ranked : list (string * dfi_segment))
  : list new_row :=
flat_map (fun pc =>
  match PySort.sort segment_leb (map snd (filter (fun r => fst r =? pc) ranked)) with
  | d :: _ => [fallback_row build_run_id pc d]
  | [] => []
  end)
  (sorted_strs (Finalisation.distinct String.eqb (map fst ranked))).

Definition _pass_6_ni_candidates (build_run_id : string) (points : list osni_point)
  (dfi : list dfi_segment) (postcodes : list postcode_row) (t : table) : table :=
let t1 := insert_rows t (direct_rows build_run_id points postcodes) in
insert_rows t1 (fallback_rows build_run_id
                  (ranked_segments build_run_id dfi
                     (ni_without_candidates build_run_id postcodes (rows t1)))).
End Pass6.

(* ------------------------------------------------------------------ *)
(** ** [publish_build] (workflows.py)

    The transaction is modelled as a function from the database state, with
    [now()] and [txid_current()] as inputs; a [BuildError] leaves the state
    as it was (the caller does not commit). *)

Module Publish.
Local Open Scope string_scope.

(** A row of [meta.build_run] (the columns [publish_build] reads or sets). *)
Record build_run := {
br_build_run_id : string; br_bundle_id : string; br_dataset_version : string;
br_status : string; br_current_pass : string; br_finished_at_utc : option Z }.

(** A row of [meta.build_bundle] (its id and status). *)
Record bundle := { bu_bundle_id : string; bu_status : string }.

(** A row of [meta.dataset_publication]. *)
Record publication := {
pub_dataset_version : string; pub_build_run_id : string; pub_published_at_utc : Z;
pub_published_by : string; pub_lookup_table_name : string;
pub_street_lookup_table_name : string; pub_publish_txid : Z }.

Record db := {
build_runs : list build_run;
bundles : list bundle;
api_tables : list string;            (* the relations of schema [api], qualified *)
views : list (string * string);     (* each view of schema [api] and the table it selects from *)
publications : list publication }.


(** [re.sub(r"[^A-Za-z0-9_]", "_", dataset_version)] on an ASCII version. *)
Definition is_word_char (c : ascii) : bool :=
let n := nat_of_ascii c in
(Nat.leb 48 n && Nat.leb n 57) || (Nat.leb 65 n && Nat.leb n 90)
|| (Nat.leb 97 n && Nat.leb n 122) || Nat.eqb n 95.

Fixpoint sub_non_word (s : string) : string :=
match s with
| EmptyString => EmptyString
| String c r => String (if is_word_char c then c else "_"%char) (sub_non_word r)
end.

Definition _safe_version_suffix (dataset_version : string) : string :=
match sub_non_word dataset_version with
| EmptyString => "v3"
| suffix => suffix
end.





End Publish.

(* ------------------------------------------------------------------ *)
(** ** Python [str] methods on text of code points below 256

    In the modules below a Python [str] whose code points are all below 256
    is a Rocq [string], one [ascii] per code point (Latin-1).  The methods
    follow Python's Unicode tables restricted to that range. *)

Module PyStr.
Local Open Scope string_scope.

(** [str.isspace()] on one code point: [\t \n \x0b \x0c \r], [\x1c-\x1f],
  space, [\x85] and [\xa0]. *)
Definition isspace_char (c : ascii) : bool :=
let n := nat_of_ascii c in
((9 <=? n) && (n <=? 13))%nat || ((28 <=? n) && (n <=? 32))%nat
|| Nat.eqb n 133 || Nat.eqb n 160.

Fixpoint lstrip (s : string) : string :=
match s with
| EmptyString => EmptyString
| String c r => if isspace_char c then lstrip r else s
end.

Fixpoint rev_str (s : string) (acc : string) : string :=
match s with
| EmptyString => acc
| String c r => rev_str r (String c acc)
end.

(** [str.strip()] *)
Definition strip (s : string) : string :=
rev_str (lstrip (rev_str (lstrip s) EmptyString)) EmptyString.

(** [str.lower()] on one code point: [A-Z] and [\xc0-\xde] except [\xd7]
  move up by 32; every other code point below 256 is its own lower case. *)
Definition lower_char (c : ascii) : ascii :=
let n := nat_of_ascii c in
if ((65 <=? n) && (n <=? 90))%nat
   || ((192 <=? n) && (n <=? 222) && negb (Nat.eqb n 215))%nat
then ascii_of_nat (n + 32) else c.

Fixpoint lower (s : string) : string :=
match s with
| EmptyString => EmptyString
| String c r => String (lower_char c) (lower r)
end.

(** [str.isdigit()] on one code point: [0-9] and the superscripts
  [\xb2 \xb3 \xb9]. *)
Definition isdigit_char (c : ascii) : bool :=
let n := nat_of_ascii c in
((48 <=? n) && (n <=? 57))%nat || Nat.eqb n 178 || Nat.eqb n 179 || Nat.eqb n 185.

Fixpoint all_chars (f : ascii -> bool) (s : string) : bool :=
match s with
| EmptyString => true
| String c r => f c && all_chars f r
end.

(** [str.isdigit()]: false on the empty string. *)
Definition isdigit (s : string) : bool :=
match s with
| EmptyString => false
| _ => all_chars isdigit_char s
end.

(** [s.startswith(prefix)] *)
Definition startswith (s prefix : string) : bool := String.prefix prefix s.

(** [x in (a, b, ...)] for strings. *)
Definition mem (x : string) (l : list string) : bool := existsb (String.eqb x) l.

(** [sep.join(l)] *)
Fixpoint join (sep : string) (l : list string) : string :=
match l with
| [] => ""
| [x] => x
| x :: r => x ++ sep ++ join sep r
end.

End PyStr.

(* ------------------------------------------------------------------ *)
(** ** [_onspd_country_mapping] (workflows.py) *)

Module Onspd.
Local Open Scope string_scope.

(** A [str] as its code points. *)
Definition code_points (s : string) : list Z :=
map (fun c => Z.of_nat (nat_of_ascii c)) (list_ascii_of_string s).

(** [str.upper()] on one code point below 256, as the code points it
  becomes: [a-z] and [\xe0-\xfe] except [\xf7] move down by 32, [\xb5]
  becomes U+039C, [\xdf] becomes [SS], [\xff] becomes U+0178, and every
  other code point is its own upper case. *)
Definition upper_cp (c : ascii) : list Z :=
let n := Z.of_nat (nat_of_ascii c) in
(if ((97 <=? n) && (n <=? 122)) || ((224 <=? n) && (n <=? 254) && negb (n =? 247)) then [n - 32]
else if n =? 181 then [924]
else if n =? 223 then [83; 83]
else if n =? 255 then [376]
else [n])%Z.

(** [str.upper()] *)
Definition upper (s : string) : list Z := flat_map upper_cp (list_ascii_of_string s).

(** [==] on [str] values, as code point sequences. *)
Definition code_eqb (a b : list Z) : bool :=
if list_eq_dec Z.eq_dec a b then true else false.

(** [code = (value or "").strip().upper()] *)
Definition onspd_code (value : option string) : list Z :=
upper (PyStr.strip (match value with Some v => v | None => "" end)).

(** [_onspd_country_mapping(value)]: [code in mapping] compares [code]
  with the four keys; the [{"GB", "GBR"}] branch and the fall-through
  return the same triple. *)
Definition _onspd_country_mapping (value : option string)
: string * string * option string :=
let code := onspd_code value in
if code_eqb code (code_points "E92000001") then ("GB", "GBR", Some "GB-ENG")
else if code_eqb code (code_points "S92000003") then ("GB", "GBR", Some "GB-SCT")
else if code_eqb code (code_points "W92000004") then ("GB", "GBR", Some "GB-WLS")
else if code_eqb code (code_points "N92000002") then ("GB", "GBR", Some "GB-NIR")
else if code_eqb code (code_points "GB") || code_eqb code (code_points "GBR")
then ("GB", "GBR", None)
else ("GB", "GBR", None).

End Onspd.

(* ------------------------------------------------------------------ *)
(** ** [_infer_lids_relation] (workflows.py) *)

Module Lids.
Import PyStr.
Local Open Scope string_scope.

(** [relation = str(relation_raw).strip().lower() if relation_raw not in
  (None, "") else ""]: [relation_raw] is [None] for [None], and otherwise
  the [str()] of the raw value. *)
Definition relation_text (relation_raw : option string) : string :=
match relation_raw with
| Some r => if r =? "" then "" else lower (strip r)
| None => ""
end.

Definition TOID_USRN_NAMES : list string := ["toid_usrn"; "toid->usrn"; "toid_usrn_link"].
Definition UPRN_USRN_NAMES : list string := ["uprn_usrn"; "uprn->usrn"; "uprn_usrn_link"].

Definition _infer_lids_relation (relation_raw : option string) (left_id right_id : string)
  : option string * string * string :=
let relation := relation_text relation_raw in
let left_is_toid := startswith (lower left_id) "osgb" in
let right_is_toid := startswith (lower right_id) "osgb" in
let left_is_digits := isdigit left_id in
let right_is_digits := isdigit right_id in
if mem relation TOID_USRN_NAMES then
  (Some "toid_usrn", left_id, right_id)
else if mem relation UPRN_USRN_NAMES then
  (Some "uprn_usrn", left_id, right_id)
else if left_is_toid && right_is_digits then (Some "toid_usrn", left_id, right_id)
else if right_is_toid && left_is_digits then (Some "toid_usrn", right_id, left_id)
else if left_is_digits && right_is_digits then
  if Nat.ltb 8 (String.length left_id) && Nat.leb (String.length right_id) 8 then
    (Some "uprn_usrn", left_id, right_id)
  else if Nat.ltb 8 (String.length right_id) && Nat.leb (String.length left_id) 8 then
    (Some "uprn_usrn", right_id, left_id)
  else (Some "uprn_usrn", left_id, right_id)
else (None, left_id, right_id).

End Lids.

(* ------------------------------------------------------------------ *)
(** ** [_normalise_onspd_status], [_country_enrichment_available]
    (workflows.py) *)

Module OnspdStage.
Import PyStr.
Local Open Scope string_scope.

Definition _normalise_onspd_status (value : option string) : string :=
let raw := strip (match value with Some v => v | None => "" end) in
if raw =? "" then "active"
else
  let lowered := lower raw in
  if mem lowered ["active"; "terminated"] then lowered else "terminated".

Definition _country_enrichment_available (country_iso2 : string)
  (subdivision_code : option string) : bool :=
if match subdivision_code with
   | Some s => mem s ["GB-ENG"; "GB-SCT"; "GB-WLS"; "GB-NIR"]
   | None => false end then true
else if country_iso2 =? "GB" then true
else false.

(** The country columns and [street_enrichment_available] of the row
  [_populate_stage_onspd] stages for a mapped country value. *)
Definition stage_country_columns (mapped_country_value : option string)
  : string * string * option string * bool :=
let '(country_iso2, country_iso3, subdivision_code) :=
  Onspd._onspd_country_mapping mapped_country_value in
(country_iso2, country_iso3, subdivision_code,
 _country_enrichment_available country_iso2 subdivision_code).

End OnspdStage.

(* ------------------------------------------------------------------ *)
(** ** [_dataset_version_from_bundle_hash], [_single_source_run]
    (workflows.py) *)

Module Versions.
Local Open Scope string_scope.

(** [f"v3_{bundle_hash[:12]}"] *)
Definition _dataset_version_from_bundle_hash (bundle_hash : string) : string :=
"v3_" ++ substring 0 12 bundle_hash.

(** [_single_source_run]: the [BuildError] is [inl] with its message. *)
Definition _single_source_run (source_runs : Bundle.dict (list string)) (source_name : string)
  : string + string :=
let run_ids := match Bundle.dict_get source_name source_runs with
               | Some l => l | None => [] end in
if negb (Nat.eqb (length run_ids) 1) then
  inl ("Source " ++ source_name ++ " requires exactly one ingest run in bundle; found "
       ++ Candidates.z_text (Z.of_nat (length run_ids)))
else inr (nth 0 run_ids "").

End Versions.

(* ------------------------------------------------------------------ *)
(** ** [_field_name_candidates], [_field_value],
    [_assert_required_mapped_fields_present] (workflows.py)

    [str.lower] and [str.upper] are parameters: the properties below hold
    whatever they return. *)

Module Fields.
Import Bundle.
Local Open Scope string_scope.

Section Fields.
Variables (lower upper : string -> string).

(** [legacy_aliases.get(logical_key, ())] *)
Definition legacy_aliases (logical_key : string) : list string :=
if logical_key =? "id_1" then ["identifier_1"; "left_id"]
else if logical_key =? "id_2" then ["identifier_2"; "right_id"]
else if logical_key =? "identifier_1" then ["id_1"; "left_id"]
else if logical_key =? "identifier_2" then ["id_2"; "right_id"]
else if logical_key =? "left_id" then ["id_1"; "identifier_1"]
else if logical_key =? "right_id" then ["id_2"; "identifier_2"]
else [].

Definition _field_name_candidates (field_map : dict string) (logical_key : string)
  : list string :=
let mapped := dict_get logical_key field_map in
let names := (match mapped with
              | Some m => if m =? "" then [] else [m]
              | None => [] end ++ [logical_key] ++ legacy_aliases logical_key)%list in
let expanded := flat_map (fun name => [name; lower name; upper name]) names in
Finalisation.distinct String.eqb expanded.

(** [candidate in row] *)
Definition has_key {V : Type} (row : dict V) (k : string) : bool :=
existsb (String.eqb k) (map fst row).

(** [_field_value]: a raw row maps column names to JSON values, [None]
  being JSON [null] (Python [None]); [row.get(candidate)] is the value of
  the column, and the function's result is Python [None] when no
  candidate is a key of the row. *)
Definition _field_value {V : Type} (row : dict (option V)) (field_map : dict string)
  (logical_key : string) : option V :=
match find (has_key row) (_field_name_candidates field_map logical_key) with
| Some candidate =>
    match dict_get candidate row with
    | Some value => value
    | None => None
    end
| None => None
end.

(** [_assert_required_mapped_fields_present]: [Some msg] is the
  [BuildError] it raises. *)
Definition _assert_required_mapped_fields_present {V : Type} (source_name : string)
  (sample_row : dict V) (field_map : dict string) (required_fields : list string)
  : option string :=
let missing :=
  flat_map (fun key =>
    let candidates := _field_name_candidates field_map key in
    if existsb (has_key sample_row) candidates then []
    else [PyStr.join "/" candidates]) required_fields in
match missing with
| [] => None
| _ => Some ("Schema mapping unresolved for " ++ source_name
             ++ "; missing mapped fields in raw rows: "
             ++ PyStr.join ", " (sorted_strs missing))
end.

End Fields.
End Fields.

(* ------------------------------------------------------------------ *)
(** ** [_mapped_fields_for_source] (workflows.py) *)

Module SchemaConfig.
Import Bundle.
Local Open Scope string_scope.

(** The JSON values of the schema config; a JSON object is the list of its
  members, in order, with distinct keys (as [json.loads] builds it). *)
Inductive cfg :=
| CStr (s : string)
| CList (l : list cfg)
| CObj (l : list (string * cfg))
| CNull
| COther.   (* numbers and booleans *)

(** The loop building [field_map]: every value must be a string. *)
Fixpoint string_map (source_name : string) (raw : list (string * cfg))
  : string + dict string :=
match raw with
| [] => inr []
| (k, CStr v) :: r =>
    match string_map source_name r with
    | inl e => inl e
    | inr m => inr ((k, v) :: m)
    end
| _ :: _ => inl ("source_schema field_map for " ++ source_name ++ " must be string:string")
end.

(** The loop building [required_fields]. *)
Fixpoint required_list (source_name : string) (field_map : dict string) (raw : list cfg)
  : string + list string :=
match raw with
| [] => inr []
| CStr item :: r =>
    if negb (existsb (String.eqb item) (map fst field_map)) then
      inl ("source_schema required field '" ++ item ++ "' missing from field_map for "
           ++ source_name)
    else
      match required_list source_name field_map r with
      | inl e => inl e
      | inr l => inr (item :: l)
      end
| _ :: _ => inl ("source_schema required_fields for " ++ source_name ++ " must be strings")
end.

Definition _mapped_fields_for_source (schema_config : dict cfg) (source_name : string)
  : string + (dict string * list string) :=
match dict_get "sources" schema_config with
| Some (CObj sources) =>
    match dict_get source_name sources with
    | Some (CObj source_cfg) =>
        match dict_get "field_map" source_cfg, dict_get "required_fields" source_cfg with
        | Some (CObj field_map_raw), Some (CList required_raw) =>
            match string_map source_name field_map_raw with
            | inl e => inl e
            | inr field_map =>
                match required_list source_name field_map required_raw with
                | inl e => inl e
                | inr required_fields => inr (field_map, required_fields)
                end
            end
        | Some (CObj _), _ =>
            inl ("source_schema.yaml source " ++ source_name ++ " missing required_fields list")
        | _, _ =>
            inl ("source_schema.yaml source " ++ source_name ++ " missing field_map object")
        end
    | _ => inl ("source_schema.yaml missing source block: " ++ source_name)
    end
| _ => inl "source_schema.yaml missing object key 'sources'"
end.

End SchemaConfig.

(* ------------------------------------------------------------------ *)
(** ** [_pass_0a_raw_ingest] (workflows.py) *)

Module Pass0a.
Import Bundle.
Local Open Scope string_scope.

(** A row of [meta.ingest_run]: its id, source and [record_count]. *)
Record ingest_run_meta := {
im_run_id : string; im_source_name : string; im_record_count : option Z }.

(** [SELECT source_name, record_count FROM meta.ingest_run WHERE run_id = %s]
  and [fetchone()]. *)
Definition select_ingest_run (meta : list ingest_run_meta) (run_id : string)
  : option ingest_run_meta :=
find (fun m => im_run_id m =? run_id) meta.

(** The inner loop over the run ids of one source. *)
Fixpoint source_total (meta : list ingest_run_meta) (source_name : string)
  (run_ids : list string) (total_row_count : Z) : string + Z :=
match run_ids with
| [] => inr total_row_count
| ingest_run_id :: rest =>
    match select_ingest_run meta ingest_run_id with
    | None => inl ("Pass 0a failed: ingest run missing in metadata source=" ++ source_name
                   ++ " run=" ++ ingest_run_id)
    | Some row =>
        if negb (im_source_name row =? source_name) then
          inl ("Pass 0a failed: ingest run/source mismatch bundle_source=" ++ source_name
               ++ " run_source=" ++ im_source_name row ++ " run=" ++ ingest_run_id)
        else
          (* [int(record_count or 0)] *)
          let row_count := match im_record_count row with Some c => c | None => 0 end in
          if Z.leb row_count 0 then
            inl ("Pass 0a failed: source has no recorded rows for source=" ++ source_name
                 ++ " run=" ++ ingest_run_id)
          else source_total meta source_name rest (total_row_count + row_count)
    end
end.

(** [sorted(source_runs.items())]: the keys of a dict are distinct, so the
  pairs are ordered by their keys. *)
Definition item_leb (a b : string * list string) : bool := str_leb (fst a) (fst b).

Fixpoint count_sources (meta : list ingest_run_meta) (items : list (string * list string))
  : string + dict Z :=
match items with
| [] => inr []
| (source_name, run_ids) :: rest =>
    match source_total meta source_name run_ids 0 with
    | inl e => inl e
    | inr total_row_count =>
        match count_sources meta rest with
        | inl e => inl e
        | inr counts => inr ((source_name, total_row_count) :: counts)
        end
    end
end.

(** [_pass_0a_raw_ingest]: [inl msg] is the [BuildError] it raises. *)
Definition _pass_0a_raw_ingest (meta : list ingest_run_meta) (source_runs : dict (list string))
  : string + dict Z :=
count_sources meta (PySort.sort item_leb source_runs).

End Pass0a.

(* ------------------------------------------------------------------ *)
(** ** [_pass_0b_stage_normalisation] (workflows.py)

    Pass 0b as a function from the bundle's source runs to its row counts or
    the first error it raises.  The [_populate_stage_*] functions and
    [_ordered_run_ids] read the database; they are parameters, each
    returning its count or an error. *)

Module Pass0b.
Import Bundle.
Local Open Scope string_scope.

(** The sources pass 0b stages from exactly one ingest run, in its order. *)
Definition SINGLE_RUN_SOURCES : list string :=
["onspd"; "os_open_usrn"; "os_open_names"; "os_open_roads"; "os_open_uprn";
 "os_open_lids"; "nsul"; "osni_gazetteer"; "dfi_highway"].

Section Pass0b.
(** [_populate_stage_*(conn, build_run_id, ingest_run_id, field_map,
  required_fields)] of a source: its entries of [counts]. *)
Variable populate : string -> string -> dict string -> list string -> string + dict Z.
(** [_ordered_run_ids(conn, run_ids)] *)
Variable ordered_run_ids : list string -> string + list string.
(** [_populate_stage_ppd(conn, build_run_id, ingest_run_id, field_map,
  required_fields)] *)
Variable populate_ppd : string -> dict string -> list string -> string + Z.

Fixpoint stage_single (schema_config : dict SchemaConfig.cfg) (source_runs : dict (list string))
  (sources : list string) : string + dict Z :=
match sources with
| [] => inr []
| source_name :: rest =>
    if Fields.has_key source_runs source_name then
      match SchemaConfig._mapped_fields_for_source schema_config source_name with
      | inl e => inl e
      | inr (field_map, required_fields) =>
          match Versions._single_source_run source_runs source_name with
          | inl e => inl e
          | inr ingest_run_id =>
              match populate source_name ingest_run_id field_map required_fields with
              | inl e => inl e
              | inr c =>
                  match stage_single schema_config source_runs rest with
                  | inl e => inl e
                  | inr cs => inr (c ++ cs)%list
                  end
              end
          end
      end
    else stage_single schema_config source_runs rest
end.

Fixpoint stage_ppd_runs (field_map : dict string) (required_fields : list string)
  (run_ids : list string) (ppd_rows : Z) : string + Z :=
match run_ids with
| [] => inr ppd_rows
| ingest_run_id :: rest =>
    match populate_ppd ingest_run_id field_map required_fields with
    | inl e => inl e
    | inr n => stage_ppd_runs field_map required_fields rest (ppd_rows + n)
    end
end.

Definition stage_ppd (schema_config : dict SchemaConfig.cfg) (source_runs : dict (list string))
  : string + dict Z :=
if Fields.has_key source_runs "ppd" then
  match SchemaConfig._mapped_fields_for_source schema_config "ppd" with
  | inl e => inl e
  | inr (field_map, required_fields) =>
      let ppd_run_ids := match dict_get "ppd" source_runs with Some l => l | None => [] end in
      if Nat.eqb (length ppd_run_ids) 0 then inl "Bundle requires at least one ppd ingest run"
      else
        match ordered_run_ids ppd_run_ids with
        | inl e => inl e
        | inr ids =>
            match stage_ppd_runs field_map required_fields ids 0 with
            | inl e => inl e
            | inr ppd_rows => inr [("stage.ppd_parsed_address", ppd_rows)]
            end
        end
  end
else inr [].

Definition _pass_0b_stage_normalisation (schema_config : dict SchemaConfig.cfg)
  (source_runs : dict (list string)) : string + dict Z :=
match stage_single schema_config source_runs SINGLE_RUN_SOURCES with
| inl e => inl e
| inr counts =>
    match stage_ppd schema_config source_runs with
    | inl e => inl e
    | inr c => inr (counts ++ c)%list
    end
end.

End Pass0b.
End Pass0b.

(* ------------------------------------------------------------------ *)
(** ** [_load_bundle], [run_build] and its helpers (workflows.py)

    The state holds the [meta] tables [run_build] reads and writes; the rows
    the passes write to the data tables are left out, except those of the
    tables [_clear_run_outputs] empties, kept as (table, run id) pairs.  A
    pass handler is a parameter: within one [run_build] call each pass runs
    at most once, so its outcome is a function of the pass name.  [now()] is
    the start time of the current transaction: [started_now] is its value in
    the transaction that creates the run, [finished_now] in the one that
    marks it built or failed (the checkpoint times are not kept). *)

Module RunBuild.
Import Bundle BuildBundle.
Local Open Scope string_scope.

Definition PASS_ORDER : list string :=
["0a_raw_ingest"; "0b_stage_normalisation"; "1_onspd_backbone";
 "2_gb_canonical_streets"; "3_open_names_candidates"; "4_uprn_reinforcement";
 "5_gb_spatial_fallback"; "6_ni_candidates"; "7_ppd_gap_fill"; "8_finalisation"].

(** A row of [meta.build_run]. *)
Record build_run_row := {
rr_build_run_id : string; rr_bundle_id : string; rr_dataset_version : string;
rr_status : string; rr_current_pass : string; rr_started_at_utc : Z;
rr_finished_at_utc : option Z; rr_error_text : option string }.

Record state := {
st_bundle_db : BuildBundle.db;
st_runs : list build_run_row;
st_checkpoints : list (string * string);  (* [meta.build_pass_checkpoint]: (build_run_id, pass_name) *)
st_outputs : list (string * string) }.    (* rows of the tables [_clear_run_outputs] empties *)

(** The exceptions [run_build] raises; [PassError] is the exception of a
  pass handler, raised again after the run is marked failed. *)
Inductive error :=
| BuildError (msg : string)
| KeyError (key : string)
| PassError (pass_name msg : string).

Record BuildRunResult := {
rb_build_run_id : string; rb_status : string; rb_dataset_version : string;
rb_message : string }.

(** [source_runs_map.setdefault(source_name, []).append(ingest_run_id)] *)
Fixpoint add_run (source_name ingest_run_id : string) (d : dict (list string))
  : dict (list string) :=
match d with
| [] => [(source_name, [ingest_run_id])]
| (k, l) :: r =>
    if k =? source_name then (k, l ++ [ingest_run_id])%list :: r
    else (k, l) :: add_run source_name ingest_run_id r
end.

Definition group_source_rows (source_rows : list (string * string)) : dict (list string) :=
fold_left (fun d row => add_run (fst row) (snd row) d) source_rows [].

(** [sorted(required - set(source_runs.keys()))] *)
Definition missing_sources (required : list string) (source_runs : dict (list string))
  : list string :=
sorted_strs (filter (fun s => negb (Fields.has_key source_runs s)) required).

(** The part of [_load_bundle] after its two [SELECT]s; [source_rows] is
  what [fetchall()] returns, in whatever order. *)
Definition _load_bundle_rows (bundle_id build_profile bundle_hash status : string)
  (source_rows : list (string * string))
  : error + (string * string * string * dict (list string)) :=
let source_runs := map (fun e => (fst e, sorted_strs (snd e))) (group_source_rows source_rows) in
match dict_get build_profile BUILD_PROFILES with
| None => inl (KeyError build_profile)
| Some required =>
    match missing_sources required source_runs with
    | [] => inr (build_profile, bundle_hash, status, source_runs)
    | missing =>
        inl (BuildError ("Bundle " ++ bundle_id ++ " missing required sources for profile "
                         ++ build_profile ++ ": " ++ String.concat ", " missing))
    end
end.

(** The rows of [meta.build_bundle_source] of a bundle, in table order. *)
Definition bundle_source_rows_of (d : BuildBundle.db) (bundle_id : string)
  : list (string * string) :=
map (fun r => (bs_source_name r, bs_ingest_run_id r))
    (filter (fun r => bs_bundle_id r =? bundle_id) (meta_build_bundle_source d)).

Definition _load_bundle (d : BuildBundle.db) (bundle_id : string)
  : error + (string * string * string * dict (list string)) :=
match find (fun b => bb_bundle_id b =? bundle_id) (meta_build_bundle d) with
| None => inl (BuildError ("Bundle not found: " ++ bundle_id))
| Some b => _load_bundle_rows bundle_id (bb_build_profile b) (bb_bundle_hash b) (bb_status b)
              (bundle_source_rows_of d bundle_id)
end.

(** The [for source_name in required] checks of [run_build].  A Python
  set is iterated in an order of its own; the order only decides which
  message is raised, not whether one is. *)
Fixpoint source_counts_check (required : list string) (source_runs : dict (list string))
  : option error :=
match required with
| [] => None
| source_name :: rest =>
    let run_ids := match dict_get source_name source_runs with Some l => l | None => [] end in
    if source_name =? "ppd" then
      if Nat.eqb (length run_ids) 0
      then Some (BuildError "Bundle must include at least one ppd ingest run")
      else source_counts_check rest source_runs
    else
      if negb (Nat.eqb (length run_ids) 1)
      then Some (BuildError ("Bundle source " ++ source_name ++ " must include exactly one ingest run"))
      else source_counts_check rest source_runs
end.

Definition started_leb (a b : build_run_row) : bool :=
Z.leb (rr_started_at_utc b) (rr_started_at_utc a).

(** [_latest_resumable_run]: [ORDER BY started_at_utc DESC LIMIT 1]; among
  runs started at the same time, the first in table order. *)
Definition _latest_resumable_run (st : state) (bundle_id : string) : option (string * string) :=
match PySort.sort started_leb
        (filter (fun r => (rr_bundle_id r =? bundle_id)
                          && ((rr_status r =? "started") || (rr_status r =? "failed")))
                (st_runs st)) with
| r :: _ => Some (rr_build_run_id r, rr_dataset_version r)
| [] => None
end.

Definition _load_completed_passes (st : state) (build_run_id : string) : list string :=
map snd (filter (fun c => fst c =? build_run_id) (st_checkpoints st)).

Definition with_runs (st : state) (runs : list build_run_row) : state :=
{| st_bundle_db := st_bundle_db st; st_runs := runs; st_checkpoints := st_checkpoints st;
   st_outputs := st_outputs st |}.

Definition with_checkpoints (st : state) (cps : list (string * string)) : state :=
{| st_bundle_db := st_bundle_db st; st_runs := st_runs st; st_checkpoints := cps;
   st_outputs := st_outputs st |}.

Definition _create_build_run (st : state) (build_run_id bundle_id dataset_version : string)
  (now : Z) : state :=
with_runs st (st_runs st ++
  [{| rr_build_run_id := build_run_id; rr_bundle_id := bundle_id;
      rr_dataset_version := dataset_version; rr_status := "started";
      rr_current_pass := "initialising"; rr_started_at_utc := now;
      rr_finished_at_utc := None; rr_error_text := None |}])%list.

(** The [DELETE]s of [_clear_run_outputs]. *)
Definition _clear_run_outputs (st : state) (build_run_id : string) : state :=
{| st_bundle_db := st_bundle_db st; st_runs := st_runs st;
   st_checkpoints := filter (fun c => negb (fst c =? build_run_id)) (st_checkpoints st);
   st_outputs := filter (fun o => negb (snd o =? build_run_id)) (st_outputs st) |}.

Definition update_run (st : state) (build_run_id : string) (f : build_run_row -> build_run_row)
  : state :=
with_runs st (map (fun r => if rr_build_run_id r =? build_run_id then f r else r) (st_runs st)).

Definition _set_build_run_pass (st : state) (build_run_id pass_name : string) : state :=
update_run st build_run_id (fun r =>
  {| rr_build_run_id := rr_build_run_id r; rr_bundle_id := rr_bundle_id r;
     rr_dataset_version := rr_dataset_version r; rr_status := rr_status r;
     rr_current_pass := pass_name; rr_started_at_utc := rr_started_at_utc r;
     rr_finished_at_utc := rr_finished_at_utc r; rr_error_text := rr_error_text r |}).

(** [INSERT ... ON CONFLICT (build_run_id, pass_name) DO UPDATE]: the row
  count summary and time are not kept here. *)
Definition _mark_pass_checkpoint (st : state) (build_run_id pass_name : string) : state :=
if existsb (fun c => (fst c =? build_run_id) && (snd c =? pass_name)) (st_checkpoints st)
then st
else with_checkpoints st (st_checkpoints st ++ [(build_run_id, pass_name)])%list.

Definition _mark_build_failed (st : state) (build_run_id current_pass error_text : string)
  (now : Z) : state :=
update_run st build_run_id (fun r =>
  {| rr_build_run_id := rr_build_run_id r; rr_bundle_id := rr_bundle_id r;
     rr_dataset_version := rr_dataset_version r; rr_status := "failed";
     rr_current_pass := current_pass; rr_started_at_utc := rr_started_at_utc r;
     rr_finished_at_utc := Some now; rr_error_text := Some error_text |}).

Definition _mark_build_built (st : state) (bundle_id build_run_id : string) (now : Z) : state :=
let st1 := update_run st build_run_id (fun r =>
  {| rr_build_run_id := rr_build_run_id r; rr_bundle_id := rr_bundle_id r;
     rr_dataset_version := rr_dataset_version r; rr_status := "built";
     rr_current_pass := "complete"; rr_started_at_utc := rr_started_at_utc r;
     rr_finished_at_utc := Some now; rr_error_text := None |}) in
let d := st_bundle_db st1 in
{| st_bundle_db :=
     {| meta_build_bundle :=
          map (fun b => if bb_bundle_id b =? bundle_id
                        then {| bb_bundle_id := bb_bundle_id b; bb_build_profile := bb_build_profile b;
                                bb_bundle_hash := bb_bundle_hash b; bb_status := "built" |}
                        else b) (meta_build_bundle d);
        meta_build_bundle_source := meta_build_bundle_source d;
        meta_ingest_run := meta_ingest_run d |};
   st_runs := st_runs st1; st_checkpoints := st_checkpoints st1; st_outputs := st_outputs st1 |}.

(** The [for pass_name in PASS_ORDER] loop.  A pass that raises is rolled
  back to the state of the last commit; the result is that state and the
  failing pass with its message. *)
Fixpoint run_passes (handler : string -> option string) (build_run_id : string)
  (completed : list string) (passes : list string) (st : state)
  : state * option (string * string) :=
match passes with
| [] => (st, None)
| pass_name :: rest =>
    if PyStr.mem pass_name completed then run_passes handler build_run_id completed rest st
    else
      let st1 := _set_build_run_pass st build_run_id pass_name in
      match handler pass_name with
      | Some msg => (st, Some (pass_name, msg))
      | None => run_passes handler build_run_id completed rest
                  (_mark_pass_checkpoint st1 build_run_id pass_name)
      end
end.

(** [run_build(conn, bundle_id, rebuild, resume)]: its result or exception,
  and the committed state after it.  [new_build_run_id] is the value of
  [str(uuid.uuid4())]; an exception before the first commit leaves the
  state as it was. *)
Definition run_build (handler : string -> option string) (new_build_run_id : string)
  (started_now finished_now : Z)
  (st : state) (bundle_id : string) (rebuild resume : bool)
  : (error + BuildRunResult) * state :=
if rebuild && resume then (inl (BuildError "--rebuild and --resume cannot be used together"), st)
else
match _load_bundle (st_bundle_db st) bundle_id with
| inl e => (inl e, st)
| inr (build_profile, bundle_hash, _, source_runs) =>
    match dict_get build_profile BUILD_PROFILES with
    | None => (inl (KeyError build_profile), st)
    | Some required =>
        match missing_sources required source_runs with
        | (_ :: _) as missing =>
            (inl (BuildError ("Bundle " ++ bundle_id ++ " missing required sources: "
                              ++ String.concat ", " missing)), st)
        | [] =>
            match source_counts_check required source_runs with
            | Some e => (inl e, st)
            | None =>
                let start :=
                  if resume then
                    match _latest_resumable_run st bundle_id with
                    | None => inl (BuildError ("No resumable run found for bundle " ++ bundle_id))
                    | Some (build_run_id, dataset_version) =>
                        inr (build_run_id, dataset_version,
                             _load_completed_passes st build_run_id, st)
                    end
                  else
                    let dataset_version := Versions._dataset_version_from_bundle_hash bundle_hash in
                    let st1 := _create_build_run st new_build_run_id bundle_id dataset_version
                                 started_now in
                    inr (new_build_run_id, dataset_version, [],
                         if rebuild then _clear_run_outputs st1 new_build_run_id else st1) in
                match start with
                | inl e => (inl e, st)
                | inr (build_run_id, dataset_version, completed, st1) =>
                    match run_passes handler build_run_id completed PASS_ORDER st1 with
                    | (st2, Some (pass_name, msg)) =>
                        (inl (PassError pass_name msg),
                         _mark_build_failed st2 build_run_id pass_name msg finished_now)
                    | (st2, None) =>
                        (inr {| rb_build_run_id := build_run_id; rb_status := "built";
                                rb_dataset_version := dataset_version;
                                rb_message := "Build completed successfully" |},
                         _mark_build_built st2 bundle_id build_run_id finished_now)
                    end
                end
            end
        end
    end
end.

End RunBuild.

(* ------------------------------------------------------------------ *)
(** ** The probability check of [verify_build] (workflows.py)

    [SELECT postcode, SUM(probability)::numeric(10,4) ... GROUP BY postcode
    HAVING SUM(probability)::numeric(10,4) <> 1.0000 LIMIT 1] over
    [derived.postcode_streets_final]; probabilities are in units of
    [0.0001], so the cast changes nothing.  [LIMIT 1] without an order
    returns some bad postcode: here the first. *)

Module Verify.
Import Finalisation.
Local Open Scope string_scope.

Definition run_rows (build_run_id : string) (rows : list streets_final_row)
  : list streets_final_row :=
filter (fun r => sf_produced_build_run_id r =? build_run_id) rows.

Definition prob_sum (build_run_id : string) (rows : list streets_final_row) (p : string) : Z :=
sum_Z sf_probability (filter (fun r => sf_postcode r =? p) (run_rows build_run_id rows)).

Definition bad_postcodes (build_run_id : string) (rows : list streets_final_row) : list string :=
filter (fun p => negb (Z.eqb (prob_sum build_run_id rows p) 10000))
       (distinct String.eqb (map sf_postcode (run_rows build_run_id rows))).

(** The [str] of a [numeric(10,4)] value. *)
Definition numeric4_text (z : Z) : string :=
let a := Z.abs z in
let f := Candidates.z_text (a mod 10000) in
(if Z.ltb z 0 then "-" else "") ++ Candidates.z_text (a / 10000) ++ "."
++ substring 0 (4 - String.length f) "000" ++ f.

Definition probability_check (build_run_id : string) (rows : list streets_final_row)
  : option string :=
match bad_postcodes build_run_id rows with
| p :: _ => Some ("Probability sum check failed for postcode=" ++ p ++ " sum="
                  ++ numeric4_text (prob_sum build_run_id rows p))
| [] => None
end.

End Verify.

(* ------------------------------------------------------------------ *)
(** ** [pipeline/manifest.py]: [_require_string], [_parse_optional_string],
    [load_bundle_manifest] *)

Module Manifest.
Import Bundle SchemaConfig PyStr.
Local Open Scope string_scope.

Definition SOURCE_NAMES : list string :=
["onspd"; "os_open_usrn"; "os_open_names"; "os_open_roads"; "os_open_uprn";
 "os_open_lids"; "nsul"; "osni_gazetteer"; "dfi_highway"; "ppd"].

(** [_require_string]: [inl msg] is the [ManifestError] it raises. *)
Definition _require_string (payload : dict cfg) (key : string) : string + string :=
let err := "Manifest field '" ++ key ++ "' must be a non-empty string" in
match dict_get key payload with
| Some (CStr value) => if strip value =? "" then inl err else inr (strip value)
| _ => inl err
end.

(** [_parse_optional_string]; [payload.get(key)] is [None] for a missing
  key and for a JSON [null]. *)
Definition _parse_optional_string (payload : dict cfg) (key : string)
  : string + option string :=
match dict_get key payload with
| None | Some CNull => inr None
| Some (CStr value) => let text := strip value in inr (if text =? "" then None else Some text)
| Some _ => inl ("Manifest field '" ++ key ++ "' must be a string when present")
end.

Section Load.
(** [UUID(run_id)] succeeds. *)
Variable uuid_ok : string -> bool.

(** The run ids of one [source_runs] entry, before the UUID check. *)
Definition entry_run_ids (source_name : string) (run_ids_raw : cfg) : string + list string :=
match run_ids_raw with
| CStr s => inr [s]
| CList [] => inl ("source_runs[" ++ source_name ++ "] list must not be empty")
| CList items =>
    fold_right (fun item acc =>
      match item, acc with
      | CStr s, inr l => inr (s :: l)
      | CStr _, inl e => inl e
      | _, _ => inl ("source_runs[" ++ source_name ++ "] values must be UUID strings")
      end) (inr []) items
| _ => inl ("source_runs[" ++ source_name ++ "] must be a UUID string or non-empty UUID array")
end.

Fixpoint check_uuids (source_name : string) (run_ids : list string) : option string :=
match run_ids with
| [] => None
| run_id :: rest =>
    if uuid_ok run_id then check_uuids source_name rest
    else Some ("Invalid ingest run UUID for " ++ source_name ++ ": " ++ run_id)
end.

(** The loop over [source_runs_raw.items()]. *)
Fixpoint parse_source_runs (items : list (string * cfg)) : string + dict (list string) :=
match items with
| [] => inr []
| (source_name, run_ids_raw) :: rest =>
    if negb (mem source_name SOURCE_NAMES) then
      inl ("Unknown source in source_runs: " ++ source_name)
    else
      match entry_run_ids source_name run_ids_raw with
      | inl e => inl e
      | inr run_ids =>
          match check_uuids source_name run_ids with
          | Some e => inl e
          | None =>
              match parse_source_runs rest with
              | inl e => inl e
              | inr r => inr ((source_name, run_ids) :: r)
              end
          end
      end
end.

Fixpoint check_required_nonempty (required : list string) (source_runs : dict (list string))
  : option string :=
match required with
| [] => None
| source_name :: rest =>
    let n := length (match dict_get source_name source_runs with Some l => l | None => [] end) in
    if Nat.eqb n 0 then
      Some ("Bundle manifest source_runs[" ++ source_name
            ++ "] must include at least one ingest run id")
    else check_required_nonempty rest source_runs
end.

(** [load_bundle_manifest] after [_load_json]: [payload] is the manifest's
  root object. *)
Definition load_bundle_manifest (payload : dict cfg) : string + BuildBundle.manifest :=
match _require_string payload "build_profile" with
| inl e => inl e
| inr build_profile =>
    match dict_get build_profile BuildBundle.BUILD_PROFILES with
    | None => inl ("Invalid build_profile '" ++ build_profile ++ "'")
    | Some required =>
        match dict_get "source_runs" payload with
        | Some (CObj source_runs_raw) =>
            match parse_source_runs source_runs_raw with
            | inl e => inl e
            | inr source_runs =>
                match RunBuild.missing_sources required source_runs with
                | (_ :: _) as missing =>
                    inl ("Bundle manifest missing required sources for profile "
                         ++ build_profile ++ ": " ++ String.concat ", " missing)
                | [] =>
                    match check_required_nonempty required source_runs with
                    | Some e => inl e
                    | None => inr {| BuildBundle.build_profile := build_profile;
                                     BuildBundle.source_runs := source_runs |}
                    end
                end
            end
        | _ => inl "Bundle manifest source_runs must be an object"
        end
    end
end.

End Load.
End Manifest.

(* ================================================================== *)
(** * Properties *)

Module NormaliseFacts.
Import Normalise.

Lemma clean_nil_iff (v : pystr) :
clean v = [] <-> Forall (fun c => is_alnum c = false) v.
Proof.
unfold clean. induction v as [|c v IH]; simpl.
- split; auto.
- destruct (is_alnum c) eqn:E; simpl.
  + split; [discriminate | intro H; inversion H; congruence].
  + rewrite IH. split; [intro H; constructor; auto | intro H; inversion H; auto].
Qed.

Definition is_norm_char (c : Z) : bool := is_ascii_upper c || is_ascii_digit c.

Lemma upper_char_norm (c : Z) : is_alnum c = true -> is_norm_char (upper_char c) = true.
Proof.
unfold is_alnum, is_norm_char, upper_char, is_ascii_upper, is_ascii_lower, is_ascii_digit.
intro H. destruct ((97 <=? c) && (c <=? 122)) eqn:L.
- apply andb_true_iff in L as [L1 L2]. apply Z.leb_le in L1, L2.
  apply orb_true_iff; left. apply andb_true_iff; split; apply Z.leb_le; lia.
- rewrite orb_false_r in H. exact H.
Qed.

Lemma clean_chars (v : pystr) : Forall (fun c => is_norm_char c = true) (clean v).
Proof.
unfold clean. induction v as [|c v IH]; simpl; [constructor|].
destruct (is_alnum c) eqn:E; simpl; auto.
constructor; auto. apply upper_char_norm; auto.
Qed.

Lemma norm_char_fixed (c : Z) :
is_norm_char c = true -> is_alnum c = true /\ upper_char c = c.
Proof.
unfold is_alnum, is_norm_char, upper_char, is_ascii_upper, is_ascii_lower, is_ascii_digit.
intro H. apply orb_true_iff in H as [H|H]; apply andb_true_iff in H as [H1 H2];
  apply Z.leb_le in H1, H2.
- split.
  + apply orb_true_iff; left; apply orb_true_iff; left.
    apply andb_true_iff; split; apply Z.leb_le; lia.
  + replace ((97 <=? c) && (c <=? 122)) with false; [reflexivity|].
    symmetry; apply andb_false_iff; left; apply Z.leb_gt; lia.
- split.
  + apply orb_true_iff; right. apply andb_true_iff; split; apply Z.leb_le; lia.
  + replace ((97 <=? c) && (c <=? 122)) with false; [reflexivity|].
    symmetry; apply andb_false_iff; left; apply Z.leb_gt; lia.
Qed.

Lemma clean_fixed (n : pystr) :
Forall (fun c => is_norm_char c = true) n -> clean n = n.
Proof.
unfold clean. induction n as [|c n IH]; simpl; intro H; [reflexivity|].
inversion H as [|? ? Hc Hn]; subst.
destruct (norm_char_fixed c Hc) as [A U]. rewrite A; simpl. rewrite U, IH; auto.
Qed.

Lemma clean_app (a b : pystr) : clean (a ++ b) = clean a ++ clean b.
Proof. unfold clean. rewrite filter_app, map_app. reflexivity. Qed.

Lemma clean_space : clean [space] = [].
Proof. reflexivity. Qed.

End NormaliseFacts.

Module SortFacts.
Section Facts.
Context {A : Type} (leb : A -> A -> bool).
Let R x y := leb x y = true.
Hypothesis leb_total : forall x y, leb x y = true \/ leb y x = true.

Lemma insert_perm (x : A) (l : list A) : Permutation (x :: l) (PySort.insert leb x l).
Proof.
induction l as [|y r IH]; simpl; [auto|].
destruct (leb x y); [auto|].
eapply perm_trans; [apply perm_swap|]. auto.
Qed.

Lemma sort_perm (l : list A) : Permutation l (PySort.sort leb l).
Proof.
induction l as [|x r IH]; simpl; [auto|].
eapply perm_trans; [apply perm_skip, IH | apply insert_perm].
Qed.

Lemma insert_sorted (x : A) (l : list A) : Sorted R l -> Sorted R (PySort.insert leb x l).
Proof.
induction 1 as [|y r Hs IH Hhd]; simpl; [auto|].
destruct (leb x y) eqn:E; [constructor; [constructor; auto | constructor; exact E]|].
assert (Hyx : leb y x = true) by (destruct (leb_total x y); congruence).
constructor; [exact IH|].
destruct r as [|z r']; simpl; [constructor; exact Hyx|].
inversion Hhd; subst.
destruct (leb x z); constructor; assumption.
Qed.

Lemma sort_sorted (l : list A) : Sorted R (PySort.sort leb l).
Proof. induction l; simpl; [constructor | apply insert_sorted; auto]. Qed.

Lemma strongly_sorted_unique (l1 l2 : list A) :
(forall x y, In x l1 -> In y l1 -> R x y -> R y x -> x = y) ->
StronglySorted R l1 -> StronglySorted R l2 -> Permutation l1 l2 -> l1 = l2.
Proof.
revert l2. induction l1 as [|x r IH]; intros l2 Hanti S1 S2 P.
- symmetry; apply Permutation_nil; exact P.
- destruct l2 as [|y r2]; [apply Permutation_sym, Permutation_nil in P; discriminate|].
inversion S1 as [|? ? S1r F1]; inversion S2 as [|? ? S2r F2]; subst.
assert (Exy : x = y).
{ destruct (Permutation_in x P (or_introl eq_refl)) as [->|Hx2]; [reflexivity|].
assert (Hy1 : In y (x :: r)) by (apply (Permutation_in y (Permutation_sym P)); left; auto).
destruct Hy1 as [->|Hy1]; [reflexivity|].
apply Hanti; [left; auto | right; auto | |].
- rewrite Forall_forall in F1; apply F1; auto.
- rewrite Forall_forall in F2; apply F2; auto. }
subst y. f_equal. apply IH; auto.
+ intros a b Ha Hb; apply Hanti; right; auto.
+ eapply Permutation_cons_inv; eauto.
Qed.

Hypothesis leb_trans : forall x y z, leb x y = true -> leb y z = true -> leb x z = true.

Lemma sort_strongly_sorted (l : list A) : StronglySorted R (PySort.sort leb l).
Proof.
apply Sorted_StronglySorted; [intros x y z; apply leb_trans | apply sort_sorted].
Qed.

Lemma sort_unique (l1 l2 : list A) :
(forall x y, In x l1 -> In y l1 -> R x y -> R y x -> x = y) ->
Permutation l1 l2 -> PySort.sort leb l1 = PySort.sort leb l2.
Proof.
intros Hanti P. apply strongly_sorted_unique.
- intros x y Hx Hy. apply Hanti; apply (Permutation_in _ (Permutation_sym (sort_perm l1))); auto.
- apply sort_strongly_sorted.
- apply sort_strongly_sorted.
- eapply perm_trans; [apply Permutation_sym, sort_perm|].
eapply perm_trans; [exact P | apply sort_perm].
Qed.
End Facts.
End SortFacts.

Module StringOrder.
Lemma ascii_compare_trans_lt (a b c : ascii) :
Ascii.compare a b = Lt -> Ascii.compare b c = Lt -> Ascii.compare a c = Lt.
Proof.
unfold Ascii.compare. rewrite !N.compare_lt_iff. lia.
Qed.

Lemma str_leb_iff (s t : string) : str_leb s t = true <-> String.compare s t <> Gt.
Proof. unfold str_leb, String.leb. destruct (String.compare s t); split; congruence. Qed.

Lemma str_compare_trans (s t u : string) :
String.compare s t <> Gt -> String.compare t u <> Gt -> String.compare s u <> Gt.
Proof.
revert t u. induction s as [|a s IH]; intros t u H1 H2; destruct t as [|b t];
  destruct u as [|c u]; simpl in *; try congruence.
destruct (Ascii.compare a b) eqn:Eab; try congruence;
destruct (Ascii.compare b c) eqn:Ebc; try congruence.
- apply Ascii.compare_eq_iff in Eab, Ebc; subst.
  replace (Ascii.compare c c) with Eq by (symmetry; apply N.compare_refl).
  eapply IH; eauto.
- apply Ascii.compare_eq_iff in Eab; subst. rewrite Ebc. discriminate.
- apply Ascii.compare_eq_iff in Ebc; subst. rewrite Eab. discriminate.
- rewrite (ascii_compare_trans_lt _ _ _ Eab Ebc). discriminate.
Qed.

Lemma str_leb_trans (s t u : string) :
str_leb s t = true -> str_leb t u = true -> str_leb s u = true.
Proof. rewrite !str_leb_iff. apply str_compare_trans. Qed.

Lemma str_leb_total (s t : string) : str_leb s t = true \/ str_leb t s = true.
Proof. apply String.leb_total. Qed.

Lemma str_leb_antisym (s t : string) : str_leb s t = true -> str_leb t s = true -> s = t.
Proof. apply String.leb_antisym. Qed.

Lemma sorted_strs_perm (l1 l2 : list string) :
Permutation l1 l2 -> sorted_strs l1 = sorted_strs l2.
Proof.
intro P. apply SortFacts.sort_unique; auto.
- exact str_leb_total.
- exact str_leb_trans.
- intros x y _ _; apply str_leb_antisym.
Qed.
End StringOrder.

Module BundleFacts.
Import Json Bundle.
Local Open Scope string_scope.

Lemma dict_get_some_in {V} (k : string) (v : V) (d : dict V) :
dict_get k d = Some v -> In (k, v) d.
Proof.
induction d as [|[k' v'] r IH]; simpl; [discriminate|].
destruct (String.eqb_spec k k'); [intros [= <-]; subst; left; auto | auto].
Qed.

Lemma dict_get_in {V} (k : string) (v : V) (d : dict V) :
NoDup (map fst d) -> In (k, v) d -> dict_get k d = Some v.
Proof.
induction d as [|[k' v'] r IH]; simpl; [contradiction|].
intros Hnd Hin. inversion Hnd as [|? ? Hk Hr]; subst.
destruct (String.eqb_spec k k') as [->|Hne].
- destruct Hin as [[= ->]|Hin]; [reflexivity|].
  exfalso; apply Hk. apply (in_map fst) in Hin; exact Hin.
- destruct Hin as [[= -> ->]|Hin]; [congruence | auto].
Qed.

Lemma dict_get_perm {V} (k : string) (d1 d2 : dict V) :
NoDup (map fst d1) -> Permutation d1 d2 -> dict_get k d1 = dict_get k d2.
Proof.
intros Hnd P.
assert (Hnd2 : NoDup (map fst d2)) by (eapply Permutation_NoDup; [apply Permutation_map, P | exact Hnd]).
destruct (dict_get k d1) as [v|] eqn:E1.
- symmetry. apply dict_get_in; auto.
  apply (Permutation_in _ P). apply dict_get_some_in; auto.
- destruct (dict_get k d2) as [v|] eqn:E2; [|reflexivity].
  apply dict_get_some_in in E2.
  apply (Permutation_in _ (Permutation_sym P)) in E2.
  rewrite (dict_get_in _ _ _ Hnd E2) in E1. discriminate.
Qed.

Lemma dict_get_forall2 (k : string) (d1 d2 : source_runs_t) :
Forall2 (fun a b => fst a = fst b /\ Permutation (snd a) (snd b)) d1 d2 ->
match dict_get k d1, dict_get k d2 with
| None, None => True
| Some a, Some b => Permutation a b
| _, _ => False
end.
Proof.
induction 1 as [|[k1 v1] [k2 v2] r1 r2 [Hk Hp] _ IH]; simpl in *; [exact I|].
subst k2. destruct (String.eqb k k1); auto.
Qed.

Definition normalize (d : source_runs_t) : source_runs_t :=
map (fun '(source_name, run_ids) => (source_name, sorted_strs run_ids)) d.

Lemma normalize_keys (d : source_runs_t) : map fst (normalize d) = map fst d.
Proof. induction d as [|[k v] r IH]; simpl; congruence. Qed.

Lemma dict_get_normalize (k : string) (d : source_runs_t) :
dict_get k (normalize d) = option_map sorted_strs (dict_get k d).
Proof.
induction d as [|[k' v] r IH]; simpl; [reflexivity|].
destruct (String.eqb k k'); auto.
Qed.

Lemma bundle_payload_normalize (p : string) (d : source_runs_t) :
bundle_payload p d =
JObj [("build_profile", JStr p);
      ("source_runs",
        JObj (map (fun key => (key, JList (map JStr (match dict_get key (normalize d) with
                                                    | Some v => v | None => [] end))))
                  (sorted_strs (map fst (normalize d)))))].
Proof. reflexivity. Qed.

Definition key_leb (a b : string * list string) : bool := str_leb (fst a) (fst b).

Lemma StronglySorted_map_fst (l : list (string * list string)) :
StronglySorted (fun a b => key_leb a b = true) l ->
StronglySorted (fun x y => str_leb x y = true) (map fst l).
Proof.
induction 1 as [|a r _ IH HF]; simpl; constructor; auto.
apply Forall_map. exact HF.
Qed.

Lemma key_sort_strongly_sorted (l : list (string * list string)) :
StronglySorted (fun a b => key_leb a b = true) (PySort.sort key_leb l).
Proof.
apply SortFacts.sort_strongly_sorted.
- intros x y; apply StringOrder.str_leb_total.
- intros x y z; apply StringOrder.str_leb_trans.
Qed.

(** The code's payload is the specification's one on a dict. *)
Lemma bundle_payload_spec (p : string) (d : source_runs_t) :
NoDup (map fst d) -> bundle_payload p d = spec_payload p d.
Proof.
intro Hnd. rewrite bundle_payload_normalize, normalize_keys. unfold spec_payload.
set (l := PySort.sort key_leb d).
assert (Pl : Permutation d l)
  by (apply (SortFacts.sort_perm key_leb); intros; apply StringOrder.str_leb_total).
assert (Hkeys : sorted_strs (map fst d) = map fst l).
{ rewrite (StringOrder.sorted_strs_perm _ _ (Permutation_map fst Pl)).
  apply (SortFacts.strongly_sorted_unique str_leb).
  - intros x y _ _; apply StringOrder.str_leb_antisym.
  - apply (SortFacts.sort_strongly_sorted str_leb);
      [exact StringOrder.str_leb_total | exact StringOrder.str_leb_trans].
  - apply StronglySorted_map_fst, key_sort_strongly_sorted.
  - apply Permutation_sym, (SortFacts.sort_perm str_leb). }
rewrite Hkeys, map_map.
replace (PySort.sort (fun a b : string * list string => str_leb (fst a) (fst b)) d)
  with l by reflexivity.
do 5 f_equal.
apply map_ext_in. intros [k ids] Hin. simpl.
rewrite dict_get_normalize, (dict_get_in k ids d Hnd); [reflexivity|].
apply (Permutation_in _ (Permutation_sym Pl)); exact Hin.
Qed.

(** Reordering keys or run ids does not change the payload. *)
Lemma bundle_payload_same (p : string) (m1 m2 : source_runs_t) :
NoDup (map fst m1) -> same_source_runs m1 m2 -> bundle_payload p m1 = bundle_payload p m2.
Proof.
intros Hnd [m' [P F]].
rewrite !bundle_payload_normalize, !normalize_keys.
assert (Hk : map fst m' = map fst m2).
{ clear P Hnd. induction F as [|a b r1 r2 [Hab _] _ IH]; simpl; congruence. }
rewrite (StringOrder.sorted_strs_perm _ _ (Permutation_map fst P)), Hk.
do 5 f_equal. apply map_ext. intro key.
rewrite !dict_get_normalize, (dict_get_perm key m1 m' Hnd P).
pose proof (dict_get_forall2 key m' m2 F) as G.
destruct (dict_get key m'), (dict_get key m2); try contradiction; simpl; [|reflexivity].
rewrite (StringOrder.sorted_strs_perm _ _ G). reflexivity.
Qed.
End BundleFacts.

Module NormaliseClaims.
Import Normalise NormaliseFacts.

Example postcode_norm_ex :
postcode_norm (Some [115; 119; 49; 97; 32; 49; 97; 97]) (* "sw1a 1aa" *)
= Some [83; 87; 49; 65; 49; 65; 65].
Proof. reflexivity. Qed.

Example postcode_display_ex :
postcode_display (Some [115; 119; 49; 97; 45; 49; 97; 97]) (* "sw1a-1aa" *)
= Some [83; 87; 49; 65; 32; 49; 65; 65].
Proof. reflexivity. Qed.

(** C10: for every string [s], [postcode_norm s] is [None] exactly when [s]
  has no character of the class [[A-Za-z0-9]], and otherwise a non-empty
  string of uppercase ASCII letters and digits; [postcode_display s] is
  [None] exactly when [postcode_norm s] is, otherwise the normal form
  itself when it has at most 3 characters and the normal form with one
  space before its last three characters otherwise; and
  [postcode_norm (postcode_display s) = postcode_norm s]. *)
Theorem postcode_norm_display_spec (s : pystr) :
(postcode_norm (Some s) = None <-> Forall (fun c => is_alnum c = false) s) /\
match postcode_norm (Some s) with
| None => postcode_display (Some s) = None
| Some n =>
    n <> [] /\
    Forall (fun c => is_ascii_upper c || is_ascii_digit c = true) n /\
    postcode_display (Some s) =
      Some (if (length n <=? 3)%nat then n
            else firstn (length n - 3) n ++ [space] ++ skipn (length n - 3) n)
end /\
postcode_norm (postcode_display (Some s)) = postcode_norm (Some s).
Proof.
unfold postcode_display, postcode_norm.
pose proof (clean_nil_iff s) as Hnil.
pose proof (clean_chars s) as Hch.
destruct (clean s) as [|c0 r] eqn:Hc.
- split; [tauto|]. split; reflexivity.
- split; [split; [discriminate | intro H; apply Hnil in H; discriminate]|].
  split; [split; [discriminate | split; [exact Hch | destruct (length (c0 :: r) <=? 3)%nat; reflexivity]]|].
  destruct (length (c0 :: r) <=? 3)%nat.
  + rewrite (clean_fixed _ Hch). reflexivity.
  + rewrite !clean_app, clean_space, app_nil_l, <- clean_app, firstn_skipn.
    rewrite (clean_fixed _ Hch). reflexivity.
Qed.

End NormaliseClaims.

Module OnspdClaims.
Import Onspd.
Local Open Scope string_scope.

(** Surrounding whitespace, [\xa0] included, is stripped and the letter
  upper-cased. *)
Example onspd_code_ex :
  onspd_code (Some (" e92000001" ++ String (ascii_of_nat 160) "")) = code_points "E92000001".
Proof. vm_compute. reflexivity. Qed.

(** [str.upper()] maps [\xdf] to two code points. *)
Example onspd_code_sharp_s_ex :
  onspd_code (Some (String (ascii_of_nat 223) "92000003")) = code_points "SS92000003".
Proof. vm_compute. reflexivity. Qed.














End OnspdClaims.

Module BundleClaims.
Import Json Bundle BundleFacts.
Local Open Scope string_scope.

Example dumps_ex :
dumps (JObj [("ppd", JList [JStr "a"; JStr "b"])]) =
"{" ++ quote ++ "ppd" ++ quote ++ ":[" ++ quote ++ "a" ++ quote ++ ","
    ++ quote ++ "b" ++ quote ++ "]}".
Proof. reflexivity. Qed.

Example bundle_payload_ex :
bundle_payload "gb_core" [("ppd", ["r2"; "r1"]); ("onspd", ["r0"])] =
JObj [("build_profile", JStr "gb_core");
      ("source_runs", JObj [("onspd", JList [JStr "r0"]);
                            ("ppd", JList [JStr "r1"; JStr "r2"])])].
Proof. reflexivity. Qed.

(** C2: for every profile and every [source_runs] dict, [_bundle_hash] is
  the SHA-256 hex digest of the UTF-8 bytes of the compact, ASCII-escaped
  JSON encoding of [{build_profile, source_runs}] with the sources in
  lexicographic order and each run list sorted; hence two dicts that
  differ only by the order of their keys or of the run ids under a key
  have the same bundle hash.  The digest function is a parameter. *)
Theorem bundle_hash_canonical_invariant
  (sha256_hexdigest : list Byte.byte -> string) (build_profile : string)
  (m1 m2 : source_runs_t)
  (Hdict : NoDup (map fst m1)) (Hsame : same_source_runs m1 m2) :
_bundle_hash sha256_hexdigest build_profile m1 =
  sha256_hexdigest (utf8_encode (dumps (spec_payload build_profile m1))) /\
_bundle_hash sha256_hexdigest build_profile m1 =
  _bundle_hash sha256_hexdigest build_profile m2.
Proof.
unfold _bundle_hash. split.
- rewrite bundle_payload_spec by exact Hdict. reflexivity.
- rewrite (bundle_payload_same build_profile m1 m2 Hdict Hsame). reflexivity.
Qed.

Lemma bundle_hash_canonical_invariant_witness :
NoDup (map fst [("ppd", ["r2"; "r1"]); ("onspd", ["r0"])]) /\
same_source_runs [("ppd", ["r2"; "r1"]); ("onspd", ["r0"])]
                 [("onspd", ["r0"]); ("ppd", ["r1"; "r2"])] /\
_bundle_hash string_of_list_byte "gb_core" [("ppd", ["r2"; "r1"]); ("onspd", ["r0"])] =
_bundle_hash string_of_list_byte "gb_core" [("onspd", ["r0"]); ("ppd", ["r1"; "r2"])].
Proof.
assert (Hnd : NoDup (map fst [("ppd", ["r2"; "r1"]); ("onspd", ["r0"])])).
{ simpl. constructor; [simpl; intros [H|H]; [discriminate | exact H] |].
  constructor; [intros [] | constructor]. }
assert (Hs : same_source_runs [("ppd", ["r2"; "r1"]); ("onspd", ["r0"])]
                              [("onspd", ["r0"]); ("ppd", ["r1"; "r2"])]).
{ exists [("onspd", ["r0"]); ("ppd", ["r2"; "r1"])]. split; [apply perm_swap|].
  constructor; [split; reflexivity|].
  constructor; [split; [reflexivity | apply perm_swap] | constructor]. }
split; [exact Hnd|]. split; [exact Hs|].
exact (proj2 (bundle_hash_canonical_invariant string_of_list_byte "gb_core" _ _ Hnd Hs)).
Defined.

End BundleClaims.

Module BuildBundleFacts.
Import Bundle BuildBundle BundleFacts.
Local Open Scope string_scope.

Lemma missing_nil_in (required keys : list string) :
sorted_strs (filter (fun s => negb (existsb (String.eqb s) keys)) required) = [] ->
forall s, In s required -> In s keys.
Proof.
intros H s Hs.
pose proof (SortFacts.sort_perm str_leb
              (filter (fun s => negb (existsb (String.eqb s) keys)) required)) as P.
fold (sorted_strs (filter (fun s => negb (existsb (String.eqb s) keys)) required)) in P.
rewrite H in P. apply Permutation_sym, Permutation_nil in P.
destruct (existsb (String.eqb s) keys) eqn:E.
- apply existsb_exists in E as [x [Hx Ex]]. apply String.eqb_eq in Ex; subst; exact Hx.
- assert (In s (filter (fun s => negb (existsb (String.eqb s) keys)) required))
    by (apply filter_In; rewrite E; auto).
  rewrite P in H0; contradiction.
Qed.

Lemma in_sorted_strs (s : string) (l : list string) : In s l -> In s (sorted_strs l).
Proof.
apply Permutation_in, (SortFacts.sort_perm str_leb).
Qed.

Lemma select_bundle_app_new st rows (profile hash : string) b :
find (fun b => (bb_build_profile b =? profile) && (bb_bundle_hash b =? hash)) st = None ->
bb_build_profile b = profile -> bb_bundle_hash b = hash ->
find (fun b => (bb_build_profile b =? profile) && (bb_bundle_hash b =? hash)) (st ++ b :: rows) = Some b.
Proof.
induction st as [|b' r IH]; simpl; intros Hf Hp Hh.
- rewrite Hp, Hh, !String.eqb_refl. reflexivity.
- destruct ((bb_build_profile b' =? profile) && (bb_bundle_hash b' =? hash)); [discriminate | auto].
Qed.
End BuildBundleFacts.

Module BuildBundleClaims.
Import Bundle BuildBundle BundleFacts BuildBundleFacts.
Local Open Scope string_scope.

(** Sample ingest run ids: canonical [uuid] texts. *)
Definition sample_uuid (n : string) : string := "00000000-0000-4000-8000-0000000000" ++ n.

Definition gb_core_sources : list string :=
["onspd"; "os_open_usrn"; "os_open_names"; "os_open_roads";
 "os_open_uprn"; "os_open_lids"; "nsul"].

(** Sample metadata: one ingest run per source, with ids [...01] to
  [...08], and a second [nsul] run [...09]. *)
Definition sample_runs : list ingest_run_row :=
[{| ir_run_id := sample_uuid "01"; ir_source_name := "onspd" |};
 {| ir_run_id := sample_uuid "02"; ir_source_name := "os_open_usrn" |};
 {| ir_run_id := sample_uuid "03"; ir_source_name := "os_open_names" |};
 {| ir_run_id := sample_uuid "04"; ir_source_name := "os_open_roads" |};
 {| ir_run_id := sample_uuid "05"; ir_source_name := "os_open_uprn" |};
 {| ir_run_id := sample_uuid "06"; ir_source_name := "os_open_lids" |};
 {| ir_run_id := sample_uuid "07"; ir_source_name := "nsul" |};
 {| ir_run_id := sample_uuid "08"; ir_source_name := "ppd" |};
 {| ir_run_id := sample_uuid "09"; ir_source_name := "nsul" |}].

Definition sample_db : db :=
{| meta_build_bundle := []; meta_build_bundle_source := []; meta_ingest_run := sample_runs |}.

Definition gb_core_runs : source_runs_t :=
combine gb_core_sources
  (map (fun n => [sample_uuid n]) ["01"; "02"; "03"; "04"; "05"; "06"; "07"]).

Definition sample_manifest : manifest :=
{| build_profile := "gb_core"; source_runs := gb_core_runs |}.

Example create_build_bundle_ex :
match create_build_bundle string_of_list_byte "b1" sample_manifest sample_db with
| inr (r, _) => r_status r = "created" /\ r_bundle_id r = "b1"
| inl _ => False
end.
Proof. vm_compute. split; reflexivity. Qed.

(** A run id PostgreSQL does not read as a [uuid] makes the lookup fail. *)
Example create_build_bundle_not_uuid_ex :
create_build_bundle string_of_list_byte "b1"
  {| build_profile := "gb_core";
     source_runs := (gb_core_runs ++ [("ppd", ["run-unknown"])])%list |} sample_db
= inl (InvalidTextRepresentation "run-unknown").
Proof. vm_compute. reflexivity. Qed.

(** C3: [create_build_bundle] is idempotent per (profile, source runs): on
  a database holding a bundle row with the manifest's (profile, hash) it
  returns that row's id with status [existing] and changes nothing; on a
  database without one, a call that succeeds appends exactly one bundle row
  with status [created] and returns [created] with the new id, and a
  second call with the same manifest then returns that same id with status
  [existing] and changes nothing. *)
Theorem create_build_bundle_idempotent
  (sha256_hexdigest : list Byte.byte -> string) (id1 id2 : string)
  (m : manifest) (st st1 : db) (r1 : BuildBundleResult)
  (Hfresh : select_bundle st (build_profile m)
              (_bundle_hash sha256_hexdigest (build_profile m) (source_runs m)) = None)
  (Hcall : create_build_bundle sha256_hexdigest id1 m st = inr (r1, st1)) :
(forall (st0 : db) (b : bundle_row) (new_id : string),
    select_bundle st0 (build_profile m)
      (_bundle_hash sha256_hexdigest (build_profile m) (source_runs m)) = Some b ->
    create_build_bundle sha256_hexdigest new_id m st0 =
      inr ({| r_bundle_id := bb_bundle_id b; r_status := "existing";
              r_bundle_hash := _bundle_hash sha256_hexdigest (build_profile m) (source_runs m) |},
           st0)) /\
r_status r1 = "created" /\ r_bundle_id r1 = id1 /\
meta_build_bundle st1 =
  (meta_build_bundle st ++
   [{| bb_bundle_id := id1; bb_build_profile := build_profile m;
       bb_bundle_hash := _bundle_hash sha256_hexdigest (build_profile m) (source_runs m);
       bb_status := "created" |}])%list /\
create_build_bundle sha256_hexdigest id2 m st1 =
  inr ({| r_bundle_id := id1; r_status := "existing"; r_bundle_hash := r_bundle_hash r1 |}, st1).
Proof.
split.
{ intros st0 b new_id Hb. unfold create_build_bundle. rewrite Hb. reflexivity. }
unfold create_build_bundle in Hcall |- *. rewrite Hfresh in Hcall.
destruct (dict_get (build_profile m) BUILD_PROFILES) as [req|]; [|discriminate].
destruct (sorted_strs _) as [|x xs]; [|discriminate].
destruct (check_sources st m (sorted_strs req)); [discriminate|].
destruct (bundle_source_rows id1 (source_runs m)) as [e|rows]; [discriminate|].
injection Hcall as <- <-. simpl.
split; [reflexivity|]. split; [reflexivity|]. split; [reflexivity|].
unfold select_bundle in *. simpl.
erewrite select_bundle_app_new; [reflexivity | exact Hfresh | reflexivity | reflexivity].
Qed.

Lemma create_build_bundle_idempotent_witness :
exists r1 st1,
  select_bundle sample_db "gb_core" (_bundle_hash string_of_list_byte "gb_core" gb_core_runs) = None /\
  create_build_bundle string_of_list_byte "b1" sample_manifest sample_db = inr (r1, st1) /\
  create_build_bundle string_of_list_byte "b2" sample_manifest st1 =
    inr ({| r_bundle_id := "b1"; r_status := "existing"; r_bundle_hash := r_bundle_hash r1 |}, st1).
Proof.
destruct (create_build_bundle string_of_list_byte "b1" sample_manifest sample_db) as [e|[r1 st1]] eqn:E.
- vm_compute in E. discriminate.
- exists r1, st1.
  assert (Hf : select_bundle sample_db "gb_core"
                 (_bundle_hash string_of_list_byte "gb_core" gb_core_runs) = None)
    by reflexivity.
  split; [exact Hf|]. split; [reflexivity|].
  exact (proj2 (proj2 (proj2 (proj2
           (create_build_bundle_idempotent string_of_list_byte "b1" "b2" sample_manifest
              sample_db st1 r1 Hf E))))).
Defined.

(** C4 (code bug): with profile [gb_core], an ingest run that exists in
  [meta.ingest_run] as an [nsul] run (a valid [uuid], not otherwise in the
  bundle) listed under the [ppd] slot is not checked: [ppd] is not
  required by [gb_core], so the lookup loop never reaches it, and the
  bundle is created with status [created] and a bundle-source row that
  records the [nsul] run as a [ppd] run. *)
Lemma create_build_bundle_extra_source_counterexample :
select_ingest_run sample_db (sample_uuid "09") = inr (Some "nsul") /\
exists r st',
  create_build_bundle string_of_list_byte "b1"
    {| build_profile := "gb_core";
       source_runs := (gb_core_runs ++ [("ppd", [sample_uuid "09"])])%list |} sample_db
    = inr (r, st') /\
  r_status r = "created" /\
  meta_build_bundle st' <> [] /\
  In {| bs_bundle_id := "b1"; bs_source_name := "ppd"; bs_ingest_run_id := sample_uuid "09" |}
     (meta_build_bundle_source st').
Proof.
split; [vm_compute; reflexivity|].
eexists; eexists; split; [vm_compute; reflexivity|].
split; [reflexivity|]. split; [discriminate|]. vm_compute. tauto.
Qed.

End BuildBundleClaims.

(** Comparison functions that order their type totally (up to the
    equivalence their [Eq] stands for), and their lexicographic products. *)
Module Cmp.
Record ok {A} (c : A -> A -> comparison) : Prop := {
antisym : forall a b, c a b = CompOpp (c b a);
eq_subst : forall a b d, c a b = Eq -> c a d = c b d;
lt_trans : forall a b d, c a b = Lt -> c b d = Lt -> c a d = Lt }.

Section Props.
Context {A : Type} (c : A -> A -> comparison) (H : ok c).

Lemma le_trans a b d : c a b <> Gt -> c b d <> Gt -> c a d <> Gt.
Proof.
intros Hab Hbd.
destruct (c a b) eqn:E1; [| | congruence];
destruct (c b d) eqn:E2; try congruence.
- rewrite (eq_subst c H a b d E1), E2. discriminate.
- rewrite (eq_subst c H a b d E1), E2. discriminate.
- rewrite (antisym c H a d).
assert (E3 : c d b = Eq) by (rewrite (antisym c H d b), E2; reflexivity).
rewrite (eq_subst c H d b a E3), (antisym c H b a), E1. discriminate.
- rewrite (lt_trans c H a b d E1 E2). discriminate.
Qed.

Lemma le_total a b : c a b <> Gt \/ c b a <> Gt.
Proof. rewrite (antisym c H b a). destruct (c a b); simpl; [left|left|right]; discriminate. Qed.

Lemma refl_eq a : c a a = Eq.
Proof.
pose proof (antisym c H a a) as E.
destruct (c a a); simpl in E; congruence.
Qed.
End Props.

Lemma lex_ok {A} (c1 c2 : A -> A -> comparison) :
ok c1 -> ok c2 -> ok (fun a b => Finalisation.lex (c1 a b) (c2 a b)).
Proof.
intros H1 H2. unfold Finalisation.lex. constructor.
- intros a b. rewrite (antisym c1 H1 a b), (antisym c2 H2 a b).
  destruct (c1 b a); reflexivity.
- intros a b d E. destruct (c1 a b) eqn:E1; try discriminate.
  rewrite (eq_subst c1 H1 a b d E1), (eq_subst c2 H2 a b d E). reflexivity.
- intros a b d E F.
  assert (Gab : c1 a b = Lt \/ (c1 a b = Eq /\ c2 a b = Lt))
    by (destruct (c1 a b); auto; discriminate).
  assert (Gbd : c1 b d = Lt \/ (c1 b d = Eq /\ c2 b d = Lt))
    by (destruct (c1 b d); auto; discriminate).
  destruct Gab as [Lab|[Eab Lab]], Gbd as [Lbd|[Ebd Lbd]].
  + rewrite (lt_trans c1 H1 a b d Lab Lbd). reflexivity.
  + assert (Edb : c1 d b = Eq) by (rewrite (antisym c1 H1 d b), Ebd; reflexivity).
    rewrite (antisym c1 H1 a d), (eq_subst c1 H1 d b a Edb), (antisym c1 H1 b a), Lab.
    reflexivity.
  + rewrite (eq_subst c1 H1 a b d Eab), Lbd. reflexivity.
  + rewrite (eq_subst c1 H1 a b d Eab), Ebd, (lt_trans c2 H2 a b d Lab Lbd). reflexivity.
Qed.

Lemma flip_ok {A} (c : A -> A -> comparison) : ok c -> ok (fun a b => c b a).
Proof.
intro H. constructor.
- intros a b. apply (antisym c H).
- intros a b d E.
  assert (E' : c a b = Eq) by (rewrite (antisym c H), E; reflexivity).
  rewrite (antisym c H d a), (antisym c H d b), (eq_subst c H a b d E'). reflexivity.
- intros a b d E F. exact (lt_trans c H d b a F E).
Qed.

Lemma proj_ok {A B} (f : A -> B) (c : B -> B -> comparison) :
ok c -> ok (fun a b => c (f a) (f b)).
Proof.
intro H. constructor.
- intros a b; apply (antisym c H).
- intros a b d; apply (eq_subst c H).
- intros a b d; apply (lt_trans c H).
Qed.

Lemma nulls_last_ok {A} (c : A -> A -> comparison) : ok c -> ok (Finalisation.nulls_last c).
Proof.
intro H. unfold Finalisation.nulls_last. constructor.
- intros [a|] [b|]; simpl; auto. apply (antisym c H).
- intros [a|] [b|] [d|]; simpl; try discriminate; auto. apply (eq_subst c H).
- intros [a|] [b|] [d|]; simpl; try discriminate; auto. apply (lt_trans c H).
Qed.

Lemma Qcompare_ok : ok Qcompare.
Proof.
constructor.
- intros a b. rewrite Qcompare_antisym. destruct (b ?= a)%Q; reflexivity.
- intros a b d E. apply Qeq_alt in E. rewrite E. reflexivity.
- intros a b d E F. apply Qlt_alt in E, F. apply Qlt_alt. eapply Qlt_trans; eauto.
Qed.

Lemma Nat_compare_ok : ok Nat.compare.
Proof.
constructor.
- intros a b. apply Nat.compare_antisym.
- intros a b d E. apply Nat.compare_eq in E. subst. reflexivity.
- intros a b d E F. apply Nat.compare_lt_iff in E, F. apply Nat.compare_lt_iff. lia.
Qed.

Lemma Z_compare_ok : ok Z.compare.
Proof.
constructor.
- intros a b. apply Z.compare_antisym.
- intros a b d E. apply Z.compare_eq in E. subst. reflexivity.
- intros a b d E F. rewrite Z.compare_lt_iff in *. lia.
Qed.

Lemma String_compare_ok : ok String.compare.
Proof.
constructor.
- apply String.compare_antisym.
- intros a b d E. apply String.compare_eq_iff in E. subst. reflexivity.
- intros a b d E F.
  assert (Le : String.compare a d <> Gt)
    by (apply (StringOrder.str_compare_trans a b d); congruence).
  destruct (String.compare a d) eqn:G; [|reflexivity|congruence].
  apply String.compare_eq_iff in G. subst d.
  rewrite String.compare_antisym, E in F. discriminate.
Qed.
End Cmp.

Module FinalisationFacts.
Import Bundle Candidates Weights Finalisation.
Local Open Scope string_scope.

(** *** Rounding *)

Lemma Qfloor_Z_plus_half (z : Z) : Qfloor (inject_Z z + (1 # 2)) = z.
Proof.
unfold Qfloor, inject_Z, Qplus. simpl.
replace (z * 2 + 1)%Z with (1 + z * 2)%Z by lia.
rewrite Z.div_add by lia. reflexivity.
Qed.

Lemma round_half_away_Z (q : Q) (z : Z) : q == inject_Z z -> round_half_away q = z.
Proof.
intro E. unfold round_half_away.
destruct (Qle_bool 0 q) eqn:B.
- rewrite (Qfloor_comp (q + (1 # 2)) (inject_Z z + (1 # 2))) by (rewrite E; reflexivity).
  apply Qfloor_Z_plus_half.
- rewrite (Qfloor_comp (- q + (1 # 2)) (inject_Z (- z) + (1 # 2))).
  + rewrite Qfloor_Z_plus_half. lia.
  + rewrite E, inject_Z_opp. reflexivity.
Qed.

Lemma round4_of4 (z : Z) : round4 (of4 z) = z.
Proof.
unfold round4, of4. apply round_half_away_Z.
unfold Qeq, Qmult, inject_Z; simpl. lia.
Qed.

Lemma round4_correction (k s : Z) : round4 (of4 k + (1 - of4 s)) = (k + 10000 - s)%Z.
Proof.
unfold round4, of4. apply round_half_away_Z.
cbv [Qeq Qmult Qplus Qminus Qopp inject_Z Qnum Qden]. rewrite ?Pos2Z.inj_mul. lia.
Qed.

(** *** The ranking *)

Lemma rank_cmp_ok : Cmp.ok rank_cmp.
Proof.
unfold rank_cmp.
apply (Cmp.lex_ok (fun a b : grp * Q => Qcompare (snd b) (snd a))).
{ apply Cmp.flip_ok, (Cmp.proj_ok snd), Cmp.Qcompare_ok. }
apply (Cmp.lex_ok (fun a b : grp * Q => Nat.compare (g_conf_rank (fst b)) (g_conf_rank (fst a)))).
{ apply Cmp.flip_ok, (Cmp.proj_ok (fun x : grp * Q => g_conf_rank (fst x))), Cmp.Nat_compare_ok. }
apply Cmp.lex_ok.
- apply (Cmp.proj_ok (fun x : grp * Q => g_canonical_street_name (fst x))),
    Cmp.nulls_last_ok, Cmp.String_compare_ok.
- apply (Cmp.proj_ok (fun x : grp * Q => g_usrn (fst x))), Cmp.nulls_last_ok, Cmp.Z_compare_ok.
Qed.

Lemma rank_leb_iff a b : rank_leb a b = true <-> rank_cmp a b <> Gt.
Proof. unfold rank_leb. destruct (rank_cmp a b); split; congruence. Qed.

Lemma rank_leb_total a b : rank_leb a b = true \/ rank_leb b a = true.
Proof. rewrite !rank_leb_iff. apply (Cmp.le_total _ rank_cmp_ok). Qed.

Lemma rank_leb_trans a b d : rank_leb a b = true -> rank_leb b d = true -> rank_leb a d = true.
Proof. rewrite !rank_leb_iff. apply (Cmp.le_trans _ rank_cmp_ok). Qed.

Lemma rank_leb_refl a : rank_leb a a = true.
Proof. apply rank_leb_iff. rewrite (Cmp.refl_eq _ rank_cmp_ok). discriminate. Qed.

(** *** Sums *)

Lemma sum_Z_perm {A} (f : A -> Z) (l1 l2 : list A) :
Permutation l1 l2 -> sum_Z f l1 = sum_Z f l2.
Proof. induction 1; unfold sum_Z in *; simpl; lia. Qed.

Lemma sum_Z_app {A} (f : A -> Z) (l1 l2 : list A) :
sum_Z f (l1 ++ l2)%list = (sum_Z f l1 + sum_Z f l2)%Z.
Proof. induction l1; unfold sum_Z in *; simpl; lia. Qed.

Lemma sum_Z_map {A B} (f : B -> Z) (g : A -> B) (l : list A) :
sum_Z f (map g l) = sum_Z (fun x => f (g x)) l.
Proof. induction l; unfold sum_Z in *; simpl; lia. Qed.

Lemma sum_Z_ext_in {A} (f g : A -> Z) (l : list A) :
(forall x, In x l -> f x = g x) -> sum_Z f l = sum_Z g l.
Proof.
induction l as [|x r IH]; unfold sum_Z in *; simpl; intros H; [reflexivity|].
rewrite H, IH by auto. reflexivity.
Qed.
End FinalisationFacts.

Module FinalisationRows.
Import Bundle Finalisation FinalisationView FinalisationFacts.
Local Open Scope string_scope.

Lemma grp_eta (g : grp) :
{| g_postcode := g_postcode g; g_canonical_street_name := g_canonical_street_name g;
   g_usrn := g_usrn g; g_weighted_score := g_weighted_score g; g_conf_rank := g_conf_rank g |} = g.
Proof. destruct g; reflexivity. Qed.

(** Every numbered row comes from an element of the list, with a row
  number at least the first one, and only the head gets the first. *)
Lemma number_rows_in rs n l f :
In f (number_rows rs n l) ->
exists raw, In (row_grp f, raw) l /\
  f_final_probability f = final_probability (f_rn f) (round4 raw) rs /\
  (n <= f_rn f)%nat /\
  (f_rn f = n -> exists rest, l = (row_grp f, raw) :: rest).
Proof.
revert n. induction l as [|[g raw] l IH]; simpl; intros n H; [contradiction|].
destruct H as [<-|H].
- exists raw. unfold row_grp; simpl. rewrite grp_eta.
  split; [left; reflexivity|]. split; [reflexivity|]. split; [lia|].
  intros _. exists l. reflexivity.
- destruct (IH (S n) H) as (raw' & Hin & Hp & Hle & Hhd).
  exists raw'. split; [right; exact Hin|]. split; [exact Hp|]. split; [lia|].
  intros E. lia.
Qed.

Lemma number_rows_weights rs n l :
map f_weighted_score (number_rows rs n l) = map (fun x => g_weighted_score (fst x)) l.
Proof.
revert n. induction l as [|[g raw] l IH]; simpl; intros n; [reflexivity|].
rewrite IH. reflexivity.
Qed.

Lemma number_rows_postcodes rs n l :
map f_postcode (number_rows rs n l) = map (fun x => g_postcode (fst x)) l.
Proof.
revert n. induction l as [|[g raw] l IH]; simpl; intros n; [reflexivity|].
rewrite IH. reflexivity.
Qed.

(** After the first row, every row keeps its rounded value. *)
Lemma number_rows_sum_tail rs n l :
(2 <= n)%nat ->
sum_Z f_final_probability (number_rows rs n l) = sum_Z (fun x => round4 (snd x)) l.
Proof.
revert n. induction l as [|[g raw] l IH]; simpl; intros n Hn; [reflexivity|].
unfold sum_Z in *; simpl. rewrite IH by lia.
unfold final_probability. destruct (n =? 1)%nat eqn:E; [apply Nat.eqb_eq in E; lia|].
reflexivity.
Qed.

Lemma number_rows_sum rs l :
l <> [] ->
sum_Z f_final_probability (number_rows rs 1 l) = (sum_Z (fun x => round4 (snd x)) l + 10000 - rs)%Z.
Proof.
destruct l as [|[g raw] l]; [congruence|]. intros _. simpl.
unfold sum_Z at 1; simpl. fold (sum_Z f_final_probability (number_rows rs 2 l)).
rewrite number_rows_sum_tail by lia.
unfold final_probability; simpl. rewrite round4_correction.
unfold sum_Z; simpl. lia.
Qed.

Lemma number_rows_rn_one rs l :
l <> [] -> length (filter (fun f => (f_rn f =? 1)%nat) (number_rows rs 1 l)) = 1%nat.
Proof.
destruct l as [|[g raw] l]; [congruence|]. intros _. simpl.
assert (H : forall n, (2 <= n)%nat ->
          filter (fun f => (f_rn f =? 1)%nat) (number_rows rs n l) = []).
{ induction l as [|[g' raw'] l IH]; simpl; intros n Hn; [reflexivity|].
  destruct (n =? 1)%nat eqn:E; [apply Nat.eqb_eq in E; lia|]. apply IH. lia. }
rewrite H by lia. reflexivity.
Qed.
End FinalisationRows.

Module FinalisationBlocks.
Import Bundle Finalisation FinalisationView FinalisationFacts FinalisationRows.
Local Open Scope string_scope.

(** *** Distinct values *)
Section Distinct.
Context {A : Type} (eqb : A -> A -> bool).
Hypothesis eqb_spec : forall a b, eqb a b = true <-> a = b.

Lemma existsb_eqb_in x seen : existsb (eqb x) seen = true <-> In x seen.
Proof.
rewrite existsb_exists. split.
- intros (y & Hy & E). apply eqb_spec in E. subst. exact Hy.
- intros H. exists x. split; [exact H | apply eqb_spec; reflexivity].
Qed.

Lemma distinct_from_in seen l x :
In x (distinct_from eqb seen l) <-> In x l /\ ~ In x seen.
Proof.
revert seen. induction l as [|y r IH]; simpl; intros seen; [tauto|].
destruct (existsb (eqb y) seen) eqn:E.
- apply existsb_eqb_in in E. rewrite IH. split.
+ tauto.
+ intros [[<-|H] Hn]; [contradiction | tauto].
- assert (Hy : ~ In y seen) by (rewrite <- existsb_eqb_in; congruence).
simpl. rewrite IH. simpl. split.
+ intros [<-|[H Hn]]; [tauto|]. split; [tauto|]. tauto.
+ intros [[<-|H] Hn]; [tauto|].
  destruct (eqb y x) eqn:Eyx; [left; apply eqb_spec; exact Eyx|].
  right. split; [exact H|]. intros [E'|E']; [subst; rewrite (proj2 (eqb_spec x x) eq_refl) in Eyx; discriminate | contradiction].
Qed.

Lemma distinct_from_nodup seen l : NoDup (distinct_from eqb seen l).
Proof.
revert seen. induction l as [|y r IH]; simpl; intros seen; [constructor|].
destruct (existsb (eqb y) seen); [apply IH|].
constructor; [|apply IH].
rewrite distinct_from_in. simpl. tauto.
Qed.

Lemma distinct_in l x : In x (distinct eqb l) <-> In x l.
Proof. unfold distinct. rewrite distinct_from_in. simpl. tauto. Qed.

Lemma distinct_nodup l : NoDup (distinct eqb l).
Proof. apply distinct_from_nodup. Qed.
End Distinct.

Lemma flat_map_nil {A B} (h : A -> list B) l :
(forall x, In x l -> h x = []) -> flat_map h l = [].
Proof. induction l as [|x r IH]; simpl; intros H; [reflexivity|]. rewrite H, IH; auto. Qed.

(** In a list without duplicates, a [flat_map] whose blocks are empty
  except at [p] is the block of [p]. *)
Lemma flat_map_single {A B} (h : A -> list B) l p :
NoDup l -> In p l -> (forall x, In x l -> x <> p -> h x = []) -> flat_map h l = h p.
Proof.
induction l as [|x r IH]; simpl; intros ND Hp H; [contradiction|].
inversion ND as [|? ? Hx ND']; subst.
destruct Hp as [->|Hp].
- rewrite flat_map_nil, app_nil_r; [reflexivity|].
  intros y Hy. apply H; [right; exact Hy|]. intros ->. contradiction.
- rewrite H, IH; auto. intros ->. contradiction.
Qed.

Lemma filter_flat_map {A B} (f : B -> bool) (h : A -> list B) l :
filter f (flat_map h l) = flat_map (fun x => filter f (h x)) l.
Proof. induction l as [|x r IH]; simpl; [reflexivity|]. rewrite filter_app, IH. reflexivity. Qed.

Lemma map_row_grp_number_rows rs n l :
map row_grp (number_rows rs n l) = map fst l.
Proof.
revert n. induction l as [|[g raw] l IH]; simpl; intros n; [reflexivity|].
rewrite IH. unfold row_grp; simpl. rewrite grp_eta. reflexivity.
Qed.
End FinalisationBlocks.

Module FinalisationBlockFacts.
Import Bundle Finalisation FinalisationView FinalisationFacts FinalisationRows FinalisationBlocks.
Local Open Scope string_scope.

Definition scored (gs : list grp) (p : string) : list (grp * Q) :=
map (fun g => (g, raw_probability (total_weight gs p) g)) (filter (fun g => g_postcode g =? p) gs).

Lemma postcode_block_eq gs p :
postcode_block gs p =
  number_rows (sum_Z (fun x => round4 (snd x)) (scored gs p)) 1 (PySort.sort rank_leb (scored gs p)).
Proof. reflexivity. Qed.

Lemma scored_in gs p g raw :
In (g, raw) (scored gs p) ->
raw = raw_probability (total_weight gs p) g /\ g_postcode g = p /\ In g gs.
Proof.
unfold scored. rewrite in_map_iff. intros (g' & E & Hin). inversion E; subst.
apply filter_In in Hin as [Hin Hp]. apply String.eqb_eq in Hp. auto.
Qed.

Lemma postcode_block_rounded_sum gs p :
sum_Z (fun f => round4 (row_raw (total_weight gs p) f)) (postcode_block gs p) =
sum_Z (fun x => round4 (snd x)) (scored gs p).
Proof.
rewrite postcode_block_eq.
set (T := total_weight gs p). set (sc := scored gs p).
set (rs := sum_Z (fun x => round4 (snd x)) sc).
transitivity (sum_Z (fun g => round4 (raw_probability T g))
                (map row_grp (number_rows rs 1 (PySort.sort rank_leb sc)))).
{ rewrite sum_Z_map. reflexivity. }
rewrite map_row_grp_number_rows, sum_Z_map.
rewrite <- (sum_Z_perm _ _ _ (SortFacts.sort_perm rank_leb sc)).
unfold rs, sc, scored. rewrite !sum_Z_map. reflexivity.
Qed.

Lemma postcode_block_weight gs p :
sum_Z f_weighted_score (postcode_block gs p) = total_weight gs p.
Proof.
rewrite postcode_block_eq.
transitivity (sum_Z (fun z => z) (map f_weighted_score
  (number_rows (sum_Z (fun x => round4 (snd x)) (scored gs p)) 1 (PySort.sort rank_leb (scored gs p))))).
{ rewrite sum_Z_map. reflexivity. }
rewrite number_rows_weights, sum_Z_map.
rewrite <- (sum_Z_perm _ _ _ (SortFacts.sort_perm rank_leb (scored gs p))).
unfold scored. rewrite sum_Z_map. reflexivity.
Qed.

Lemma postcode_block_row gs p f :
In f (postcode_block gs p) ->
let T := total_weight gs p in
f_postcode f = p /\ In (row_grp f) gs /\
f_final_probability f =
  final_probability (f_rn f) (round4 (row_raw T f))
    (sum_Z (fun x => round4 (row_raw T x)) (postcode_block gs p)) /\
(f_rn f = 1%nat ->
 forall f', In f' (postcode_block gs p) -> rank_leb (row_key T f) (row_key T f') = true).
Proof.
intros Hf T. subst T. rewrite postcode_block_rounded_sum.
pose proof Hf as Hf0. rewrite postcode_block_eq in Hf.
destruct (number_rows_in _ _ _ _ Hf) as (raw & Hin & Hp & _ & Hhd).
assert (Hsc := scored_in gs p (row_grp f) raw
                 (Permutation_in _ (Permutation_sym (SortFacts.sort_perm rank_leb _)) Hin)).
destruct Hsc as (Eraw & Hpc & Hgs). subst raw.
split; [exact Hpc|]. split; [exact Hgs|]. split; [exact Hp|].
intros H1 f' Hf'. rewrite postcode_block_eq in Hf'.
destruct (Hhd H1) as (rest & Erest).
destruct (number_rows_in _ _ _ _ Hf') as (raw' & Hin' & _ & _ & _).
assert (Hsc' := scored_in gs p (row_grp f') raw'
                 (Permutation_in _ (Permutation_sym (SortFacts.sort_perm rank_leb _)) Hin')).
destruct Hsc' as (Eraw' & _ & _). subst raw'.
assert (SS := SortFacts.sort_strongly_sorted rank_leb rank_leb_total rank_leb_trans (scored gs p)).
rewrite Erest in SS, Hin'. inversion SS as [|? ? _ Hall]; subst.
unfold row_key, row_raw.
destruct Hin' as [E|Hin'].
- rewrite <- E. apply rank_leb_refl.
- rewrite Forall_forall in Hall. exact (Hall _ Hin').
Qed.
End FinalisationBlockFacts.

Module FinalisationOutput.
Import Bundle Finalisation FinalisationView FinalisationFacts FinalisationRows
     FinalisationBlocks FinalisationBlockFacts.
Local Open Scope string_scope.

Lemma filter_all_true {A} (f : A -> bool) l :
(forall x, In x l -> f x = true) -> filter f l = l.
Proof.
induction l as [|x r IH]; simpl; intros H; [reflexivity|].
rewrite H by (left; reflexivity). rewrite IH; auto.
Qed.

Lemma filter_all_false {A} (f : A -> bool) l :
(forall x, In x l -> f x = false) -> filter f l = [].
Proof.
induction l as [|x r IH]; simpl; intros H; [reflexivity|].
rewrite H by (left; reflexivity). apply IH; auto.
Qed.

Lemma filter_map_comm {A B} (f : B -> bool) (h : A -> B) l :
filter f (map h l) = map h (filter (fun x => f (h x)) l).
Proof. induction l as [|x r IH]; simpl; [reflexivity|]. destruct (f (h x)); simpl; rewrite IH; reflexivity. Qed.

(** The rows of one postcode in the final [SELECT] are its block. *)
Lemma final_rows_filter gs p :
In p (map f_postcode (final_rows gs)) ->
filter (fun f => f_postcode f =? p) (final_rows gs) = postcode_block gs p /\
postcode_block gs p <> [].
Proof.
unfold final_rows.
set (D := sorted_strs (distinct String.eqb (map g_postcode gs))).
intros H. apply in_map_iff in H as (f & Ef & Hf).
apply in_flat_map in Hf as (x & Hx & Hfx).
destruct (postcode_block_row gs x f Hfx) as (Ex & _).
assert (Exp : x = p) by congruence. rewrite Exp in Hx, Hfx. clear Ex.
split; [|intros E; rewrite E in Hfx; contradiction].
rewrite filter_flat_map.
assert (ND : NoDup D).
{ apply (Permutation_NoDup (SortFacts.sort_perm str_leb _)).
  apply distinct_nodup, String.eqb_eq. }
rewrite (flat_map_single _ D p ND Hx).
- apply filter_all_true. intros y Hy.
  destruct (postcode_block_row gs p y Hy) as (Ey & _). apply String.eqb_eq. exact Ey.
- intros x' _ Hxp. apply filter_all_false. intros y Hy.
  destruct (postcode_block_row gs x' y Hy) as (Ey & _). apply String.eqb_neq. congruence.
Qed.

(** The probabilities of a non-empty block add up to [1.0000]. *)
Lemma postcode_block_sum gs p :
postcode_block gs p <> [] -> sum_Z f_final_probability (postcode_block gs p) = 10000%Z.
Proof.
rewrite postcode_block_eq. intros Hne.
rewrite number_rows_sum by (intros E; rewrite E in Hne; apply Hne; reflexivity).
rewrite <- (sum_Z_perm _ _ _ (SortFacts.sort_perm rank_leb (scored gs p))). lia.
Qed.

Lemma postcode_block_rn_one gs p :
postcode_block gs p <> [] ->
length (filter (fun f => (f_rn f =? 1)%nat) (postcode_block gs p)) = 1%nat.
Proof.
rewrite postcode_block_eq. intros Hne.
apply number_rows_rn_one. intros E; rewrite E in Hne; apply Hne; reflexivity.
Qed.
End FinalisationOutput.

Module FinalisationClaims.
Import Bundle Candidates Weights Finalisation FinalisationView FinalisationFacts
     FinalisationBlockFacts FinalisationOutput.
Local Open Scope string_scope.

(** Sample data: three streets of equal weight in one postcode, and a
  second postcode with a single street. *)
Definition sample_candidate (id : Z) (pc name conf : string) : candidate :=
{| candidate_id := id; produced_build_run_id := "run1"; postcode := pc;
   street_name_raw := Some name; street_name_canonical := Some name; usrn := None;
   candidate_type := "uprn_usrn"; confidence := conf; evidence_ref := "";
   source_name := "os_open_uprn"; ingest_run_id := "i1"; evidence_json := [] |}.

Definition sample_weights : raw_weights_t :=
Some (map (fun c => (c, Some (DFinite 1))) CANDIDATE_TYPES).

Definition sample_candidates : list candidate :=
[sample_candidate 1 "BT11AA" "HIGH STREET" "low";
 sample_candidate 2 "BT11AA" "MAIN STREET" "high";
 sample_candidate 3 "BT11AA" "CHURCH LANE" "medium";
 sample_candidate 4 "BT22BB" "MILL ROAD" "low"].

(** One third each: [0.3333] three times, and the rank-1 street (the
  [high] one) gets the missing [0.0001]. *)
Example pass_8_sample :
match _pass_8_finalisation sample_weights "run1" sample_candidates [] with
| inr (_, sf) => map (fun s => (sf_postcode s, sf_street_name s, sf_probability s)) sf =
    [("BT11AA", Some "MAIN STREET", 3334%Z); ("BT11AA", Some "CHURCH LANE", 3333%Z);
     ("BT11AA", Some "HIGH STREET", 3333%Z); ("BT22BB", Some "MILL ROAD", 10000%Z)]
| inl _ => False
end.
Proof. vm_compute. reflexivity. Qed.

(** C1: after a successful pass 8, for every postcode [p] of
  [postcode_streets_final]: the stored probabilities are the final
  probabilities of the rows of [p]; each row's final probability is its
  [raw_probability] (weighted score over the postcode's total weight)
  rounded half away from zero to 4 places, plus [1 - rounded_sum] for the
  row numbered 1 only; exactly one row is numbered 1, and it is first in
  the ranking order; and the stored probabilities of [p] add up to exactly
  [1.0000] (10000 units of 0.0001). *)
Theorem pass_8_probability_exact raw run cands streets fr sf :
_pass_8_finalisation raw run cands streets = inr (fr, sf) ->
forall p, In p (map sf_postcode sf) ->
let rows := filter (fun f => f_postcode f =? p) fr in
let total := sum_Z f_weighted_score rows in
let rounded_sum := sum_Z (fun f => round4 (row_raw total f)) rows in
map sf_probability (filter (fun s => sf_postcode s =? p) sf) = map f_final_probability rows /\
(forall f, In f rows ->
   f_final_probability f =
     (round4 (row_raw total f) + if (f_rn f =? 1)%nat then 10000 - rounded_sum else 0)%Z) /\
length (filter (fun f => (f_rn f =? 1)%nat) rows) = 1%nat /\
(forall f f', In f rows -> In f' rows -> f_rn f = 1%nat ->
   rank_leb (row_key total f) (row_key total f') = true) /\
sum_Z sf_probability (filter (fun s => sf_postcode s =? p) sf) = 10000%Z.
Proof.
intros H p Hp. unfold _pass_8_finalisation in H.
destruct (_weight_config raw) as [e|wm]; [discriminate|].
destruct (weight_rows wm) as [e|weights]; [discriminate|].
match type of H with
| match ?b with [] => _ | _ :: _ => _ end = _ => destruct b; [|discriminate]
end.
injection H as <- <-.
set (gs := grouped _) in *.
assert (Hsf : filter (fun s => sf_postcode s =? p) (map (streets_final_of run) (final_rows gs)) =
              map (streets_final_of run) (filter (fun f => f_postcode f =? p) (final_rows gs)))
  by (rewrite filter_map_comm; reflexivity).
assert (Hp' : In p (map f_postcode (final_rows gs))).
{ rewrite map_map in Hp. exact Hp. }
destruct (final_rows_filter gs p Hp') as [Hrows Hne].
cbv zeta. rewrite Hsf, Hrows, postcode_block_weight, map_map.
split; [|split; [|split; [|split]]].
- apply map_ext. intros f. apply round4_of4.
- intros f Hf. destruct (postcode_block_row gs p f Hf) as (_ & _ & Hfp & _).
  rewrite Hfp. unfold final_probability.
  destruct (f_rn f =? 1)%nat; [rewrite round4_correction; lia | lia].
- apply postcode_block_rn_one, Hne.
- intros f f' Hf Hf' H1. exact (proj2 (proj2 (proj2 (postcode_block_row gs p f Hf))) H1 f' Hf').
- rewrite sum_Z_map.
  rewrite (sum_Z_ext_in _ f_final_probability) by (intros f _; apply round4_of4).
  apply postcode_block_sum, Hne.
Qed.

Lemma pass_8_probability_exact_witness :
exists fr sf,
  _pass_8_finalisation sample_weights "run1" sample_candidates [] = inr (fr, sf) /\
  sum_Z sf_probability (filter (fun s => sf_postcode s =? "BT11AA") sf) = 10000%Z.
Proof.
destruct (_pass_8_finalisation sample_weights "run1" sample_candidates []) as [e|[fr sf]] eqn:E.
- vm_compute in E. discriminate.
- exists fr, sf. split; [reflexivity|].
  assert (Hin : In "BT11AA" (map sf_postcode sf)).
  { vm_compute in E. injection E as _ <-. simpl. left. reflexivity. }
  exact (proj2 (proj2 (proj2 (proj2
           (pass_8_probability_exact sample_weights "run1" sample_candidates [] fr sf E
              "BT11AA" Hin))))).
Defined.
End FinalisationClaims.

Module WeightClaims.
Import Bundle Weights.
Local Open Scope string_scope.

(** The eight canonical types with weight [1], then the extra key [extra]
  with the JSON constant [NaN], which [json.loads] accepts. *)
Definition nan_extra_weights : raw_weights_t :=
Some (map (fun c => (c, Some (DFinite 1))) CANDIDATE_TYPES ++ [("extra", Some DNaN)])%list.

(** With a finite extra weight the unknown-key check is reached. *)
Example weight_config_finite_extra_key :
_weight_config (Some (map (fun c => (c, Some (DFinite 1))) CANDIDATE_TYPES
                      ++ [("extra", Some (DFinite 1))])%list) =
  inl (BuildError "frequency_weights has unknown candidate types: extra").
Proof. vm_compute. reflexivity. Qed.

Lemma parse_weights_keys items parsed :
  parse_weights items = inr parsed -> map fst parsed = map fst items.
Proof.
revert parsed. induction items as [|[key [w|]] rest IH]; simpl; intros parsed.
- intros [= <-]. reflexivity.
- destruct (parse_weights rest) as [e|parsed']; [discriminate|].
  intros [= <-]. simpl. f_equal. apply IH. reflexivity.
- discriminate.
Qed.

(** C6: the positivity loop of [_weight_config] is
  [for candidate_type, weight in parsed.items()]: it visits every key of
  the config, in file order, the extra ones included, before the
  unknown-key check.  With the eight canonical types weighted [1] and an
  extra key [extra] weighted [NaN], the parsed dict holds all nine keys,
  the eight canonical weights pass the loop, and at [extra] the comparison
  [Decimal('NaN') <= Decimal('0')] raises [decimal.InvalidOperation]; so
  [_weight_config] raises that exception rather than a [BuildError], and
  pass 8 stops with it.  With a finite extra weight instead, the
  unknown-key [BuildError] is raised. *)
Theorem weight_config_nan_extra_key :
(forall items parsed, parse_weights items = inr parsed -> map fst parsed = map fst items) /\
parse_weights (map (fun c => (c, Some (DFinite 1))) CANDIDATE_TYPES ++ [("extra", Some DNaN)])%list
  = inr (map (fun c => (c, DFinite 1)) CANDIDATE_TYPES ++ [("extra", DNaN)])%list /\
check_positive (map (fun c => (c, DFinite 1)) CANDIDATE_TYPES) = None /\
dec_le_zero DNaN = inl InvalidOperation /\
_weight_config nan_extra_weights = inl InvalidOperation /\
(forall run cands streets,
   Finalisation._pass_8_finalisation nan_extra_weights run cands streets =
     inl (Finalisation.WeightError InvalidOperation)) /\
_weight_config (Some (map (fun c => (c, Some (DFinite 1))) CANDIDATE_TYPES
                      ++ [("extra", Some (DFinite 1))])%list) =
  inl (BuildError "frequency_weights has unknown candidate types: extra").
Proof.
assert (H : _weight_config nan_extra_weights = inl InvalidOperation) by (vm_compute; reflexivity).
split; [exact parse_weights_keys|].
split; [vm_compute; reflexivity|].
split; [vm_compute; reflexivity|].
split; [reflexivity|].
split; [exact H|].
split; [|vm_compute; reflexivity].
intros run cands streets. unfold Finalisation._pass_8_finalisation. rewrite H. reflexivity.
Qed.
End WeightClaims.

Module Pass3Facts.
Import Bundle Candidates Pass3 FinalisationOutput.
Local Open Scope string_scope.

Lemma insert_rows_app t rs :
exists added, rows (insert_rows t rs) = (rows t ++ added)%list /\
              next_id (insert_rows t rs) = (next_id t + Z.of_nat (length rs))%Z.
Proof.
revert t. induction rs as [|r rest IH]; simpl; intros t.
- exists []. rewrite app_nil_r. split; [reflexivity | lia].
- destruct (IH {| rows := (rows t ++ [r (next_id t)])%list; next_id := next_id t + 1 |})
    as (added & E1 & E2).
  exists (r (next_id t) :: added). simpl in E1, E2. rewrite E1, <- app_assoc.
  split; [reflexivity | lia].
Qed.

(** The ids the serial hands out to a list of rows, from [n] on. *)
Fixpoint numbered {A} (n : Z) (l : list A) : list (Z * A) :=
match l with
| [] => []
| x :: r => (n, x) :: numbered (n + 1) r
end.

Lemma numbered_range {A} n (l : list A) k x :
In (k, x) (numbered n l) -> (n <= k < n + Z.of_nat (length l))%Z.
Proof.
revert n. induction l as [|y r IH]; simpl; intros n H; [contradiction|].
destruct H as [E|H]; [inversion E; lia|]. apply IH in H. lia.
Qed.

Lemma numbered_nodup {A} n (l : list A) : NoDup (map fst (numbered n l)).
Proof.
revert n. induction l as [|y r IH]; simpl; intros n; constructor; [|apply IH].
intros H. apply in_map_iff in H as ([k x] & Ek & Hk). simpl in Ek. subst k.
apply numbered_range in Hk. lia.
Qed.

Lemma numbered_in {A} n (l : list A) x : In x l -> exists k, In (k, x) (numbered n l).
Proof.
revert n. induction l as [|y r IH]; simpl; intros n H; [contradiction|].
destruct H as [<-|H]; [exists n; left; reflexivity|].
destruct (IH (n + 1)%Z H) as [k Hk]. exists k. right. exact Hk.
Qed.

Lemma numbered_in_inv {A} n (l : list A) k x : In (k, x) (numbered n l) -> In x l.
Proof.
revert n. induction l as [|y r IH]; simpl; intros n H; [contradiction|].
destruct H as [E|H]; [inversion E; left; reflexivity | right; eapply IH; exact H].
Qed.

Lemma filter_fst_single {A} (l : list (Z * A)) k v :
NoDup (map fst l) -> In (k, v) l -> filter (fun x => (fst x =? k)%Z) l = [(k, v)].
Proof.
induction l as [|[k' v'] r IH]; simpl; intros ND H; [contradiction|].
inversion ND as [|? ? Hn ND']; subst.
destruct H as [E|H].
- inversion E; subst. rewrite Z.eqb_refl. f_equal.
  apply filter_all_false. intros [k'' v''] Hin. simpl.
  apply Z.eqb_neq. intros ->. apply Hn. apply in_map_iff. exists (k, v''). auto.
- destruct (k' =? k)%Z eqn:E; [apply Z.eqb_eq in E; subst|].
  + exfalso. apply Hn. apply in_map_iff. exists (k, v). auto.
  + apply IH; auto.
Qed.

(** The lineage edge of the promoted row numbered [k]. *)
Definition mk_edge (build_run_id : string) (kr : Z * promotion_row) : edge :=
{| parent_candidate_id := pr_parent_id (snd kr); child_candidate_id := fst kr;
   relation_type := "promotion_toid_usrn"; e_produced_build_run_id := build_run_id |}.

(** The loop appends one promoted row per promotion row, with the next ids
  of the serial, and one lineage edge for each: an edge naming a fresh
  child never conflicts. *)
Lemma promote_spec run prs st :
Forall (fun e => (child_candidate_id e < next_id (candidates st))%Z) (lineage st) ->
rows (candidates (promote run st prs)) =
  (rows (candidates st) ++
   map (fun kr => child_row run (snd kr) (fst kr)) (numbered (next_id (candidates st)) prs))%list /\
lineage (promote run st prs) =
  (lineage st ++ map (mk_edge run) (numbered (next_id (candidates st)) prs))%list.
Proof.
revert st. induction prs as [|r rest IH]; simpl; intros st Hl.
- rewrite !app_nil_r. auto.
- set (n := next_id (candidates st)).
  set (e := {| parent_candidate_id := pr_parent_id r; child_candidate_id := n;
               relation_type := "promotion_toid_usrn"; e_produced_build_run_id := run |}).
  assert (Hins : insert_lineage (lineage st) e = (lineage st ++ [e])%list).
  { unfold insert_lineage.
    replace (existsb (edge_eqb e) (lineage st)) with false; [reflexivity|].
    symmetry. apply not_true_iff_false. rewrite existsb_exists.
    intros (e' & Hin & Eq). rewrite Forall_forall in Hl. specialize (Hl e' Hin).
    unfold edge_eqb in Eq. apply andb_prop in Eq as [Eq _].
    apply andb_prop in Eq as [Eq _]. apply andb_prop in Eq as [_ Eq].
    apply Z.eqb_eq in Eq. simpl in Eq. unfold n in *. lia. }
  rewrite Hins.
  destruct (IH {| candidates := {| rows := (rows (candidates st) ++ [child_row run r n])%list;
                                   next_id := n + 1 |};
                  lineage := (lineage st ++ [e])%list |}) as [E1 E2].
  { simpl. apply Forall_app. split.
    - eapply Forall_impl; [|exact Hl]. intros a Ha. simpl. unfold n in *. lia.
    - constructor; [simpl; lia | constructor]. }
  simpl in E1, E2. rewrite E1, E2, <- !app_assoc. split; reflexivity.
Qed.
End Pass3Facts.

Module Pass3Claims.
Import Bundle Candidates Pass3 Pass3Facts FinalisationOutput.
Local Open Scope string_scope.

Definition promotion_of (c : candidate) (t : string) (o : oli_row) : promotion_row :=
{| pr_parent_id := candidate_id c; pr_postcode := postcode c;
   pr_street_name_raw := street_name_raw c; pr_street_name_canonical := street_name_canonical c;
   pr_toid := t; pr_usrn := o_usrn o; pr_oli_run_id := o_ingest_run_id o |}.

Lemma promotion_rows_in run cands oli r :
In r (promotion_rows run cands oli) <->
exists c t o, In c cands /\ produced_build_run_id c = run /\
  candidate_type c = "names_postcode_feature" /\ json_text "toid" (evidence_json c) = Some t /\
  In o oli /\ o_build_run_id o = run /\ o_toid o = t /\ r = promotion_of c t o.
Proof.
unfold promotion_rows. split.
- intros H. apply (Permutation_in _ (Permutation_sym (SortFacts.sort_perm promotion_leb _))) in H.
  apply in_flat_map in H as (c & Hc & H).
  destruct ((produced_build_run_id c =? run) && (candidate_type c =? "names_postcode_feature"))
    eqn:E; [|contradiction].
  apply andb_prop in E as [E1 E2]. apply String.eqb_eq in E1, E2.
  destruct (json_text "toid" (evidence_json c)) as [t|] eqn:Et; [|contradiction].
  apply in_map_iff in H as (o & <- & Ho). apply filter_In in Ho as [Ho Hm].
  apply andb_prop in Hm as [Hr Ht]. apply String.eqb_eq in Hr, Ht.
  exists c, t, o. repeat split; auto. congruence.
- intros (c & t & o & Hc & Hr & Hty & Ht & Ho & Hor & Hot & ->).
  apply (Permutation_in _ (SortFacts.sort_perm promotion_leb _)).
  apply in_flat_map. exists c. split; [exact Hc|].
  rewrite Hr, Hty, !String.eqb_refl. simpl. rewrite Ht.
  apply in_map_iff. exists o. split; [reflexivity|].
  apply filter_In. split; [exact Ho|]. rewrite Hor, Hot, !String.eqb_refl. reflexivity.
Qed.

Lemma base_insert_lineage run features postcodes st :
Forall (fun e => (child_candidate_id e < next_id (candidates st))%Z) (lineage st) ->
Forall (fun e => (child_candidate_id e < next_id (candidates (base_insert run features postcodes st)))%Z)
  (lineage (base_insert run features postcodes st)).
Proof.
intros Hl. simpl.
destruct (insert_rows_app (candidates st) (base_rows run features postcodes)) as (_ & _ & En).
rewrite En. eapply Forall_impl; [|exact Hl]. intros a Ha. simpl in Ha. lia.
Qed.

Lemma lineage_of_child run st1 prs k r :
Forall (fun e => (child_candidate_id e < next_id (candidates st1))%Z) (lineage st1) ->
In (k, r) (numbered (next_id (candidates st1)) prs) ->
filter (fun e => (child_candidate_id e =? k)%Z) (lineage (promote run st1 prs)) =
  [mk_edge run (k, r)].
Proof.
intros Hl Hk. destruct (promote_spec run prs st1 Hl) as [_ E].
rewrite E, filter_app.
rewrite (filter_all_false _ (lineage st1)).
2:{ intros e He. rewrite Forall_forall in Hl. specialize (Hl e He).
    apply numbered_range in Hk. apply Z.eqb_neq. lia. }
simpl. rewrite filter_map_comm.
change (fun x => (child_candidate_id (mk_edge run x) =? k)%Z) with (fun x : Z * promotion_row => (fst x =? k)%Z).
rewrite (filter_fst_single _ k r (numbered_nodup _ _) Hk). reflexivity.
Qed.

(** C7: pass 3 only appends. With the lineage table naming only ids the
  candidate serial has already handed out, after the pass the old rows
  and the base rows are a prefix of the candidate table; for every
  [names_postcode_feature] candidate of the run whose evidence carries a
  TOID, and every [stage.oli_toid_usrn] row of the run with that TOID, an
  appended row has type [oli_toid_usrn], confidence [high], the parent's
  postcode, the row's USRN and evidence [oli:toid_usrn:<toid>], and exactly
  one lineage edge names it as child, from the parent with relation
  [promotion_toid_usrn]; and every appended row is such a promoted row. *)
Theorem pass_3_promotion_append_only run features postcodes oli st :
Forall (fun e => (child_candidate_id e < next_id (candidates st))%Z) (lineage st) ->
let st1 := base_insert run features postcodes st in
let st' := _pass_3_open_names_candidates run features postcodes oli st in
let edge_of c ch := {| parent_candidate_id := candidate_id c; child_candidate_id := candidate_id ch;
                       relation_type := "promotion_toid_usrn"; e_produced_build_run_id := run |} in
exists base added,
  rows (candidates st1) = (rows (candidates st) ++ base)%list /\
  rows (candidates st') = (rows (candidates st1) ++ added)%list /\
  (forall c t o, In c (rows (candidates st1)) -> produced_build_run_id c = run ->
     candidate_type c = "names_postcode_feature" -> json_text "toid" (evidence_json c) = Some t ->
     In o oli -> o_build_run_id o = run -> o_toid o = t ->
     exists ch, In ch added /\ candidate_type ch = "oli_toid_usrn" /\ confidence ch = "high" /\
       postcode ch = postcode c /\ usrn ch = Some (o_usrn o) /\
       evidence_ref ch = "oli:toid_usrn:" ++ t /\
       filter (fun e => (child_candidate_id e =? candidate_id ch)%Z) (lineage st') = [edge_of c ch]) /\
  (forall ch, In ch added ->
     exists c, In c (rows (candidates st1)) /\ produced_build_run_id c = run /\
       candidate_type c = "names_postcode_feature" /\
       candidate_type ch = "oli_toid_usrn" /\ confidence ch = "high" /\
       postcode ch = postcode c /\
       json_text "toid" (evidence_json ch) = json_text "toid" (evidence_json c) /\
       filter (fun e => (child_candidate_id e =? candidate_id ch)%Z) (lineage st') = [edge_of c ch]).
Proof.
intros Hl st1 st' edge_of.
assert (Hl1 := base_insert_lineage run features postcodes st Hl). fold st1 in Hl1.
destruct (insert_rows_app (candidates st) (base_rows run features postcodes)) as (base & Eb & _).
set (prs := promotion_rows run (rows (candidates st1)) oli).
assert (Est' : st' = promote run st1 prs) by reflexivity.
destruct (promote_spec run prs st1 Hl1) as [Er _].
exists base, (map (fun kr => child_row run (snd kr) (fst kr)) (numbered (next_id (candidates st1)) prs)).
split; [exact Eb|]. split; [rewrite Est'; exact Er|]. split.
- intros c t o Hc Hr Hty Ht Ho Hor Hot.
  assert (Hpr : In (promotion_of c t o) prs).
  { apply promotion_rows_in. exists c, t, o. repeat split; assumption. }
  destruct (numbered_in (next_id (candidates st1)) prs _ Hpr) as [k Hk].
  exists (child_row run (promotion_of c t o) k).
  split; [apply in_map_iff; exists (k, promotion_of c t o); split; [reflexivity | exact Hk]|].
  repeat split. rewrite Est'.
  change (candidate_id (child_row run (promotion_of c t o) k)) with k.
  rewrite (lineage_of_child run st1 prs k _ Hl1 Hk). reflexivity.
- intros ch Hch. apply in_map_iff in Hch as ([k r] & <- & Hk). simpl.
  pose proof (numbered_in_inv _ _ _ _ Hk) as Hr.
  apply promotion_rows_in in Hr as (c & t & o & Hc & Hrun & Hty & Ht & Ho & Hor & Hot & ->).
  exists c. repeat split; try assumption.
  + simpl. rewrite Ht. reflexivity.
  + rewrite Est', (lineage_of_child run st1 prs k _ Hl1 Hk). reflexivity.
Qed.

(** Sample data: one Open Names road feature with a TOID, its postcode, and
  the TOID's USRN. *)
Definition sample_feature : names_feature :=
{| n_build_run_id := "run1"; n_feature_id := "f1"; n_toid := Some "osgb123";
   n_postcode_norm := "SW1A1AA"; n_street_name_raw := Some "High Street";
   n_street_name_casefolded := Some "high street"; n_ingest_run_id := "names1" |}.

Definition sample_postcode : postcode_row :=
{| p_produced_build_run_id := "run1"; p_postcode := "SW1A 1AA"; p_subdivision_code := None |}.

Definition sample_oli : oli_row :=
{| o_build_run_id := "run1"; o_toid := "osgb123"; o_usrn := 10000001; o_ingest_run_id := "lids1" |}.

Definition empty_state : state := {| candidates := {| rows := []; next_id := 1 |}; lineage := [] |}.

Lemma pass_3_promotion_append_only_witness :
exists ch,
  In ch (rows (candidates (_pass_3_open_names_candidates "run1" [sample_feature] [sample_postcode]
                             [sample_oli] empty_state))) /\
  candidate_type ch = "oli_toid_usrn" /\
  length (filter (fun e => (child_candidate_id e =? candidate_id ch)%Z)
            (lineage (_pass_3_open_names_candidates "run1" [sample_feature] [sample_postcode]
                        [sample_oli] empty_state))) = 1%nat.
Proof.
destruct (pass_3_promotion_append_only "run1" [sample_feature] [sample_postcode] [sample_oli]
            empty_state (Forall_nil _)) as (base & added & _ & Ea & H2 & _).
destruct (H2 (base_row "run1" sample_feature sample_postcode 1) "osgb123" sample_oli)
  as (ch & Hch & Hty & _ & _ & _ & _ & Hlin);
  [vm_compute; left; reflexivity | reflexivity | reflexivity | reflexivity
  | left; reflexivity | reflexivity | reflexivity |].
exists ch. split; [rewrite Ea; apply in_or_app; right; exact Hch|].
split; [exact Hty|]. rewrite Hlin. reflexivity.
Defined.
End Pass3Claims.

Module Pass6Facts.
Import Bundle Candidates Pass6 Pass3Facts FinalisationBlocks FinalisationOutput.
Local Open Scope string_scope.

Lemma insert_rows_rows t rs :
rows (insert_rows t rs) =
  (rows t ++ map (fun kr => snd kr (fst kr)) (numbered (next_id t) rs))%list.
Proof.
revert t. induction rs as [|r rest IH]; simpl; intros t; [rewrite app_nil_r; reflexivity|].
rewrite IH. simpl. rewrite <- app_assoc. reflexivity.
Qed.

Lemma is_nir_iff p : is_nir p = true <-> p_subdivision_code p = Some "GB-NIR".
Proof.
unfold is_nir. destruct (p_subdivision_code p) as [s|]; [|split; discriminate].
rewrite String.eqb_eq. split; [intros ->; reflexivity | intros E; inversion E; reflexivity].
Qed.

Lemma str_leb_refl s : str_leb s s = true.
Proof. destruct (StringOrder.str_leb_total s s); assumption. Qed.

Lemma ni_in run postcodes cands n :
In n (ni_without_candidates run postcodes cands) <->
exists p, In p postcodes /\ p_produced_build_run_id p = run /\ is_nir p = true /\
  (forall c, In c cands -> produced_build_run_id c = run -> postcode c <> p_postcode p) /\
  n = (p_postcode p, remove_spaces (p_postcode p)).
Proof.
unfold ni_without_candidates. rewrite in_map_iff. split.
- intros (p & <- & Hp). apply filter_In in Hp as [Hp Hc].
  apply andb_prop in Hc as [Hc Hn]. apply andb_prop in Hc as [Hr Hnir].
  apply String.eqb_eq in Hr. apply negb_true_iff in Hn.
  exists p. repeat split; auto.
  intros c Hin Hcr Hpc. rewrite <- not_true_iff_false in Hn. apply Hn.
  apply existsb_exists. exists c. split; [exact Hin|].
  rewrite Hcr, Hr, Hpc, !String.eqb_refl. reflexivity.
- intros (p & Hp & Hr & Hnir & Hc & ->). exists p. split; [reflexivity|].
  apply filter_In. split; [exact Hp|]. rewrite Hr, String.eqb_refl, Hnir. simpl.
  apply negb_true_iff, not_true_iff_false. rewrite existsb_exists.
  intros (c & Hin & E). apply andb_prop in E as [E1 E2].
  apply String.eqb_eq in E1, E2. apply (Hc c Hin); congruence.
Qed.

Lemma ranked_in run dfi ni pc d :
In (pc, d) (ranked_segments run dfi ni) <->
exists n, In n ni /\ fst n = pc /\ In d dfi /\ d_build_run_id d = run /\ d_postcode_norm d = snd n.
Proof.
unfold ranked_segments. rewrite in_flat_map. split.
- intros (n & Hn & H). apply in_map_iff in H as (d' & E & Hd). inversion E; subst.
  apply filter_In in Hd as [Hd Hm]. apply andb_prop in Hm as [E1 E2].
  apply String.eqb_eq in E1, E2. exists n. auto.
- intros (n & Hn & <- & Hd & E1 & E2). exists n. split; [exact Hn|].
  apply in_map_iff. exists d. split; [reflexivity|]. apply filter_In.
  rewrite E1, E2, !String.eqb_refl. auto.
Qed.

Lemma segments_of_in (ranked : list (string * dfi_segment)) pc d :
In d (map snd (filter (fun r => fst r =? pc) ranked)) <-> In (pc, d) ranked.
Proof.
rewrite in_map_iff. split.
- intros ([pc' d'] & E & H). simpl in E. subst d'. apply filter_In in H as [H E].
  apply String.eqb_eq in E. simpl in E. subst pc'. exact H.
- intros H. exists (pc, d). split; [reflexivity|]. apply filter_In. simpl. rewrite String.eqb_refl. auto.
Qed.

Lemma fallback_rows_in run ranked r :
In r (fallback_rows run ranked) ->
exists pc d, r = fallback_row run pc d /\ In (pc, d) ranked /\
  forall d', In (pc, d') ranked -> segment_leb d d' = true.
Proof.
unfold fallback_rows. rewrite in_flat_map. intros (pc & _ & H).
set (segs := map snd (filter (fun r => fst r =? pc) ranked)) in H.
assert (P := SortFacts.sort_perm segment_leb segs).
assert (S := SortFacts.sort_strongly_sorted segment_leb
               (fun a b => StringOrder.str_leb_total _ _)
               (fun a b c => StringOrder.str_leb_trans _ _ _) segs).
destruct (PySort.sort segment_leb segs) as [|d rest] eqn:Es; [contradiction|].
destruct H as [<-|[]]. exists pc, d. split; [reflexivity|]. split.
- apply segments_of_in. apply (Permutation_in _ (Permutation_sym P)). left. reflexivity.
- intros d' Hd'. apply segments_of_in in Hd'. fold segs in Hd'.
  apply (Permutation_in _ P) in Hd'. destruct Hd' as [<-|Hd'].
  + apply str_leb_refl.
  + inversion S as [|? ? _ Hall]; subst. rewrite Forall_forall in Hall. exact (Hall _ Hd').
Qed.

Lemma fallback_rows_complete run ranked pc d :
In (pc, d) ranked -> exists r, In r (fallback_rows run ranked) /\ exists d0, r = fallback_row run pc d0.
Proof.
intros H. unfold fallback_rows.
set (segs := map snd (filter (fun r => fst r =? pc) ranked)).
assert (P := SortFacts.sort_perm segment_leb segs).
assert (Hd : In d segs) by (apply segments_of_in; exact H).
destruct (PySort.sort segment_leb segs) as [|d0 rest] eqn:Es.
{ apply Permutation_sym, Permutation_nil in P. rewrite P in Hd. contradiction. }
exists (fallback_row run pc d0). split; [|exists d0; reflexivity].
apply in_flat_map. exists pc. split.
- apply (Permutation_in _ (SortFacts.sort_perm str_leb _)).
  apply distinct_in; [apply String.eqb_eq|]. apply in_map_iff. exists (pc, d). auto.
- fold segs. rewrite Es. left. reflexivity.
Qed.
End Pass6Facts.

Module Pass6Claims.
Import Bundle Candidates Pass6 Pass3Facts Pass6Facts.
Local Open Scope string_scope.

(** C8: pass 6 appends the direct OSNI rows, then the DFI fallback rows.
  Every fallback row has type [spatial_dfi_highway] and confidence [low];
  its postcode is a GB-NIR postcode of the run with no candidate row of
  the run once the direct rows are in; it is built from a matching
  segment of the run whose [segment_id] is the least of all matching
  segments (in the bytewise [COLLATE "C"] order). Conversely every such
  postcode with a matching segment gets a fallback row; and no fallback
  row shares its postcode with a direct OSNI row of the same pass. *)
Theorem pass_6_dfi_fallback_only_uncovered run points dfi postcodes t :
let t1 := insert_rows t (direct_rows run points postcodes) in
let t2 := _pass_6_ni_candidates run points dfi postcodes t in
exists direct fallback,
  rows t1 = (rows t ++ direct)%list /\
  rows t2 = (rows t1 ++ fallback)%list /\
  (forall f, In f fallback ->
     candidate_type f = "spatial_dfi_highway" /\ confidence f = "low" /\
     (exists p, In p postcodes /\ p_produced_build_run_id p = run /\
        p_subdivision_code p = Some "GB-NIR" /\ p_postcode p = postcode f) /\
     (forall c, In c (rows t1) -> produced_build_run_id c = run -> postcode c <> postcode f) /\
     exists d, In d dfi /\ d_build_run_id d = run /\ d_postcode_norm d = remove_spaces (postcode f) /\
       f = fallback_row run (postcode f) d (candidate_id f) /\
       (forall d', In d' dfi -> d_build_run_id d' = run ->
          d_postcode_norm d' = remove_spaces (postcode f) ->
          str_leb (d_segment_id d) (d_segment_id d') = true)) /\
  (forall p d, In p postcodes -> p_produced_build_run_id p = run ->
     p_subdivision_code p = Some "GB-NIR" ->
     (forall c, In c (rows t1) -> produced_build_run_id c = run -> postcode c <> p_postcode p) ->
     In d dfi -> d_build_run_id d = run -> d_postcode_norm d = remove_spaces (p_postcode p) ->
     exists f, In f fallback /\ postcode f = p_postcode p) /\
  (forall c f, In c direct -> In f fallback -> postcode f <> postcode c).
Proof.
intros t1 t2.
set (ranked := ranked_segments run dfi (ni_without_candidates run postcodes (rows t1))).
set (fallback := map (fun kr => snd kr (fst kr)) (numbered (next_id t1) (fallback_rows run ranked))).
set (direct := map (fun kr => snd kr (fst kr)) (numbered (next_id t) (direct_rows run points postcodes))).
assert (Hfb : forall f, In f fallback ->
     candidate_type f = "spatial_dfi_highway" /\ confidence f = "low" /\
     (exists p, In p postcodes /\ p_produced_build_run_id p = run /\
        p_subdivision_code p = Some "GB-NIR" /\ p_postcode p = postcode f) /\
     (forall c, In c (rows t1) -> produced_build_run_id c = run -> postcode c <> postcode f) /\
     exists d, In d dfi /\ d_build_run_id d = run /\ d_postcode_norm d = remove_spaces (postcode f) /\
       f = fallback_row run (postcode f) d (candidate_id f) /\
       (forall d', In d' dfi -> d_build_run_id d' = run ->
          d_postcode_norm d' = remove_spaces (postcode f) ->
          str_leb (d_segment_id d) (d_segment_id d') = true)).
{ intros f Hf. apply in_map_iff in Hf as ([k r] & <- & Hk). simpl.
  apply numbered_in_inv in Hk. apply fallback_rows_in in Hk as (pc & d & -> & Hin & Hmin).
  pose proof Hin as Hin'.
  apply ranked_in in Hin' as (n & Hn & Hfst & Hd & Hdr & Hdn).
  apply ni_in in Hn as (p & Hp & Hpr & Hnir & Hnone & ->). simpl in Hfst, Hdn. subst pc.
  split; [reflexivity|]. split; [reflexivity|]. split.
  { exists p. repeat split; auto. apply is_nir_iff, Hnir. }
  split; [exact Hnone|].
  exists d. repeat split; auto.
  intros d' Hd' Hd'r Hd'n. apply (Hmin d'). apply ranked_in.
  exists (p_postcode p, remove_spaces (p_postcode p)). repeat split; auto.
  apply ni_in. exists p. auto. }
exists direct, fallback. split; [apply insert_rows_rows|]. split; [apply insert_rows_rows|].
split; [exact Hfb|]. split.
- intros p d Hp Hpr Hnir Hnone Hd Hdr Hdn.
  assert (Hr : In (p_postcode p, d) ranked).
  { apply ranked_in. exists (p_postcode p, remove_spaces (p_postcode p)).
    repeat split; auto. apply ni_in. exists p. repeat split; auto. apply is_nir_iff, Hnir. }
  destruct (fallback_rows_complete run ranked _ _ Hr) as (r & Hrin & d0 & ->).
  destruct (numbered_in (next_id t1) _ _ Hrin) as [k Hk].
  exists (fallback_row run (p_postcode p) d0 k). split; [|reflexivity].
  apply in_map_iff. exists (k, fallback_row run (p_postcode p) d0). auto.
- intros c f Hc Hf.
  assert (Hcr : produced_build_run_id c = run).
  { apply in_map_iff in Hc as ([k r] & <- & Hk). apply numbered_in_inv in Hk.
    unfold direct_rows in Hk. apply in_flat_map in Hk as (n & _ & Hk).
    destruct (os_build_run_id n =? run); [|contradiction].
    apply in_map_iff in Hk as (p & <- & _). reflexivity. }
  destruct (Hfb f Hf) as (_ & _ & _ & Hnone & _).
  intros E. apply (Hnone c); [| exact Hcr | symmetry; exact E].
  change (rows t1) with (rows (insert_rows t (direct_rows run points postcodes))).
  rewrite insert_rows_rows. apply in_or_app. right. exact Hc.
Qed.

(** Sample data: two GB-NIR postcodes; the first has an OSNI street point,
  both have DFI segments. *)
Definition ni_postcode (pc : string) : postcode_row :=
{| p_produced_build_run_id := "run1"; p_postcode := pc; p_subdivision_code := Some "GB-NIR" |}.

Definition sample_point : osni_point :=
{| os_build_run_id := "run1"; os_feature_id := "n1"; os_postcode_norm := "BT11AA";
   os_street_name_raw := Some "Main Street"; os_street_name_casefolded := Some "main street";
   os_ingest_run_id := "osni1" |}.

Definition segment (id pc name : string) : dfi_segment :=
{| d_build_run_id := "run1"; d_segment_id := id; d_postcode_norm := pc;
   d_street_name_raw := Some name; d_street_name_casefolded := Some name;
   d_ingest_run_id := "dfi1" |}.

Definition sample_segments : list dfi_segment :=
[segment "S9" "BT11AA" "main street"; segment "S2" "BT22BB" "mill road";
 segment "S1" "BT22BB" "mill lane"].

(** The first postcode keeps its direct row only; the second gets the
  fallback from its least segment, [S1]. *)
Example pass_6_sample :
map (fun c => (postcode c, candidate_type c, evidence_ref c))
  (rows (_pass_6_ni_candidates "run1" [sample_point] sample_segments
           [ni_postcode "BT1 1AA"; ni_postcode "BT2 2BB"] {| rows := []; next_id := 1 |})) =
[("BT1 1AA", "osni_gazetteer_direct", "osni_gazetteer:feature:n1");
 ("BT2 2BB", "spatial_dfi_highway", "spatial:dfi_highway:S1:fallback")].
Proof. vm_compute. reflexivity. Qed.

Lemma pass_6_dfi_fallback_only_uncovered_witness :
exists f, In f (rows (_pass_6_ni_candidates "run1" [sample_point] sample_segments
                       [ni_postcode "BT1 1AA"; ni_postcode "BT2 2BB"]
                       {| rows := []; next_id := 1 |})) /\
          postcode f = "BT2 2BB".
Proof.
destruct (pass_6_dfi_fallback_only_uncovered "run1" [sample_point] sample_segments
            [ni_postcode "BT1 1AA"; ni_postcode "BT2 2BB"] {| rows := []; next_id := 1 |})
  as (direct & fallback & _ & E2 & _ & Hex & _).
destruct (Hex (ni_postcode "BT2 2BB") (segment "S1" "BT22BB" "mill lane")) as (f & Hf & Hpc).
- right. left. reflexivity.
- reflexivity.
- reflexivity.
- vm_compute. intros c [<-|[]] _. discriminate.
- right. right. left. reflexivity.
- reflexivity.
- reflexivity.
- exists f. split; [rewrite E2; apply in_or_app; right; exact Hf | exact Hpc].
Defined.
End Pass6Claims.

Module PublishFacts.
Import Publish.
Local Open Scope string_scope.



(** *** Views *)

(** Every view named [n] selects from [t], and there is one. *)
Definition names (vs : list (string * string)) (n t : string) : Prop :=
existsb (fun v => fst v =? n) vs = true /\ forall v, In v vs -> fst v = n -> v = (n, t).





(** *** Publications *)





End PublishFacts.

Module PublishValidation.
Import Publish PublishFacts.
Local Open Scope string_scope.


End PublishValidation.

Module PublishRepeat.
Import Publish PublishFacts PublishValidation.
Local Open Scope string_scope.


End PublishRepeat.

Module PublishClaims.
Import Publish PublishFacts PublishValidation PublishRepeat.
Local Open Scope string_scope.

(** Sample data: a built run whose versioned tables exist. *)
Definition sample_db : db :=
{| build_runs := [{| br_build_run_id := "run1"; br_bundle_id := "b1";
                     br_dataset_version := "2026.10"; br_status := "built";
                     br_current_pass := "verify"; br_finished_at_utc := Some 50 |}];
   bundles := [{| bu_bundle_id := "b1"; bu_status := "built" |}];
   api_tables := ["api.postcode_lookup__2026_10"; "api.postcode_street_lookup__2026_10"];
   views := [];
   publications := [] |}.



End PublishClaims.

(* ------------------------------------------------------------------ *)
(** ** [_infer_lids_relation] *)

Module LidsFacts.
Import PyStr Lids.
Local Open Scope string_scope.

(** X1.  When the relation column names neither link type, the relation is
  inferred from the ids: the pair returned is the input pair, possibly
  swapped; a [toid_usrn] result puts an id starting with [osgb] (in any
  case) first and an all-digit id second; a [uprn_usrn] result has two
  all-digit ids and never puts an id of at most 8 characters before one of
  more than 8; and no relation is inferred exactly when neither id pairs a
  TOID with digits and the ids are not both digits. *)
Theorem infer_lids_relation_inferred (relation_raw : option string) (left_id right_id : string)
  (Ht : mem (relation_text relation_raw) TOID_USRN_NAMES = false)
  (Hu : mem (relation_text relation_raw) UPRN_USRN_NAMES = false) :
  match _infer_lids_relation relation_raw left_id right_id with
  | (Some rel, a, b) =>
      ((a, b) = (left_id, right_id) \/ (a, b) = (right_id, left_id)) /\
      ((rel = "toid_usrn" /\ startswith (lower a) "osgb" = true /\ isdigit b = true) \/
       (rel = "uprn_usrn" /\ isdigit a = true /\ isdigit b = true /\
        ~ (String.length a <= 8 /\ 8 < String.length b)%nat))
  | (None, a, b) =>
      (a, b) = (left_id, right_id) /\
      ~ (startswith (lower left_id) "osgb" = true /\ isdigit right_id = true) /\
      ~ (startswith (lower right_id) "osgb" = true /\ isdigit left_id = true) /\
      ~ (isdigit left_id = true /\ isdigit right_id = true)
  end.
Proof.
unfold _infer_lids_relation. rewrite Ht, Hu.
destruct (startswith (lower left_id) "osgb") eqn:Tl;
destruct (startswith (lower right_id) "osgb") eqn:Tr;
destruct (isdigit left_id) eqn:Dl; destruct (isdigit right_id) eqn:Dr;
cbn [andb negb];
try solve [repeat split; auto; intros [? ?]; discriminate];
try solve [split; [left; reflexivity | left; auto]];
try solve [split; [right; reflexivity | left; auto]];
destruct (Nat.ltb 8 (String.length left_id) && Nat.leb (String.length right_id) 8) eqn:B1;
try solve [split; [left; reflexivity | right; repeat split; auto;
             apply andb_true_iff in B1 as [B1 B2];
             apply Nat.ltb_lt in B1; apply Nat.leb_le in B2; lia]];
destruct (Nat.ltb 8 (String.length right_id) && Nat.leb (String.length left_id) 8) eqn:B2;
try solve [split; [right; reflexivity | right; repeat split; auto;
             apply andb_true_iff in B2 as [B2 B3];
             apply Nat.ltb_lt in B2; apply Nat.leb_le in B3; lia]];
split; [left; reflexivity | right; repeat split; auto].
intros [H1 H2]. apply Nat.leb_le in H1. apply Nat.ltb_lt in H2.
rewrite H1, H2 in B2. discriminate.
Qed.

Lemma infer_lids_relation_inferred_witness :
  mem (relation_text None) TOID_USRN_NAMES = false /\
  mem (relation_text None) UPRN_USRN_NAMES = false /\
  match _infer_lids_relation None "123" "osgb5000" with
  | (Some rel, a, b) =>
      ((a, b) = ("123", "osgb5000") \/ (a, b) = ("osgb5000", "123")) /\
      ((rel = "toid_usrn" /\ startswith (lower a) "osgb" = true /\ isdigit b = true) \/
       (rel = "uprn_usrn" /\ isdigit a = true /\ isdigit b = true /\
        ~ (String.length a <= 8 /\ 8 < String.length b)%nat))
  | (None, a, b) =>
      (a, b) = ("123", "osgb5000") /\
      ~ (startswith (lower "123") "osgb" = true /\ isdigit "osgb5000" = true) /\
      ~ (startswith (lower "osgb5000") "osgb" = true /\ isdigit "123" = true) /\
      ~ (isdigit "123" = true /\ isdigit "osgb5000" = true)
  end.
Proof.
split; [vm_compute; reflexivity|]. split; [vm_compute; reflexivity|].
apply infer_lids_relation_inferred; vm_compute; reflexivity.
Defined.

End LidsFacts.

(* ------------------------------------------------------------------ *)
(** ** [_normalise_onspd_status], [_country_enrichment_available] *)

Module OnspdStageFacts.
Import PyStr OnspdStage.
Local Open Scope string_scope.

(** X2.  The staged ONSPD status is always [active] or [terminated]; it is
  [active] exactly when the stripped value is empty or, lower-cased, is
  [active] (so [None], a blank value and [" Active "] are active, and every
  other non-blank value, such as [live], is terminated); and normalising a
  normalised status changes nothing. *)
Theorem normalise_onspd_status_spec (value : option string) :
  let raw := strip (match value with Some v => v | None => "" end) in
  (_normalise_onspd_status value = "active" \/ _normalise_onspd_status value = "terminated") /\
  (_normalise_onspd_status value = "active" <-> raw = "" \/ lower raw = "active") /\
  _normalise_onspd_status (Some (_normalise_onspd_status value)) = _normalise_onspd_status value.
Proof.
intros raw.
assert (Hfix : forall s, (s = "active" \/ s = "terminated") ->
          _normalise_onspd_status (Some s) = s).
{ intros s [-> | ->]; reflexivity. }
assert (Hres : _normalise_onspd_status value = "active" /\ (raw = "" \/ lower raw = "active") \/
               _normalise_onspd_status value = "terminated" /\ ~ (raw = "" \/ lower raw = "active")).
{ unfold _normalise_onspd_status. fold raw.
  destruct (raw =? "") eqn:E0.
  - left. apply String.eqb_eq in E0. split; [reflexivity | left; exact E0].
  - apply String.eqb_neq in E0. unfold mem, existsb.
    destruct (lower raw =? "active") eqn:E1.
    + apply String.eqb_eq in E1. rewrite E1. left. split; [reflexivity | right; reflexivity].
    + apply String.eqb_neq in E1.
      destruct (lower raw =? "terminated") eqn:E2; cbn [orb].
      * apply String.eqb_eq in E2. right. split; [exact E2|]. intros [H|H]; contradiction.
      * right. split; [reflexivity|]. intros [H|H]; contradiction. }
destruct Hres as [[Ha Hc] | [Ht Hc]]; rewrite ?Ha, ?Ht.
- split; [left; reflexivity|]. split; [split; auto|]. apply Hfix; left; reflexivity.
- split; [right; reflexivity|]. split; [split; [discriminate | intros H; contradiction]|].
  apply Hfix; right; reflexivity.
Qed.

(** X3.  Whatever country value an ONSPD row maps, the row
  [_populate_stage_onspd] stages has country [GB]/[GBR] and
  [street_enrichment_available] true: [_onspd_country_mapping] always
  returns [GB], which [_country_enrichment_available] accepts. *)
Theorem stage_onspd_enrichment_always_available (mapped_country_value : option string) :
  exists subdivision_code,
    stage_country_columns mapped_country_value = ("GB", "GBR", subdivision_code, true).
Proof.
unfold stage_country_columns, Onspd._onspd_country_mapping.
set (code := Onspd.onspd_code mapped_country_value).
repeat match goal with |- context [if ?b then _ else _] => destruct b end;
  eexists; reflexivity.
Qed.

End OnspdStageFacts.

(* ------------------------------------------------------------------ *)
(** ** [_safe_version_suffix], [_dataset_version_from_bundle_hash] *)

Module VersionFacts.
Import PyStr Publish Versions.
Local Open Scope string_scope.

Lemma sub_non_word_id s : all_chars is_word_char s = true -> sub_non_word s = s.
Proof.
induction s as [|c r IH]; simpl; [reflexivity|].
intros H. apply andb_true_iff in H as [Hc Hr]. rewrite Hc, IH by exact Hr. reflexivity.
Qed.

Lemma sub_non_word_word s : all_chars is_word_char (sub_non_word s) = true.
Proof.
induction s as [|c r IH]; simpl; [reflexivity|].
rewrite IH, andb_true_r. destruct (is_word_char c) eqn:E; [exact E | reflexivity].
Qed.

Lemma sub_non_word_length s : String.length (sub_non_word s) = String.length s.
Proof. induction s as [|c r IH]; simpl; congruence. Qed.

Lemma all_chars_append f s t :
  all_chars f (s ++ t) = all_chars f s && all_chars f t.
Proof.
induction s as [|c r IH]; simpl; [reflexivity|]. rewrite IH, andb_assoc. reflexivity.
Qed.

Lemma all_chars_substring0 f n s :
  all_chars f s = true -> all_chars f (substring 0 n s) = true.
Proof.
revert n. induction s as [|c r IH]; intros n; simpl; destruct n; simpl; try reflexivity.
intros H. apply andb_true_iff in H as [Hc Hr]. rewrite Hc, IH by exact Hr. reflexivity.
Qed.

(** X4.  For every dataset version, [_safe_version_suffix] returns a
  non-empty string of characters from [A-Za-z0-9_]; it has the version's
  length when the version is not empty; and it returns a suffix unchanged,
  so applying it twice is the same as once. *)
Theorem safe_version_suffix_spec (dataset_version : string) :
  let suffix := _safe_version_suffix dataset_version in
  suffix <> "" /\ all_chars is_word_char suffix = true /\
  (dataset_version <> "" -> String.length suffix = String.length dataset_version) /\
  _safe_version_suffix suffix = suffix.
Proof.
intros suffix.
assert (Hw : all_chars is_word_char suffix = true).
{ unfold suffix, _safe_version_suffix.
  pose proof (sub_non_word_word dataset_version) as H.
  destruct (sub_non_word dataset_version); [reflexivity | exact H]. }
assert (Hne : suffix <> "").
{ unfold suffix, _safe_version_suffix. destruct (sub_non_word dataset_version); discriminate. }
split; [exact Hne|]. split; [exact Hw|]. split.
- intros Hd. unfold suffix, _safe_version_suffix.
  pose proof (sub_non_word_length dataset_version) as Hl.
  destruct (sub_non_word dataset_version) eqn:E.
  + destruct dataset_version; [contradiction | discriminate].
  + exact Hl.
- unfold _safe_version_suffix at 1. rewrite (sub_non_word_id suffix Hw).
  destruct suffix; [contradiction | reflexivity].
Qed.

(** X5.  When a bundle hash consists of characters from [A-Za-z0-9_] (as a
  SHA-256 hex digest does), the dataset version [run_build] derives from it,
  [v3_] followed by the hash's first 12 characters, is its own safe
  suffix: the projection tables are [api.postcode_lookup__v3_<hash[:12]>]
  and [api.postcode_street_lookup__v3_<hash[:12]>]. *)
Theorem dataset_version_is_safe_suffix (bundle_hash : string)
  (H : all_chars is_word_char bundle_hash = true) :
  _safe_version_suffix (_dataset_version_from_bundle_hash bundle_hash) =
  _dataset_version_from_bundle_hash bundle_hash.
Proof.
unfold _dataset_version_from_bundle_hash, _safe_version_suffix.
rewrite sub_non_word_id.
- reflexivity.
- rewrite all_chars_append, (all_chars_substring0 _ 12 _ H). reflexivity.
Qed.

Lemma dataset_version_is_safe_suffix_witness :
  all_chars is_word_char "0123456789abcdef0123" = true /\
  _safe_version_suffix (_dataset_version_from_bundle_hash "0123456789abcdef0123") =
  _dataset_version_from_bundle_hash "0123456789abcdef0123".
Proof.
split; [vm_compute; reflexivity|].
apply dataset_version_is_safe_suffix. vm_compute. reflexivity.
Defined.

End VersionFacts.

(* ------------------------------------------------------------------ *)
(** ** [_field_name_candidates], [_field_value],
    [_assert_required_mapped_fields_present] *)

Module FieldsFacts.
Import Bundle Fields.
Local Open Scope string_scope.

Lemma distinct_head (l : list string) :
  hd_error (Finalisation.distinct String.eqb l) = hd_error l.
Proof. destruct l as [|x r]; reflexivity. Qed.

Lemma has_key_get {V : Type} (row : dict V) k :
  has_key row k = true -> exists v, dict_get k row = Some v.
Proof.
unfold has_key. induction row as [|[k' v'] r IH]; simpl; [discriminate|].
destruct (k =? k') eqn:E; simpl; [eexists; reflexivity | exact IH].
Qed.

Lemma has_key_false_get {V : Type} (row : dict V) k :
  has_key row k = false -> dict_get k row = None.
Proof.
unfold has_key. induction row as [|[k' v'] r IH]; simpl; [reflexivity|].
destruct (k =? k') eqn:E; simpl; [discriminate | exact IH].
Qed.

Lemma find_none_iff {A : Type} (f : A -> bool) l :
  find f l = None <-> forall x, In x l -> f x = false.
Proof.
induction l as [|y r IH]; simpl; [tauto|].
destruct (f y) eqn:E; split.
- discriminate.
- intros H. rewrite (H y (or_introl eq_refl)) in E. discriminate.
- intros H x [<-|Hx]; [exact E | apply IH; assumption].
- intros H. apply IH. intros x Hx. apply H. right. exact Hx.
Qed.

Lemma flat_map_nil_iff {A B : Type} (h : A -> list B) l :
  flat_map h l = [] <-> forall x, In x l -> h x = [].
Proof.
induction l as [|x r IH]; simpl; [tauto|].
destruct (h x) eqn:E; simpl; split.
- intros H y [<-|Hy]; [exact E|]. exact (proj1 IH H y Hy).
- intros H. apply IH. intros y Hy. apply H. right. exact Hy.
- discriminate.
- intros H. specialize (H x (or_introl eq_refl)). congruence.
Qed.

Section WithCase.
Variables (lower upper : string -> string).

Definition mapped_names (field_map : dict string) (logical_key : string) : list string :=
(match dict_get logical_key field_map with
 | Some m => if m =? "" then [] else [m]
 | None => [] end ++ [logical_key] ++ legacy_aliases logical_key)%list.

Lemma candidates_in field_map logical_key name :
  In name (_field_name_candidates lower upper field_map logical_key) <->
  exists n, In n (mapped_names field_map logical_key) /\
            (name = n \/ name = lower n \/ name = upper n).
Proof.
unfold _field_name_candidates. fold (mapped_names field_map logical_key).
rewrite (FinalisationBlocks.distinct_in String.eqb String.eqb_eq), in_flat_map.
split; intros (n & Hn & Hx); exists n; split; try exact Hn; simpl in *; intuition.
Qed.

Lemma candidates_head field_map logical_key :
  hd_error (_field_name_candidates lower upper field_map logical_key) =
  Some (match dict_get logical_key field_map with
        | Some m => if m =? "" then logical_key else m
        | None => logical_key end).
Proof.
unfold _field_name_candidates. rewrite distinct_head.
destruct (dict_get logical_key field_map) as [m|]; [destruct (m =? "")|]; reflexivity.
Qed.

Lemma find_some_split {A : Type} (f : A -> bool) l c :
  find f l = Some c <->
  exists pre post, l = (pre ++ c :: post)%list /\ f c = true /\
                   forall x, In x pre -> f x = false.
Proof.
induction l as [|y r IH]; simpl.
- split; [discriminate|]. intros (pre & post & H & _). destruct pre; discriminate.
- destruct (f y) eqn:E; split.
  + intros [= <-]. exists [], r. split; [reflexivity|]. split; [exact E | intros _ []].
  + intros ([|z pre] & post & H & Hc & Hpre); simpl in H; injection H as H1 Hr;
      [rewrite H1; reflexivity|].
    subst z. rewrite (Hpre y (or_introl eq_refl)) in E. discriminate.
  + intros H. apply IH in H as (pre & post & -> & Hc & Hpre).
    exists (y :: pre), post. split; [reflexivity|]. split; [exact Hc|].
    intros x [<-|Hx]; [exact E | exact (Hpre x Hx)].
  + intros ([|z pre] & post & H & Hc & Hpre); simpl in H; injection H as H1 Hr.
    * subst y. congruence.
    * apply IH. exists pre, post. split; [exact Hr|]. split; [exact Hc|].
      intros x Hx. apply Hpre. right. exact Hx.
Qed.

End WithCase.

(** X6.  For any [str.lower] and [str.upper], the names
  [_field_name_candidates] tries for a logical key have no duplicates;
  they are the mapped name (when it is not empty), the key itself and its
  legacy aliases, each with its lower- and upper-case forms; the key is
  always among them; and the first is the mapped name when the map gives a
  non-empty one, the key otherwise. *)
Theorem field_name_candidates_spec (lower upper : string -> string) field_map logical_key :
  let c := _field_name_candidates lower upper field_map logical_key in
  NoDup c /\ In logical_key c /\
  (forall name, In name c <->
     exists n, In n (mapped_names field_map logical_key) /\
               (name = n \/ name = lower n \/ name = upper n)) /\
  hd_error c = Some (match dict_get logical_key field_map with
                     | Some m => if m =? "" then logical_key else m
                     | None => logical_key end).
Proof.
intros c. split; [apply (FinalisationBlocks.distinct_nodup String.eqb String.eqb_eq)|].
split; [|split; [apply candidates_in | apply candidates_head]].
apply candidates_in. exists logical_key. split; [|left; reflexivity].
unfold mapped_names. apply in_or_app. right. left. reflexivity.
Qed.

(** X7.  [_field_value] reads the mapped column first: when the field map
  gives a non-empty name for the key and the row has that column, the value
  is that column's (Python [None] when it holds JSON [null]); and it
  returns Python [None] exactly when no candidate name is a column of the
  row, or the first candidate that is a column holds [null]. *)
Theorem field_value_spec {V : Type} (lower upper : string -> string) (row : dict (option V))
  field_map logical_key :
  (forall m v, dict_get logical_key field_map = Some m -> m <> "" -> dict_get m row = Some v ->
     _field_value lower upper row field_map logical_key = v) /\
  (_field_value lower upper row field_map logical_key = None <->
   (forall c, In c (_field_name_candidates lower upper field_map logical_key) ->
              has_key row c = false) \/
   exists pre c post,
     _field_name_candidates lower upper field_map logical_key = (pre ++ c :: post)%list /\
     (forall x, In x pre -> has_key row x = false) /\ dict_get c row = Some None).
Proof.
split.
- intros m v Hm Hne Hv. unfold _field_value.
  pose proof (candidates_head lower upper field_map logical_key) as Hh.
  rewrite Hm in Hh. apply String.eqb_neq in Hne. rewrite Hne in Hh.
  destruct (_field_name_candidates lower upper field_map logical_key) as [|c0 r]; [discriminate|].
  injection Hh as ->. simpl.
  destruct (has_key row m) eqn:Hk.
  + rewrite Hv. reflexivity.
  + rewrite (has_key_false_get row m Hk) in Hv. discriminate.
- unfold _field_value.
  destruct (find (has_key row) _) as [c|] eqn:E.
  + pose proof E as E'. apply find_some_split in E' as (pre & post & Hsplit & Hc & Hpre).
    apply has_key_get in Hc as (v & Hv). rewrite Hv. split.
    * intros ->. right. exists pre, c, post. auto.
    * intros [Hall | (pre' & c' & post' & Hs' & Hpre' & Hv')].
      -- rewrite Hsplit in Hall.
         exfalso. pose proof (find_some _ _ E) as [_ Hk']. rewrite Hall in Hk'; [discriminate|].
         apply in_or_app. right. left. reflexivity.
      -- assert (Hf : find (has_key row) (_field_name_candidates lower upper field_map logical_key)
                      = Some c').
         { apply find_some_split. exists pre', post'. split; [exact Hs'|]. split; [|exact Hpre'].
           unfold has_key. apply existsb_exists. exists c'. split; [|apply String.eqb_refl].
           apply BundleFacts.dict_get_some_in in Hv'. exact (in_map fst _ _ Hv'). }
         rewrite E in Hf. injection Hf as <-. rewrite Hv in Hv'. injection Hv' as ->. reflexivity.
  + split; [intros _; left; apply find_none_iff; exact E | reflexivity].
Qed.

(** X8.  [_assert_required_mapped_fields_present] passes on a sample row
  exactly when, for every required field, some candidate name of the field
  is a column of that row (a column holding JSON [null] counts). *)
Theorem assert_required_fields_iff {V : Type} (lower upper : string -> string)
  source_name (sample_row : dict V) field_map required_fields :
  _assert_required_mapped_fields_present lower upper source_name sample_row field_map
    required_fields = None <->
  forall key, In key required_fields ->
    exists c, In c (_field_name_candidates lower upper field_map key) /\ has_key sample_row c = true.
Proof.
unfold _assert_required_mapped_fields_present. cbv zeta.
assert (Hm : forall key,
  (if existsb (has_key sample_row) (_field_name_candidates lower upper field_map key)
   then [] else [PyStr.join "/" (_field_name_candidates lower upper field_map key)]) = []
  <-> exists c, In c (_field_name_candidates lower upper field_map key) /\
                has_key sample_row c = true).
{ intros key. rewrite <- existsb_exists.
  destruct (existsb _ _); split; intros H; try reflexivity; discriminate. }
transitivity (flat_map (fun key =>
  if existsb (has_key sample_row) (_field_name_candidates lower upper field_map key)
  then [] else [PyStr.join "/" (_field_name_candidates lower upper field_map key)])
  required_fields = []).
{ destruct (flat_map _ _); split; intros; congruence. }
rewrite flat_map_nil_iff. split; intros H key Hk; apply Hm; apply H; exact Hk.
Qed.

(** A required column present but [null] in the sample row: the check
  passes while [_field_value] returns [None]. *)
Example assert_required_null_column_ex :
  _assert_required_mapped_fields_present PyStr.lower (fun s => s) "nsul"
    [("uprn", @None string)] [] ["uprn"] = None /\
  _field_value PyStr.lower (fun s => s) [("uprn", @None string)] [] "uprn" = None.
Proof. split; vm_compute; reflexivity. Qed.

End FieldsFacts.

(* ------------------------------------------------------------------ *)
(** ** [_mapped_fields_for_source] *)

Module SchemaConfigFacts.
Import Bundle SchemaConfig.
Local Open Scope string_scope.

Lemma string_map_iff source_name raw m :
  string_map source_name raw = inr m <->
  raw = map (fun kv => (fst kv, CStr (snd kv))) m.
Proof.
revert m. induction raw as [|[k v] r IH]; intros m; simpl.
- split; intros H.
  + injection H as <-. reflexivity.
  + destruct m; [reflexivity | discriminate].
- destruct v as [s| | | |];
    try (split; intros H; [discriminate | destruct m as [|[] ?]; discriminate]).
  destruct (string_map source_name r) as [e|m'] eqn:E; split; intros H.
  + discriminate.
  + destruct m as [|[k' v'] m]; [discriminate|]. simpl in H. injection H as -> -> Hr.
    apply IH in Hr. discriminate.
  + injection H as <-. simpl. f_equal. apply IH. reflexivity.
  + destruct m as [|[k' v'] m]; [discriminate|]. simpl in H. injection H as -> -> Hr.
    apply IH in Hr. injection Hr as ->. reflexivity.
Qed.

Lemma required_list_iff source_name field_map raw l :
  required_list source_name field_map raw = inr l <->
  raw = map CStr l /\ forall r, In r l -> In r (map fst field_map).
Proof.
revert l. induction raw as [|c r IH]; intros l; simpl.
- split; [intros H; injection H as <-; split; [reflexivity | intros ? []]|].
  intros [H _]. destruct l; [reflexivity | discriminate].
- destruct c as [item| | | |];
    try (split; [discriminate | intros [H _]; destruct l; discriminate]).
  destruct (existsb (String.eqb item) (map fst field_map)) eqn:Ek; simpl.
  + assert (Hk : In item (map fst field_map)).
    { apply existsb_exists in Ek as (x & Hx & Hxe). apply String.eqb_eq in Hxe. subst. exact Hx. }
    destruct (required_list source_name field_map r) as [e|l'] eqn:E; split.
    * discriminate.
    * intros [H Hin]. destruct l as [|x l]; [discriminate|]. simpl in H.
      injection H as -> Hr.
      pose proof (proj2 (IH l) (conj Hr (fun y Hy => Hin y (or_intror Hy)))) as Hl.
      congruence.
    * intros H. injection H as <-. destruct (proj1 (IH l') eq_refl) as [-> Hin]. split; [reflexivity|].
      intros y [<-|Hy]; [exact Hk | apply Hin; exact Hy].
    * intros [H Hin]. destruct l as [|x l]; [discriminate|]. simpl in H.
      injection H as -> Hr.
      pose proof (proj2 (IH l) (conj Hr (fun y Hy => Hin y (or_intror Hy)))) as Hl.
      congruence.
  + split; [discriminate|]. intros [H Hin]. destruct l as [|x l]; [discriminate|].
    simpl in H. injection H as -> _. exfalso.
    apply Bool.not_true_iff_false in Ek. apply Ek. apply existsb_exists.
    exists x. split; [apply Hin; left; reflexivity | apply String.eqb_refl].
Qed.

(** X9.  [_mapped_fields_for_source] succeeds with [(field_map,
  required_fields)] exactly when the config has a [sources] object whose
  block for the source has a [field_map] object of strings (giving
  [field_map], in order) and a [required_fields] list of strings (giving
  [required_fields], in order), each required field being a key of
  [field_map]. *)
Theorem mapped_fields_for_source_iff schema_config source_name field_map required_fields :
  _mapped_fields_for_source schema_config source_name = inr (field_map, required_fields) <->
  exists sources source_cfg,
    dict_get "sources" schema_config = Some (CObj sources) /\
    dict_get source_name sources = Some (CObj source_cfg) /\
    dict_get "field_map" source_cfg =
      Some (CObj (map (fun kv => (fst kv, CStr (snd kv))) field_map)) /\
    dict_get "required_fields" source_cfg = Some (CList (map CStr required_fields)) /\
    (forall r, In r required_fields -> In r (map fst field_map)).
Proof.
unfold _mapped_fields_for_source. split.
- destruct (dict_get "sources" schema_config) as [[| |sources| |]|] eqn:Hs; try discriminate.
  destruct (dict_get source_name sources) as [[| |source_cfg| |]|] eqn:Hc; try discriminate.
  destruct (dict_get "field_map" source_cfg) as [[| |fm_raw| |]|] eqn:Hf;
    destruct (dict_get "required_fields" source_cfg) as [[|req_raw| | |]|] eqn:Hr;
    try discriminate.
  destruct (string_map source_name fm_raw) as [e|fm] eqn:Efm; [discriminate|].
  destruct (required_list source_name fm req_raw) as [e|req] eqn:Ereq; [discriminate|].
  intros H. injection H as -> ->.
  apply string_map_iff in Efm. apply required_list_iff in Ereq as [Hreq Hin]. subst.
  exists sources, source_cfg. repeat split; auto.
- intros (sources & source_cfg & Hs & Hc & Hf & Hr & Hin).
  rewrite Hs, Hc, Hf, Hr.
  assert (E1 : string_map source_name (map (fun kv => (fst kv, CStr (snd kv))) field_map)
               = inr field_map) by (apply string_map_iff; reflexivity).
  assert (E2 : required_list source_name field_map (map CStr required_fields)
               = inr required_fields) by (apply required_list_iff; split; [reflexivity | exact Hin]).
  rewrite E1, E2. reflexivity.
Qed.

End SchemaConfigFacts.

(* ------------------------------------------------------------------ *)
(** ** [_pass_0a_raw_ingest] *)

Module Pass0aFacts.
Import Bundle Pass0a.
Local Open Scope string_scope.

(** [int(record_count or 0)] of the metadata row of a run, [0] when the
  run has no row. *)
Definition record_count (meta : list ingest_run_meta) (run_id : string) : Z :=
match select_ingest_run meta run_id with
| Some row => match im_record_count row with Some c => c | None => 0 end
| None => 0
end.

(** The three checks pass 0a makes on one run of a source. *)
Definition run_ok (meta : list ingest_run_meta) (source_name run_id : string) : Prop :=
match select_ingest_run meta run_id with
| Some row => im_source_name row = source_name /\ 0 < record_count meta run_id
| None => False
end.

Definition sum_counts (meta : list ingest_run_meta) (run_ids : list string) : Z :=
fold_right Z.add 0 (map (record_count meta) run_ids).

Lemma source_total_inr meta source_name run_ids acc t :
  source_total meta source_name run_ids acc = inr t ->
  (forall r, In r run_ids -> run_ok meta source_name r) /\
  t = acc + sum_counts meta run_ids.
Proof.
revert acc. induction run_ids as [|rid rest IH]; intros acc; simpl.
- intros H. injection H as <-. split; [intros _ []|]. unfold sum_counts. simpl. lia.
- destruct (select_ingest_run meta rid) as [row|] eqn:Es; [|discriminate].
  destruct (im_source_name row =? source_name) eqn:En; simpl; [|discriminate].
  apply String.eqb_eq in En.
  destruct (Z.leb (match im_record_count row with Some c => c | None => 0 end) 0) eqn:Ec;
    [discriminate|].
  intros H. apply IH in H as [Hok ->]. apply Z.leb_gt in Ec. split.
  + intros r [<-|Hr]; [|apply Hok; exact Hr].
    unfold run_ok, record_count. rewrite Es. split; [exact En | exact Ec].
  + unfold sum_counts, record_count. simpl. rewrite Es. fold (record_count meta).
    fold (sum_counts meta rest). lia.
Qed.

Lemma source_total_ok meta source_name run_ids acc :
  (forall r, In r run_ids -> run_ok meta source_name r) ->
  source_total meta source_name run_ids acc = inr (acc + sum_counts meta run_ids).
Proof.
revert acc. induction run_ids as [|rid rest IH]; intros acc Hok; simpl.
- f_equal. unfold sum_counts. simpl. lia.
- pose proof (Hok rid (or_introl eq_refl)) as H. unfold run_ok, record_count in H.
  destruct (select_ingest_run meta rid) as [row|] eqn:Es; [|contradiction].
  destruct H as [Hn Hc]. rewrite Hn, String.eqb_refl. simpl.
  replace (Z.leb _ 0) with false by (symmetry; apply Z.leb_gt; exact Hc).
  rewrite IH by (intros r Hr; apply Hok; right; exact Hr).
  f_equal. unfold sum_counts at 2, record_count at 1. simpl. rewrite Es.
  fold (record_count meta). fold (sum_counts meta rest). lia.
Qed.

Lemma count_sources_inr meta items counts :
  count_sources meta items = inr counts ->
  counts = map (fun it => (fst it, sum_counts meta (snd it))) items /\
  forall s rids, In (s, rids) items -> forall r, In r rids -> run_ok meta s r.
Proof.
revert counts. induction items as [|[s rids] rest IH]; intros counts; simpl.
- intros H. injection H as <-. split; [reflexivity | intros ? ? []].
- destruct (source_total meta s rids 0) as [e|t] eqn:Et; [discriminate|].
  destruct (count_sources meta rest) as [e|cs] eqn:Ec; [discriminate|].
  intros H. injection H as <-. apply source_total_inr in Et as [Hok ->].
  destruct (IH cs eq_refl) as [-> Hrest]. split; [reflexivity|].
  intros s' rids' [[= <- <-]|Hin]; [exact Hok | exact (Hrest s' rids' Hin)].
Qed.

Lemma count_sources_ok meta items :
  (forall s rids, In (s, rids) items -> forall r, In r rids -> run_ok meta s r) ->
  exists counts, count_sources meta items = inr counts.
Proof.
induction items as [|[s rids] rest IH]; intros Hok; simpl; [eexists; reflexivity|].
rewrite (source_total_ok meta s rids 0) by (apply Hok; left; reflexivity).
destruct IH as [cs ->]; [intros s' rids' Hin; apply Hok; right; exact Hin|].
eexists. reflexivity.
Qed.

(** X10.  Pass 0a succeeds exactly when every run the bundle lists has a
  metadata row of the same source with a positive record count; it then
  returns, for each source of the bundle, the sum of its runs' record
  counts. *)
Theorem pass_0a_raw_ingest_spec meta (source_runs : dict (list string))
  (Hnd : NoDup (map fst source_runs)) :
  ((exists counts, _pass_0a_raw_ingest meta source_runs = inr counts) <->
   forall s rids, In (s, rids) source_runs -> forall r, In r rids -> run_ok meta s r) /\
  (forall counts, _pass_0a_raw_ingest meta source_runs = inr counts ->
   forall s rids, In (s, rids) source_runs ->
   dict_get s counts = Some (sum_counts meta rids)).
Proof.
unfold _pass_0a_raw_ingest.
pose proof (SortFacts.sort_perm item_leb source_runs) as P.
split; [split|].
- intros [counts H]. apply count_sources_inr in H as [_ Hok].
  intros s rids Hin. apply Hok. exact (Permutation_in _ P Hin).
- intros Hok. apply count_sources_ok. intros s rids Hin. apply Hok.
  exact (Permutation_in _ (Permutation_sym P) Hin).
- intros counts H s rids Hin. apply count_sources_inr in H as [-> _].
  apply BundleFacts.dict_get_in.
  + rewrite map_map. simpl.
    eapply Permutation_NoDup; [apply Permutation_map, P | exact Hnd].
  + apply (in_map (fun it => (fst it, sum_counts meta (snd it)))) in Hin.
    apply (Permutation_in _ (Permutation_map _ P)) in Hin. exact Hin.
Qed.

Definition witness_meta : list ingest_run_meta :=
[{| im_run_id := "r1"; im_source_name := "onspd"; im_record_count := Some 5 |};
 {| im_run_id := "p1"; im_source_name := "ppd"; im_record_count := Some 3 |};
 {| im_run_id := "p2"; im_source_name := "ppd"; im_record_count := Some 4 |}].

Definition witness_source_runs : dict (list string) :=
[("ppd", ["p1"; "p2"]); ("onspd", ["r1"])].

Lemma pass_0a_raw_ingest_spec_witness :
  NoDup (map fst witness_source_runs) /\
  ((exists counts, _pass_0a_raw_ingest witness_meta witness_source_runs = inr counts) <->
   forall s rids, In (s, rids) witness_source_runs ->
   forall r, In r rids -> run_ok witness_meta s r) /\
  (forall counts, _pass_0a_raw_ingest witness_meta witness_source_runs = inr counts ->
   forall s rids, In (s, rids) witness_source_runs ->
   dict_get s counts = Some (sum_counts witness_meta rids)).
Proof.
assert (Hnd : NoDup (map fst witness_source_runs)).
{ simpl. constructor; [simpl; intros [H|[]]; discriminate | constructor; [intros []|constructor]]. }
split; [exact Hnd|].
exact (pass_0a_raw_ingest_spec witness_meta witness_source_runs Hnd).
Defined.

End Pass0aFacts.

(* ------------------------------------------------------------------ *)
(** ** [_pass_0b_stage_normalisation] *)

Module Pass0bFacts.
Import Bundle Pass0b.
Local Open Scope string_scope.

Lemma single_source_run_inr source_runs source_name r :
  Versions._single_source_run source_runs source_name = inr r ->
  dict_get source_name source_runs = Some [r].
Proof.
unfold Versions._single_source_run.
destruct (dict_get source_name source_runs) as [l|]; simpl; [|discriminate].
destruct l as [|x [|y l]]; simpl; try discriminate.
intros H. injection H as ->. reflexivity.
Qed.

Section WithPopulate.
Variable populate : string -> string -> dict string -> list string -> string + dict Z.
Variable ordered_run_ids : list string -> string + list string.
Variable populate_ppd : string -> dict string -> list string -> string + Z.

Lemma stage_single_inr schema_config source_runs sources counts :
  stage_single populate schema_config source_runs sources = inr counts ->
  forall s, In s sources -> Fields.has_key source_runs s = true ->
  exists r, dict_get s source_runs = Some [r].
Proof.
revert counts. induction sources as [|x rest IH]; intros counts; simpl; [intros _ _ []|].
destruct (Fields.has_key source_runs x) eqn:Hk.
- destruct (SchemaConfig._mapped_fields_for_source schema_config x) as [e|[fm req]];
    [discriminate|].
  destruct (Versions._single_source_run source_runs x) as [e|r] eqn:Er; [discriminate|].
  destruct (populate x r fm req) as [e|c]; [discriminate|].
  destruct (stage_single populate schema_config source_runs rest) as [e|cs] eqn:Es;
    [discriminate|].
  intros _ s [<-|Hs] Hks.
  + exists r. apply single_source_run_inr. exact Er.
  + exact (IH cs eq_refl s Hs Hks).
- intros H s [<-|Hs] Hks; [congruence | exact (IH counts H s Hs Hks)].
Qed.

Lemma stage_ppd_inr schema_config source_runs c :
  stage_ppd ordered_run_ids populate_ppd schema_config source_runs = inr c ->
  dict_get "ppd" source_runs <> Some [].
Proof.
unfold stage_ppd. destruct (Fields.has_key source_runs "ppd") eqn:Hk.
- destruct (SchemaConfig._mapped_fields_for_source schema_config "ppd") as [e|[fm req]];
    [discriminate|].
  intros H Hp. rewrite Hp in H. discriminate.
- intros _ Hp. apply BundleFacts.dict_get_some_in in Hp.
  unfold Fields.has_key in Hk. apply Bool.not_true_iff_false in Hk. apply Hk.
  apply existsb_exists. exists "ppd". split; [exact (in_map fst _ _ Hp) | apply String.eqb_refl].
Qed.

End WithPopulate.

(** X11.  Whatever the staging functions do, pass 0b succeeds only when
  each of the nine single-run sources that the bundle lists has exactly one
  ingest run, and the bundle's [ppd] entry, if any, is not empty; in
  particular an optional single-run source listed with two runs makes the
  pass fail. *)
Theorem pass_0b_single_run_sources populate ordered_run_ids populate_ppd
  schema_config source_runs counts
  (H : _pass_0b_stage_normalisation populate ordered_run_ids populate_ppd
         schema_config source_runs = inr counts) :
  (forall s, In s SINGLE_RUN_SOURCES -> Fields.has_key source_runs s = true ->
   exists r, dict_get s source_runs = Some [r]) /\
  dict_get "ppd" source_runs <> Some [].
Proof.
unfold _pass_0b_stage_normalisation in H.
destruct (stage_single populate schema_config source_runs SINGLE_RUN_SOURCES) as [e|cs] eqn:E1;
  [discriminate|].
destruct (stage_ppd ordered_run_ids populate_ppd schema_config source_runs) as [e|c] eqn:E2;
  [discriminate|].
split; [exact (stage_single_inr populate _ _ _ _ E1) | exact (stage_ppd_inr _ _ _ _ _ E2)].
Qed.

Definition witness_source_cfg : SchemaConfig.cfg :=
SchemaConfig.CObj
  [("field_map", SchemaConfig.CObj [("postcode", SchemaConfig.CStr "pcd")]);
   ("required_fields", SchemaConfig.CList [SchemaConfig.CStr "postcode"])].

Definition witness_schema_config : dict SchemaConfig.cfg :=
[("sources", SchemaConfig.CObj [("onspd", witness_source_cfg); ("ppd", witness_source_cfg)])].

Definition witness_source_runs : dict (list string) :=
[("onspd", ["r1"]); ("ppd", ["p1"; "p2"])].

Definition witness_populate (source_name ingest_run_id : string) (field_map : dict string)
  (required_fields : list string) : string + dict Z :=
inr [("stage." ++ source_name, 1)].

Lemma pass_0b_single_run_sources_witness :
  exists counts,
  _pass_0b_stage_normalisation witness_populate (fun l => inr l) (fun _ _ _ => inr 2)
    witness_schema_config witness_source_runs = inr counts /\
  (forall s, In s SINGLE_RUN_SOURCES -> Fields.has_key witness_source_runs s = true ->
   exists r, dict_get s witness_source_runs = Some [r]) /\
  dict_get "ppd" witness_source_runs <> Some [].
Proof.
destruct (_pass_0b_stage_normalisation witness_populate (fun l => inr l) (fun _ _ _ => inr 2)
            witness_schema_config witness_source_runs) as [e|counts] eqn:E.
- vm_compute in E. discriminate.
- exists counts. split; [reflexivity|].
  exact (pass_0b_single_run_sources witness_populate (fun l => inr l) (fun _ _ _ => inr 2)
           witness_schema_config witness_source_runs counts E).
Defined.

End Pass0bFacts.

(* ------------------------------------------------------------------ *)
(** ** [run_build] and its helpers *)

Module RunBuildFacts.
Import Bundle BuildBundle RunBuild.
Local Open Scope string_scope.

(** The fields of a [meta.build_run] row that only [_create_build_run]
  writes. *)
Definition strip (r : build_run_row) : string * string * string * Z :=
(rr_build_run_id r, rr_bundle_id r, rr_dataset_version r, rr_started_at_utc r).

(** The rows of [meta.build_run] of one run. *)
Definition run_rows (st : state) (build_run_id : string) : list build_run_row :=
filter (fun r => rr_build_run_id r =? build_run_id) (st_runs st).

(** The row [_create_build_run] inserts. *)
Definition new_run_row (build_run_id bundle_id dataset_version : string) (now : Z)
  : build_run_row :=
{| rr_build_run_id := build_run_id; rr_bundle_id := bundle_id;
   rr_dataset_version := dataset_version; rr_status := "started";
   rr_current_pass := "initialising"; rr_started_at_utc := now;
   rr_finished_at_utc := None; rr_error_text := None |}.

Lemma update_run_strip st id f :
  (forall r, strip (f r) = strip r) ->
  map strip (st_runs (update_run st id f)) = map strip (st_runs st).
Proof.
intros Hf. unfold update_run, with_runs. cbn [st_runs]. rewrite map_map. apply map_ext.
intros r. destruct (rr_build_run_id r =? id); [apply Hf | reflexivity].
Qed.

Lemma mark_checkpoint_same st id p :
  st_runs (_mark_pass_checkpoint st id p) = st_runs st /\
  st_bundle_db (_mark_pass_checkpoint st id p) = st_bundle_db st.
Proof. unfold _mark_pass_checkpoint. destruct (existsb _ _); split; reflexivity. Qed.

Lemma filter_update (l : list build_run_row) id f :
  (forall r, rr_build_run_id (f r) = rr_build_run_id r) ->
  filter (fun r => rr_build_run_id r =? id)
    (map (fun r => if rr_build_run_id r =? id then f r else r) l) =
  map f (filter (fun r => rr_build_run_id r =? id) l).
Proof.
intros Hf. induction l as [|r l IH]; simpl; [reflexivity|].
destruct (rr_build_run_id r =? id) eqn:E; simpl.
- rewrite Hf, E, IH. reflexivity.
- rewrite E. exact IH.
Qed.

Lemma strip_filter (l1 l2 : list build_run_row) id :
  map strip l2 = map strip l1 ->
  map strip (filter (fun r => rr_build_run_id r =? id) l2) =
  map strip (filter (fun r => rr_build_run_id r =? id) l1).
Proof.
revert l2. induction l1 as [|a l1 IH]; intros [|b l2] H; simpl in *; try discriminate; [reflexivity|].
assert (Hab : strip b = strip a) by congruence.
assert (Hl : map strip l2 = map strip l1) by congruence.
assert (Hi : rr_build_run_id b = rr_build_run_id a) by (unfold strip in Hab; congruence).
rewrite Hi. destruct (rr_build_run_id a =? id); simpl; rewrite (IH l2 Hl); [|reflexivity].
rewrite Hab. reflexivity.
Qed.

Definition fresh_for (id : string) (passes : list string) (cps : list (string * string)) : Prop :=
forall q, In q passes -> ~ In (id, q) cps.

Lemma run_passes_fresh handler id passes st st2 res :
  NoDup passes -> fresh_for id passes (st_checkpoints st) ->
  run_passes handler id [] passes st = (st2, res) ->
  map strip (st_runs st2) = map strip (st_runs st) /\
  st_bundle_db st2 = st_bundle_db st /\
  match res with
  | None => (forall q, In q passes -> handler q = None) /\
            st_checkpoints st2 = (st_checkpoints st ++ map (pair id) passes)%list
  | Some (p, m) => exists pre post, passes = (pre ++ p :: post)%list /\
            (forall q, In q pre -> handler q = None) /\ handler p = Some m /\
            st_checkpoints st2 = (st_checkpoints st ++ map (pair id) pre)%list
  end.
Proof.
revert st. induction passes as [|p rest IH]; intros st Hnd Hf H; simpl in H.
- injection H as <- <-. split; [reflexivity|]. split; [reflexivity|].
  split; [intros _ []|]. rewrite app_nil_r. reflexivity.
- inversion Hnd as [|? ? Hp Hnd']; subst.
  destruct (handler p) as [m|] eqn:Eh.
  + injection H as <- <-. split; [reflexivity|]. split; [reflexivity|].
    exists [], rest. split; [reflexivity|]. split; [intros _ []|]. split; [exact Eh|].
    rewrite app_nil_r. reflexivity.
  + set (st1 := _mark_pass_checkpoint (_set_build_run_pass st id p) id p) in H.
    assert (Hc : st_checkpoints st1 = (st_checkpoints st ++ [(id, p)])%list).
    { unfold st1, _mark_pass_checkpoint, _set_build_run_pass, update_run, with_runs,
        with_checkpoints. cbn [st_checkpoints].
      replace (existsb _ _) with false; [reflexivity|].
      symmetry. apply Bool.not_true_iff_false. intros E.
      apply existsb_exists in E as ([i q] & Hin & Hiq).
      apply andb_true_iff in Hiq as [Hi Hq]. apply String.eqb_eq in Hi, Hq.
      simpl in Hi, Hq. rewrite Hi, Hq in Hin. exact (Hf p (or_introl eq_refl) Hin). }
    assert (Hf' : fresh_for id rest (st_checkpoints st1)).
    { intros q Hq. rewrite Hc. intros Hin. apply in_app_or in Hin as [Hin|[E|[]]].
      - exact (Hf q (or_intror Hq) Hin).
      - injection E as ->. exact (Hp Hq). }
    destruct (IH st1 Hnd' Hf' H) as (Hs & Hd & Hr).
    assert (Hs1 : map strip (st_runs st1) = map strip (st_runs st)).
    { unfold st1. rewrite (proj1 (mark_checkpoint_same _ _ _)).
      apply update_run_strip. intros r. reflexivity. }
    assert (Hd1 : st_bundle_db st1 = st_bundle_db st).
    { unfold st1. rewrite (proj2 (mark_checkpoint_same _ _ _)). reflexivity. }
    split; [congruence|]. split; [congruence|].
    destruct res as [[p' m']|].
    * destruct Hr as (pre & post & -> & Hpre & Hp' & Hcp). exists (p :: pre), post.
      split; [reflexivity|].
      split; [intros q [<-|Hq]; [exact Eh | apply Hpre; exact Hq]|]. split; [exact Hp'|].
      rewrite Hcp, Hc, <- app_assoc. reflexivity.
    * destruct Hr as [Hall Hcp].
      split; [intros q [<-|Hq]; [exact Eh | apply Hall; exact Hq]|].
      rewrite Hcp, Hc, <- app_assoc. reflexivity.
Qed.

Lemma load_completed_fresh (cps : list (string * string)) (id : string) (pre : list string) :
  (forall c, In c cps -> fst c <> id) ->
  map snd (filter (fun c => fst c =? id) (cps ++ map (pair id) pre)%list) = pre.
Proof.
intros Hf. rewrite filter_app.
replace (filter (fun c => fst c =? id) cps) with (@nil (string * string)).
- simpl. induction pre as [|q pre IH]; simpl; [reflexivity|].
  rewrite String.eqb_refl. simpl. f_equal. exact IH.
- induction cps as [|c cps IH]; simpl; [reflexivity|].
  destruct (String.eqb_spec (fst c) id) as [E|_].
  + exfalso. exact (Hf c (or_introl eq_refl) E).
  + apply IH. intros c' Hc'. apply Hf. right. exact Hc'.
Qed.

Lemma find_bundle_built st bundle_id build_run_id now b :
  find (fun b => bb_bundle_id b =? bundle_id) (meta_build_bundle (st_bundle_db st)) = Some b ->
  find (fun b => bb_bundle_id b =? bundle_id)
    (meta_build_bundle (st_bundle_db (_mark_build_built st bundle_id build_run_id now))) =
  Some {| bb_bundle_id := bb_bundle_id b; bb_build_profile := bb_build_profile b;
          bb_bundle_hash := bb_bundle_hash b; bb_status := "built" |}.
Proof.
unfold _mark_build_built, update_run, with_runs. cbn [st_bundle_db meta_build_bundle].
induction (meta_build_bundle (st_bundle_db st)) as [|b0 l IH]; simpl; [discriminate|].
destruct (bb_bundle_id b0 =? bundle_id) eqn:E; simpl.
- rewrite E. intros H. injection H as <-. reflexivity.
- rewrite E. exact IH.
Qed.

Lemma load_bundle_hash d bundle_id bp bh bs sr :
  _load_bundle d bundle_id = inr (bp, bh, bs, sr) ->
  exists b, find (fun b => bb_bundle_id b =? bundle_id) (meta_build_bundle d) = Some b /\
            bh = bb_bundle_hash b.
Proof.
unfold _load_bundle. destruct (find _ _) as [b|]; [|discriminate].
unfold _load_bundle_rows. destruct (dict_get (bb_build_profile b) BUILD_PROFILES); [|discriminate].
destruct (missing_sources _ _); [|discriminate].
intros H. injection H as _ <- _ _. exists b. split; reflexivity.
Qed.

Lemma pass_order_nodup : NoDup PASS_ORDER.
Proof. unfold PASS_ORDER. repeat constructor; simpl; intuition discriminate. Qed.

(** The passes of a fresh run, from the state after [_create_build_run]
  (and [_clear_run_outputs]) to the final commit. *)
Lemma finish_fresh handler build_run_id bundle_id dataset_version started_now finished_now st st1 res st' :
  st_runs st1 = (st_runs st ++ [new_run_row build_run_id bundle_id dataset_version started_now])%list ->
  st_bundle_db st1 = st_bundle_db st ->
  (forall c, In c (st_checkpoints st1) -> fst c <> build_run_id) ->
  (forall r, In r (st_runs st) -> rr_build_run_id r <> build_run_id) ->
  match run_passes handler build_run_id [] PASS_ORDER st1 with
  | (st2, Some (pass_name, msg)) =>
      (inl (PassError pass_name msg), _mark_build_failed st2 build_run_id pass_name msg finished_now)
  | (st2, None) =>
      (inr {| rb_build_run_id := build_run_id; rb_status := "built";
              rb_dataset_version := dataset_version;
              rb_message := "Build completed successfully" |},
       _mark_build_built st2 bundle_id build_run_id finished_now)
  end = (res, st') ->
  match res with
  | inr r =>
      r = {| rb_build_run_id := build_run_id; rb_status := "built";
             rb_dataset_version := dataset_version;
             rb_message := "Build completed successfully" |} /\
      (forall q, In q PASS_ORDER -> handler q = None) /\
      _load_completed_passes st' build_run_id = PASS_ORDER /\
      run_rows st' build_run_id =
        [{| rr_build_run_id := build_run_id; rr_bundle_id := bundle_id;
            rr_dataset_version := dataset_version; rr_status := "built";
            rr_current_pass := "complete"; rr_started_at_utc := started_now;
            rr_finished_at_utc := Some finished_now; rr_error_text := None |}] /\
      (forall b, find (fun b => bb_bundle_id b =? bundle_id) (meta_build_bundle (st_bundle_db st))
                   = Some b ->
       find (fun b => bb_bundle_id b =? bundle_id) (meta_build_bundle (st_bundle_db st')) =
       Some {| bb_bundle_id := bb_bundle_id b; bb_build_profile := bb_build_profile b;
               bb_bundle_hash := bb_bundle_hash b; bb_status := "built" |})
  | inl (PassError p m) =>
      (exists pre post, PASS_ORDER = (pre ++ p :: post)%list /\
         (forall q, In q pre -> handler q = None) /\ handler p = Some m /\
         _load_completed_passes st' build_run_id = pre) /\
      run_rows st' build_run_id =
        [{| rr_build_run_id := build_run_id; rr_bundle_id := bundle_id;
            rr_dataset_version := dataset_version; rr_status := "failed";
            rr_current_pass := p; rr_started_at_utc := started_now;
            rr_finished_at_utc := Some finished_now; rr_error_text := Some m |}] /\
      st_bundle_db st' = st_bundle_db st
  | inl _ => False
  end.
Proof.
intros Hr1 Hd1 Hc1 Hfresh.
assert (Hf : fresh_for build_run_id PASS_ORDER (st_checkpoints st1)).
{ intros q _ Hin. exact (Hc1 _ Hin eq_refl). }
assert (Hrows1 : run_rows st1 build_run_id =
                 [new_run_row build_run_id bundle_id dataset_version started_now]).
{ unfold run_rows. rewrite Hr1, filter_app. simpl. rewrite String.eqb_refl.
  replace (filter _ (st_runs st)) with (@nil build_run_row); [reflexivity|].
  clear Hr1. induction (st_runs st) as [|r l IH]; simpl; [reflexivity|].
  destruct (String.eqb_spec (rr_build_run_id r) build_run_id) as [E|_].
  - exfalso. exact (Hfresh r (or_introl eq_refl) E).
  - apply IH. intros r' Hr'. apply Hfresh. right. exact Hr'. }
destruct (run_passes handler build_run_id [] PASS_ORDER st1) as [st2 res2] eqn:Er.
destruct (run_passes_fresh _ _ _ _ _ _ pass_order_nodup Hf Er) as (Hs & Hd & Hres).
assert (Hrows2 : exists r2, run_rows st2 build_run_id = [r2] /\
                   strip r2 = (build_run_id, bundle_id, dataset_version, started_now)).
{ pose proof (strip_filter _ _ build_run_id Hs) as Hsf. fold (run_rows st2 build_run_id) in Hsf.
  fold (run_rows st1 build_run_id) in Hsf. rewrite Hrows1 in Hsf.
  destruct (run_rows st2 build_run_id) as [|r2 [|r3 l]]; try discriminate.
  exists r2. split; [reflexivity|].
  assert (E : strip r2 = strip (new_run_row build_run_id bundle_id dataset_version started_now))
    by (cbn [map] in Hsf; congruence).
  exact E. }
destruct Hrows2 as ([i b dv s cp t f e] & Hrr & Hst). unfold strip in Hst. simpl in Hst.
injection Hst as -> -> -> ->.
destruct res2 as [[p m]|]; intros H; injection H as <- <-.
- split; [|split].
  + destruct Hres as (pre & post & Hpo & Hpre & Hp & Hcp). exists pre, post.
    split; [exact Hpo|]. split; [exact Hpre|]. split; [exact Hp|].
    unfold _load_completed_passes, _mark_build_failed, update_run, with_runs.
    cbn [st_checkpoints]. rewrite Hcp. apply load_completed_fresh. exact Hc1.
  + unfold run_rows, _mark_build_failed, update_run, with_runs. cbn [st_runs].
    rewrite filter_update by reflexivity. fold (run_rows st2 build_run_id). rewrite Hrr.
    reflexivity.
  + unfold _mark_build_failed, update_run, with_runs. cbn [st_bundle_db]. congruence.
- destruct Hres as [Hall Hcp]. split; [reflexivity|]. split; [exact Hall|]. split; [|split].
  + unfold _load_completed_passes, _mark_build_built, update_run, with_runs.
    cbn [st_checkpoints]. rewrite Hcp. apply load_completed_fresh. exact Hc1.
  + unfold run_rows, _mark_build_built, update_run, with_runs. cbn [st_runs].
    rewrite filter_update by reflexivity. fold (run_rows st2 build_run_id). rewrite Hrr.
    reflexivity.
  + intros b0 Hb0. apply find_bundle_built. rewrite Hd, Hd1. exact Hb0.
Qed.

(** X12.  When [run_build] fails before any pass runs (conflicting flags,
  unknown bundle or profile, missing sources, wrong run counts, no run to
  resume), it leaves the database as it was: no build run is created. *)
Theorem run_build_validation_error_no_change handler new_build_run_id started_now finished_now st bundle_id
  rebuild resume e st'
  (H : run_build handler new_build_run_id started_now finished_now st bundle_id rebuild resume = (inl e, st'))
  (Hne : forall p m, e <> PassError p m) :
  st' = st.
Proof.
unfold run_build in H.
destruct (rebuild && resume); [injection H as _ <-; reflexivity|].
destruct (_load_bundle (st_bundle_db st) bundle_id) as [e'|[[[bp bh] bs] sr]];
  [injection H as _ <-; reflexivity|].
destruct (dict_get bp BUILD_PROFILES) as [req|]; [|injection H as _ <-; reflexivity].
destruct (missing_sources req sr) as [|x xs]; [|injection H as _ <-; reflexivity].
destruct (source_counts_check req sr) as [e'|]; [injection H as _ <-; reflexivity|].
destruct resume.
- destruct (_latest_resumable_run st bundle_id) as [[i dv]|]; [|injection H as _ <-; reflexivity].
  destruct (run_passes _ _ _ _ _) as [st2 [[p m]|]]; injection H as He _;
    [subst e; exfalso; exact (Hne p m eq_refl) | discriminate].
- cbv zeta in H.
  destruct (run_passes _ _ _ _ _) as [st2 [[p m]|]]; injection H as He _;
    [subst e; exfalso; exact (Hne p m eq_refl) | discriminate].
Qed.

Lemma load_bundle_not_pass_error d bundle_id e :
  _load_bundle d bundle_id = inl e -> forall p m, e <> PassError p m.
Proof.
unfold _load_bundle. destruct (find _ _) as [b|]; [|intros H; injection H as <-; discriminate].
unfold _load_bundle_rows. destruct (dict_get (bb_build_profile b) BUILD_PROFILES);
  [|intros H; injection H as <-; discriminate].
destruct (missing_sources _ _); [discriminate|]. intros H; injection H as <-; discriminate.
Qed.

Lemma source_counts_check_not_pass_error required source_runs e :
  source_counts_check required source_runs = Some e -> forall p m, e <> PassError p m.
Proof.
induction required as [|s req IH]; simpl; [discriminate|].
destruct (s =? "ppd"); [destruct (Nat.eqb _ 0) | destruct (negb _)];
  first [ intros Ec; injection Ec as <-; discriminate | exact IH ].
Qed.

(** X13.  A run started without [--resume] under a fresh run id either
  succeeds, with every pass of [PASS_ORDER] checkpointed, its single
  [meta.build_run] row [built]/[complete] with dataset version
  [v3_] and the first 12 characters of the bundle hash, and the bundle
  marked [built]; or fails in a pass [p], with exactly the passes before
  [p] checkpointed, its row [failed] at [p] with the pass's message, and the
  bundle table untouched; or fails validation, leaving the state as it
  was.  The row's start time is [now()] of the transaction that created
  it, its finish time that of the transaction that marked it. *)
Theorem run_build_fresh_run handler new_build_run_id started_now finished_now st bundle_id rebuild res st'
  (Hrun : forall r, In r (st_runs st) -> rr_build_run_id r <> new_build_run_id)
  (Hcp : forall c, In c (st_checkpoints st) -> fst c <> new_build_run_id)
  (H : run_build handler new_build_run_id started_now finished_now st bundle_id rebuild false = (res, st')) :
  match res with
  | inr r =>
      exists b,
      find (fun b => bb_bundle_id b =? bundle_id) (meta_build_bundle (st_bundle_db st)) = Some b /\
      r = {| rb_build_run_id := new_build_run_id; rb_status := "built";
             rb_dataset_version := Versions._dataset_version_from_bundle_hash (bb_bundle_hash b);
             rb_message := "Build completed successfully" |} /\
      (forall q, In q PASS_ORDER -> handler q = None) /\
      _load_completed_passes st' new_build_run_id = PASS_ORDER /\
      run_rows st' new_build_run_id =
        [{| rr_build_run_id := new_build_run_id; rr_bundle_id := bundle_id;
            rr_dataset_version := Versions._dataset_version_from_bundle_hash (bb_bundle_hash b);
            rr_status := "built"; rr_current_pass := "complete"; rr_started_at_utc := started_now;
            rr_finished_at_utc := Some finished_now; rr_error_text := None |}] /\
      find (fun b => bb_bundle_id b =? bundle_id) (meta_build_bundle (st_bundle_db st')) =
        Some {| bb_bundle_id := bb_bundle_id b; bb_build_profile := bb_build_profile b;
                bb_bundle_hash := bb_bundle_hash b; bb_status := "built" |}
  | inl (PassError p m) =>
      exists b,
      find (fun b => bb_bundle_id b =? bundle_id) (meta_build_bundle (st_bundle_db st)) = Some b /\
      (exists pre post, PASS_ORDER = (pre ++ p :: post)%list /\
         (forall q, In q pre -> handler q = None) /\ handler p = Some m /\
         _load_completed_passes st' new_build_run_id = pre) /\
      run_rows st' new_build_run_id =
        [{| rr_build_run_id := new_build_run_id; rr_bundle_id := bundle_id;
            rr_dataset_version := Versions._dataset_version_from_bundle_hash (bb_bundle_hash b);
            rr_status := "failed"; rr_current_pass := p; rr_started_at_utc := started_now;
            rr_finished_at_utc := Some finished_now; rr_error_text := Some m |}] /\
      st_bundle_db st' = st_bundle_db st
  | inl _ => st' = st
  end.
Proof.
unfold run_build in H. rewrite andb_false_r in H.
destruct (_load_bundle (st_bundle_db st) bundle_id) as [e|[[[bp bh] bs] sr]] eqn:Hl.
{ injection H as <- <-. pose proof (load_bundle_not_pass_error _ _ _ Hl) as Hne.
  destruct e as [| |p m]; [reflexivity | reflexivity | exfalso; exact (Hne p m eq_refl)]. }
destruct (dict_get bp BUILD_PROFILES) as [req|]; [|injection H as <- <-; reflexivity].
destruct (missing_sources req sr) as [|x xs]; [|injection H as <- <-; reflexivity].
destruct (source_counts_check req sr) as [e|] eqn:Ec.
{ injection H as <- <-. pose proof (source_counts_check_not_pass_error _ _ _ Ec) as Hne.
  destruct e as [| |p m]; [reflexivity | reflexivity | exfalso; exact (Hne p m eq_refl)]. }
destruct (load_bundle_hash _ _ _ _ _ _ Hl) as (b & Hb & ->).
cbv beta iota zeta in H.
set (dv := Versions._dataset_version_from_bundle_hash (bb_bundle_hash b)) in H.
assert (Hf : match res with
  | inr r =>
      r = {| rb_build_run_id := new_build_run_id; rb_status := "built";
             rb_dataset_version := dv; rb_message := "Build completed successfully" |} /\
      (forall q, In q PASS_ORDER -> handler q = None) /\
      _load_completed_passes st' new_build_run_id = PASS_ORDER /\
      run_rows st' new_build_run_id =
        [{| rr_build_run_id := new_build_run_id; rr_bundle_id := bundle_id;
            rr_dataset_version := dv; rr_status := "built";
            rr_current_pass := "complete"; rr_started_at_utc := started_now;
            rr_finished_at_utc := Some finished_now; rr_error_text := None |}] /\
      (forall b, find (fun b => bb_bundle_id b =? bundle_id) (meta_build_bundle (st_bundle_db st))
                   = Some b ->
       find (fun b => bb_bundle_id b =? bundle_id) (meta_build_bundle (st_bundle_db st')) =
       Some {| bb_bundle_id := bb_bundle_id b; bb_build_profile := bb_build_profile b;
               bb_bundle_hash := bb_bundle_hash b; bb_status := "built" |})
  | inl (PassError p m) =>
      (exists pre post, PASS_ORDER = (pre ++ p :: post)%list /\
         (forall q, In q pre -> handler q = None) /\ handler p = Some m /\
         _load_completed_passes st' new_build_run_id = pre) /\
      run_rows st' new_build_run_id =
        [{| rr_build_run_id := new_build_run_id; rr_bundle_id := bundle_id;
            rr_dataset_version := dv; rr_status := "failed";
            rr_current_pass := p; rr_started_at_utc := started_now;
            rr_finished_at_utc := Some finished_now; rr_error_text := Some m |}] /\
      st_bundle_db st' = st_bundle_db st
  | inl _ => False
  end).
{ destruct rebuild.
  - refine (finish_fresh handler new_build_run_id bundle_id dv started_now finished_now st
              (_clear_run_outputs (_create_build_run st new_build_run_id bundle_id dv started_now)
                 new_build_run_id) res st' eq_refl eq_refl _ Hrun H).
    intros c Hc. apply filter_In in Hc as [Hc _]. exact (Hcp c Hc).
  - exact (finish_fresh handler new_build_run_id bundle_id dv started_now finished_now st
             (_create_build_run st new_build_run_id bundle_id dv started_now) res st'
             eq_refl eq_refl Hcp Hrun H). }
destruct res as [[msg|key|p m]|r]; try contradiction.
- destruct Hf as (Hpre & Hrows & Hdb). exists b. split; [exact Hb|].
  split; [exact Hpre|]. split; [exact Hrows | exact Hdb].
- destruct Hf as (-> & Hall & Hcps & Hrows & Hfind). exists b.
  split; [exact Hb|]. split; [reflexivity|]. split; [exact Hall|]. split; [exact Hcps|].
  split; [exact Hrows | exact (Hfind b Hb)].
Qed.

Lemma run_passes_ext h1 h2 build_run_id completed passes st :
  (forall p, ~ In p completed -> h1 p = h2 p) ->
  run_passes h1 build_run_id completed passes st = run_passes h2 build_run_id completed passes st.
Proof.
intros Hh. revert st. induction passes as [|p rest IH]; intros st; simpl; [reflexivity|].
destruct (PyStr.mem p completed) eqn:Em; [apply IH|].
assert (Hp : ~ In p completed).
{ intros Hin. unfold PyStr.mem in Em. apply Bool.not_true_iff_false in Em. apply Em.
  apply existsb_exists. exists p. split; [exact Hin | apply String.eqb_refl]. }
rewrite (Hh p Hp). destruct (h2 p); [reflexivity | apply IH].
Qed.

(** X14.  With [--resume], [run_build] continues the latest resumable run:
  the new run id it would otherwise generate plays no part, and a pass
  already checkpointed for that run is never run again, so the outcome does
  not depend on what such a pass would do. *)
Theorem run_build_resume_skips_checkpointed h1 h2 id1 id2 started_now finished_now st bundle_id
  build_run_id dataset_version
  (Hl : _latest_resumable_run st bundle_id = Some (build_run_id, dataset_version))
  (Hh : forall p, ~ In p (_load_completed_passes st build_run_id) -> h1 p = h2 p) :
  run_build h1 id1 started_now finished_now st bundle_id false true = run_build h2 id2 started_now finished_now st bundle_id false true.
Proof.
unfold run_build. cbn [andb].
destruct (_load_bundle (st_bundle_db st) bundle_id) as [e|[[[bp bh] bs] sr]]; [reflexivity|].
destruct (dict_get bp BUILD_PROFILES) as [req|]; [|reflexivity].
destruct (missing_sources req sr) as [|x xs]; [|reflexivity].
destruct (source_counts_check req sr) as [e|]; [reflexivity|].
cbv beta iota zeta. rewrite Hl.
rewrite (run_passes_ext h1 h2 _ _ _ _ Hh). reflexivity.
Qed.

Lemma clear_fresh_run st build_run_id bundle_id dataset_version now :
  (forall c, In c (st_checkpoints st) -> fst c <> build_run_id) ->
  (forall o, In o (st_outputs st) -> snd o <> build_run_id) ->
  _clear_run_outputs (_create_build_run st build_run_id bundle_id dataset_version now)
    build_run_id =
  _create_build_run st build_run_id bundle_id dataset_version now.
Proof.
intros Hc Ho. unfold _clear_run_outputs, _create_build_run, with_runs.
cbn [st_bundle_db st_runs st_checkpoints st_outputs].
rewrite !FinalisationOutput.filter_all_true; [reflexivity| |].
- intros o Ho'. apply Bool.negb_true_iff. apply String.eqb_neq. exact (Ho o Ho').
- intros c Hc'. apply Bool.negb_true_iff. apply String.eqb_neq. exact (Hc c Hc').
Qed.

(** X15.  [_clear_run_outputs] runs on the id of the run [run_build] has
  just created, so when no checkpoint and no output row carries that id,
  [--rebuild] changes nothing: the call behaves as without the flag. *)
Theorem run_build_rebuild_fresh_noop handler new_build_run_id started_now finished_now st bundle_id
  (Hcp : forall c, In c (st_checkpoints st) -> fst c <> new_build_run_id)
  (Hout : forall o, In o (st_outputs st) -> snd o <> new_build_run_id) :
  run_build handler new_build_run_id started_now finished_now st bundle_id true false =
  run_build handler new_build_run_id started_now finished_now st bundle_id false false.
Proof.
unfold run_build. cbn [andb].
destruct (_load_bundle (st_bundle_db st) bundle_id) as [e|[[[bp bh] bs] sr]]; [reflexivity|].
destruct (dict_get bp BUILD_PROFILES) as [req|]; [|reflexivity].
destruct (missing_sources req sr) as [|x xs]; [|reflexivity].
destruct (source_counts_check req sr) as [e|]; [reflexivity|].
cbv beta iota zeta. rewrite clear_fresh_run by assumption. reflexivity.
Qed.

Definition witness_db : BuildBundle.db :=
{| meta_build_bundle :=
     [{| bb_bundle_id := "b1"; bb_build_profile := "gb_core";
         bb_bundle_hash := "0123456789abcdef"; bb_status := "created" |}];
   meta_build_bundle_source :=
     map (fun e => {| bs_bundle_id := "b1"; bs_source_name := fst e; bs_ingest_run_id := snd e |})
       [("onspd", "i1"); ("os_open_usrn", "i2"); ("os_open_names", "i3");
        ("os_open_roads", "i4"); ("os_open_uprn", "i5"); ("os_open_lids", "i6");
        ("nsul", "i7")];
   meta_ingest_run := [] |}.

(** A bundle with an earlier run [old] that failed after two passes. *)
Definition witness_state : state :=
{| st_bundle_db := witness_db;
   st_runs :=
     [{| rr_build_run_id := "old"; rr_bundle_id := "b1";
         rr_dataset_version := "v3_0123456789ab"; rr_status := "failed";
         rr_current_pass := "1_onspd_backbone"; rr_started_at_utc := 50;
         rr_finished_at_utc := Some 60; rr_error_text := Some "boom" |}];
   st_checkpoints := [("old", "0a_raw_ingest"); ("old", "0b_stage_normalisation")];
   st_outputs := [("stage.onspd_postcode", "old")] |}.

Definition witness_handler (pass_name : string) : option string :=
if pass_name =? "3_open_names_candidates" then Some "no candidates" else None.

Lemma run_build_validation_error_no_change_witness :
  run_build witness_handler "run-new" 100 200 witness_state "b2" false false =
    (inl (BuildError "Bundle not found: b2"), witness_state) /\
  (forall p m, BuildError "Bundle not found: b2" <> PassError p m) /\
  witness_state = witness_state.
Proof.
assert (H : run_build witness_handler "run-new" 100 200 witness_state "b2" false false =
              (inl (BuildError "Bundle not found: b2"), witness_state))
  by (vm_compute; reflexivity).
assert (Hne : forall p m, BuildError "Bundle not found: b2" <> PassError p m) by discriminate.
split; [exact H|]. split; [exact Hne|].
exact (run_build_validation_error_no_change witness_handler "run-new" 100 200 witness_state "b2"
         false false _ _ H Hne).
Defined.

Lemma run_build_fresh_run_witness :
  let handler := witness_handler in
  let new_build_run_id := "run-new" in
  let started_now := 100 in
  let finished_now := 200 in
  let st := witness_state in
  let bundle_id := "b1" in
  let rebuild := false in
  exists res st',
  (forall r, In r (st_runs st) -> rr_build_run_id r <> new_build_run_id) /\
  (forall c, In c (st_checkpoints st) -> fst c <> new_build_run_id) /\
  run_build handler new_build_run_id started_now finished_now st bundle_id rebuild false = (res, st') /\
  match res with
  | inr r =>
      exists b,
      find (fun b => bb_bundle_id b =? bundle_id) (meta_build_bundle (st_bundle_db st)) = Some b /\
      r = {| rb_build_run_id := new_build_run_id; rb_status := "built";
             rb_dataset_version := Versions._dataset_version_from_bundle_hash (bb_bundle_hash b);
             rb_message := "Build completed successfully" |} /\
      (forall q, In q PASS_ORDER -> handler q = None) /\
      _load_completed_passes st' new_build_run_id = PASS_ORDER /\
      run_rows st' new_build_run_id =
        [{| rr_build_run_id := new_build_run_id; rr_bundle_id := bundle_id;
            rr_dataset_version := Versions._dataset_version_from_bundle_hash (bb_bundle_hash b);
            rr_status := "built"; rr_current_pass := "complete"; rr_started_at_utc := started_now;
            rr_finished_at_utc := Some finished_now; rr_error_text := None |}] /\
      find (fun b => bb_bundle_id b =? bundle_id) (meta_build_bundle (st_bundle_db st')) =
        Some {| bb_bundle_id := bb_bundle_id b; bb_build_profile := bb_build_profile b;
                bb_bundle_hash := bb_bundle_hash b; bb_status := "built" |}
  | inl (PassError p m) =>
      exists b,
      find (fun b => bb_bundle_id b =? bundle_id) (meta_build_bundle (st_bundle_db st)) = Some b /\
      (exists pre post, PASS_ORDER = (pre ++ p :: post)%list /\
         (forall q, In q pre -> handler q = None) /\ handler p = Some m /\
         _load_completed_passes st' new_build_run_id = pre) /\
      run_rows st' new_build_run_id =
        [{| rr_build_run_id := new_build_run_id; rr_bundle_id := bundle_id;
            rr_dataset_version := Versions._dataset_version_from_bundle_hash (bb_bundle_hash b);
            rr_status := "failed"; rr_current_pass := p; rr_started_at_utc := started_now;
            rr_finished_at_utc := Some finished_now; rr_error_text := Some m |}] /\
      st_bundle_db st' = st_bundle_db st
  | inl _ => st' = st
  end.
Proof.
intros handler new_build_run_id started_now finished_now st bundle_id rebuild.
assert (Hrun : forall r, In r (st_runs st) -> rr_build_run_id r <> new_build_run_id).
{ intros r [<-|[]]. discriminate. }
assert (Hcp : forall c, In c (st_checkpoints st) -> fst c <> new_build_run_id).
{ intros c [<-|[<-|[]]]; discriminate. }
destruct (run_build handler new_build_run_id started_now finished_now st bundle_id rebuild false) as [res st'] eqn:E.
exists res, st'. split; [exact Hrun|]. split; [exact Hcp|]. split; [reflexivity|].
exact (run_build_fresh_run handler new_build_run_id started_now finished_now st bundle_id rebuild res st'
         Hrun Hcp E).
Defined.

Lemma run_build_resume_skips_checkpointed_witness :
  _latest_resumable_run witness_state "b1" = Some ("old", "v3_0123456789ab") /\
  (forall p, ~ In p (_load_completed_passes witness_state "old") ->
   (fun q => if q =? "0a_raw_ingest" then Some "raw ingest failed" else None) p =
   (fun _ : string => @None string) p) /\
  run_build (fun q => if q =? "0a_raw_ingest" then Some "raw ingest failed" else None)
    "id1" 100 200 witness_state "b1" false true =
  run_build (fun _ => None) "id2" 100 200 witness_state "b1" false true.
Proof.
assert (Hl : _latest_resumable_run witness_state "b1" = Some ("old", "v3_0123456789ab"))
  by (vm_compute; reflexivity).
assert (Hh : forall p, ~ In p (_load_completed_passes witness_state "old") ->
   (fun q => if q =? "0a_raw_ingest" then Some "raw ingest failed" else None) p =
   (fun _ : string => @None string) p).
{ intros p Hp. cbv beta. destruct (String.eqb_spec p "0a_raw_ingest") as [->|_];
    [exfalso; apply Hp; left; reflexivity | reflexivity]. }
split; [exact Hl|]. split; [exact Hh|].
exact (run_build_resume_skips_checkpointed _ _ "id1" "id2" 100 200 witness_state "b1" "old"
         "v3_0123456789ab" Hl Hh).
Defined.

Lemma run_build_rebuild_fresh_noop_witness :
  (forall c, In c (st_checkpoints witness_state) -> fst c <> "run-new") /\
  (forall o, In o (st_outputs witness_state) -> snd o <> "run-new") /\
  run_build witness_handler "run-new" 100 200 witness_state "b1" true false =
  run_build witness_handler "run-new" 100 200 witness_state "b1" false false.
Proof.
assert (Hcp : forall c, In c (st_checkpoints witness_state) -> fst c <> "run-new").
{ intros c [<-|[<-|[]]]; discriminate. }
assert (Hout : forall o, In o (st_outputs witness_state) -> snd o <> "run-new").
{ intros o [<-|[]]; discriminate. }
split; [exact Hcp|]. split; [exact Hout|].
exact (run_build_rebuild_fresh_noop witness_handler "run-new" 100 200 witness_state "b1" Hcp Hout).
Defined.

End RunBuildFacts.

(* ------------------------------------------------------------------ *)
(** ** [verify_build]: the probability check *)

Module VerifyFacts.
Import Bundle Candidates Weights Finalisation FinalisationView FinalisationFacts
     FinalisationBlockFacts FinalisationOutput Verify.
Local Open Scope string_scope.

(** X16.  The rows pass 8 writes pass the probability check of
  [verify_build]: when the [derived.postcode_streets_final] rows of a run
  are those a successful [_pass_8_finalisation] produced for it (whatever
  rows other runs have), no postcode's probabilities sum to anything other
  than [1.0000], and the check raises nothing. *)
Theorem verify_probability_check_after_pass_8 raw build_run_id cands streets fr sf rows
  (H : _pass_8_finalisation raw build_run_id cands streets = inr (fr, sf))
  (Hrows : Verify.run_rows build_run_id rows = sf) :
  probability_check build_run_id rows = None.
Proof.
unfold probability_check, bad_postcodes.
rewrite filter_all_false; [reflexivity|].
intros p Hp. apply Bool.negb_false_iff. apply Z.eqb_eq.
rewrite Hrows in Hp.
rewrite (FinalisationBlocks.distinct_in String.eqb String.eqb_eq) in Hp.
unfold prob_sum. rewrite Hrows.
unfold _pass_8_finalisation in H.
destruct (_weight_config raw) as [e|wm]; [discriminate|].
destruct (weight_rows wm) as [e|weights]; [discriminate|].
match type of H with
| match ?b with [] => _ | _ :: _ => _ end = _ => destruct b; [|discriminate]
end.
injection H as <- <-.
set (gs := grouped _) in *.
assert (Hp' : In p (map f_postcode (final_rows gs))) by (rewrite map_map in Hp; exact Hp).
destruct (final_rows_filter gs p Hp') as [Hr Hne].
replace (filter (fun s => sf_postcode s =? p) (map (streets_final_of build_run_id) (final_rows gs)))
  with (map (streets_final_of build_run_id) (filter (fun f => f_postcode f =? p) (final_rows gs)))
  by (rewrite filter_map_comm; reflexivity).
rewrite Hr, sum_Z_map.
rewrite (sum_Z_ext_in _ f_final_probability) by (intros f _; apply round4_of4).
apply postcode_block_sum, Hne.
Qed.

(** A row another run wrote, whose probabilities do not sum to one. *)
Definition witness_other_run_row : streets_final_row :=
{| sf_produced_build_run_id := "run0"; sf_postcode := "BT11AA";
   sf_street_name := Some "HIGH STREET"; sf_usrn := None; sf_confidence := "low";
   sf_frequency_score := 1; sf_probability := 5000 |}.

Lemma verify_probability_check_after_pass_8_witness :
  exists fr sf,
  _pass_8_finalisation FinalisationClaims.sample_weights "run1"
    FinalisationClaims.sample_candidates [] = inr (fr, sf) /\
  Verify.run_rows "run1" (sf ++ [witness_other_run_row]) = sf /\
  probability_check "run1" (sf ++ [witness_other_run_row]) = None.
Proof.
destruct (_pass_8_finalisation FinalisationClaims.sample_weights "run1"
            FinalisationClaims.sample_candidates []) as [e|[fr sf]] eqn:E.
- vm_compute in E. discriminate.
- exists fr, sf.
  assert (Hrows : Verify.run_rows "run1" (sf ++ [witness_other_run_row]) = sf).
  { vm_compute in E. injection E as _ <-. vm_compute. reflexivity. }
  split; [reflexivity|]. split; [exact Hrows|].
  exact (verify_probability_check_after_pass_8 FinalisationClaims.sample_weights "run1"
           FinalisationClaims.sample_candidates [] fr sf _ E Hrows).
Defined.

End VerifyFacts.

(* ------------------------------------------------------------------ *)
(** ** [str.strip()] and the manifest loader *)

Module ManifestFacts.
Import Bundle SchemaConfig PyStr Manifest.
Local Open Scope string_scope.

(** [lstrip] on the list of code points. *)
Fixpoint dw (l : list ascii) : list ascii :=
match l with
| [] => []
| c :: r => if isspace_char c then dw r else l
end.

(** The list starts with a code point that is not whitespace, or is empty. *)
Definition NS (l : list ascii) : Prop :=
match l with [] => True | c :: _ => isspace_char c = false end.

Lemma list_rev_str s acc :
  list_ascii_of_string (PyStr.rev_str s acc) =
  (rev (list_ascii_of_string s) ++ list_ascii_of_string acc)%list.
Proof.
revert acc. induction s as [|c s IH]; intros acc; simpl; [reflexivity|].
rewrite IH. simpl. rewrite <- app_assoc. reflexivity.
Qed.

Lemma list_lstrip s : list_ascii_of_string (lstrip s) = dw (list_ascii_of_string s).
Proof. induction s as [|c s IH]; simpl; [reflexivity|]. destruct (isspace_char c); auto. Qed.

Lemma list_strip s :
  list_ascii_of_string (strip s) = rev (dw (rev (dw (list_ascii_of_string s)))).
Proof.
unfold strip. rewrite list_rev_str, list_lstrip, list_rev_str, list_lstrip. simpl.
rewrite !app_nil_r. reflexivity.
Qed.

Lemma dw_ns l : NS (dw l).
Proof.
induction l as [|c l IH]; simpl; [exact I|]. destruct (isspace_char c) eqn:E; [exact IH | exact E].
Qed.

Lemma dw_fix l : NS l -> dw l = l.
Proof. destruct l as [|c l]; simpl; [reflexivity|]. intros H. rewrite H. reflexivity. Qed.

Lemma dw_suffix l : exists pre, l = (pre ++ dw l)%list.
Proof.
induction l as [|c l [pre E]]; [exists []; reflexivity|]. simpl.
destruct (isspace_char c); [exists (c :: pre); simpl; congruence | exists []; reflexivity].
Qed.

Lemma dw_end l : NS (rev l) -> NS (rev (dw l)).
Proof.
intros H. destruct (dw_suffix l) as [pre E]. rewrite E in H. revert H.
generalize (dw l) as k. intros k H. rewrite rev_app_distr in H.
destruct (rev k) as [|d m]; simpl in *; [exact I | exact H].
Qed.

Lemma strip_idem s : strip (strip s) = strip s.
Proof.
assert (E : list_ascii_of_string (strip (strip s)) = list_ascii_of_string (strip s)).
{ rewrite !list_strip.
  set (k := dw (rev (dw (list_ascii_of_string s)))).
  assert (Hk : NS k) by apply dw_ns.
  assert (Hrk : NS (rev k)).
  { apply dw_end. rewrite rev_involutive. apply dw_ns. }
  rewrite (dw_fix (rev k) Hrk), rev_involutive, (dw_fix k Hk). reflexivity. }
rewrite <- (string_of_list_ascii_of_string (strip (strip s))), E.
apply string_of_list_ascii_of_string.
Qed.

(** X17.  [_require_string] returns a value exactly when the key holds a
  string whose stripped form is not empty, and then returns that stripped
  form; the value it returns is therefore non-empty and has no whitespace
  left to strip at either end. *)
Theorem require_string_spec payload key v :
  (_require_string payload key = inr v <->
   exists raw, dict_get key payload = Some (CStr raw) /\ strip raw = v /\ v <> "") /\
  (_require_string payload key = inr v -> strip v = v).
Proof.
assert (Hiff : _require_string payload key = inr v <->
   exists raw, dict_get key payload = Some (CStr raw) /\ strip raw = v /\ v <> "").
{ unfold _require_string. split.
  - destruct (dict_get key payload) as [[raw| | | |]|]; try discriminate.
    destruct (String.eqb_spec (strip raw) "") as [_|Hne]; [discriminate|].
    intros H. injection H as <-. exists raw. split; [reflexivity|]. split; [reflexivity | exact Hne].
  - intros (raw & -> & <- & Hne). apply String.eqb_neq in Hne. rewrite Hne. reflexivity. }
split; [exact Hiff|]. intros H. apply Hiff in H as (raw & _ & <- & _). apply strip_idem.
Qed.

Lemma mem_in x l : mem x l = true -> In x l.
Proof.
unfold mem. intros H. apply existsb_exists in H as (y & Hy & E).
apply String.eqb_eq in E. subst. exact Hy.
Qed.

Lemma entry_run_ids_nonempty source_name raw l :
  entry_run_ids source_name raw = inr l -> l <> [].
Proof.
destruct raw as [s|[|item items]| | |]; simpl; try discriminate.
- intros H. injection H as <-. discriminate.
- destruct item; try discriminate.
  destruct (fold_right _ _ items); [discriminate|]. intros H. injection H as <-. discriminate.
Qed.

Section WithUuid.
Variable uuid_ok : string -> bool.

Lemma check_uuids_none source_name run_ids :
  check_uuids uuid_ok source_name run_ids = None -> forall r, In r run_ids -> uuid_ok r = true.
Proof.
induction run_ids as [|r rest IH]; simpl; [intros _ _ []|].
destruct (uuid_ok r) eqn:E; [|discriminate]. intros H r' [<-|Hr]; [exact E | exact (IH H r' Hr)].
Qed.

Lemma parse_source_runs_inr items sr :
  parse_source_runs uuid_ok items = inr sr ->
  map fst sr = map fst items /\
  forall s l, In (s, l) sr -> In s SOURCE_NAMES /\ l <> [] /\ forall r, In r l -> uuid_ok r = true.
Proof.
revert sr. induction items as [|[s raw] rest IH]; intros sr; cbn [parse_source_runs].
- intros H. injection H as <-. split; [reflexivity | intros ? ? []].
- destruct (mem s SOURCE_NAMES) eqn:Em; cbn [negb]; [|discriminate].
  destruct (entry_run_ids s raw) as [e|l] eqn:Ee; [discriminate|].
  destruct (check_uuids uuid_ok s l) as [e|] eqn:Ec; [discriminate|].
  destruct (parse_source_runs uuid_ok rest) as [e|r] eqn:Er; [discriminate|].
  intros H. injection H as <-. destruct (IH r eq_refl) as [Hk Hall].
  split; [simpl; f_equal; exact Hk|].
  intros s' l' [E|Hin].
  + injection E as <- <-. split; [exact (mem_in _ _ Em)|].
    split; [exact (entry_run_ids_nonempty _ _ _ Ee) | exact (check_uuids_none _ _ Ec)].
  + exact (Hall s' l' Hin).
Qed.

Lemma required_present required (sr : dict (list string)) :
  RunBuild.missing_sources required sr = [] ->
  forall s, In s required -> exists l, dict_get s sr = Some l /\ In (s, l) sr.
Proof.
intros Hm s Hs. unfold RunBuild.missing_sources, Fields.has_key in Hm.
pose proof (BuildBundleFacts.missing_nil_in required (map fst sr) Hm s Hs) as Hk.
assert (Hh : Fields.has_key sr s = true).
{ apply existsb_exists. exists s. split; [exact Hk | apply String.eqb_refl]. }
destruct (FieldsFacts.has_key_get sr s Hh) as [l Hl]. exists l. split; [exact Hl|].
apply BundleFacts.dict_get_some_in. exact Hl.
Qed.

End WithUuid.

(** X18.  A manifest [load_bundle_manifest] accepts has a [build_profile]
  string whose stripped form is a known profile; its [source_runs] object
  gives the sources, in the same order; every source is one of
  [SOURCE_NAMES] and has a non-empty list of run ids, each accepted as a
  UUID; and every source the profile requires is present. *)
Theorem load_bundle_manifest_spec uuid_ok payload m
  (H : load_bundle_manifest uuid_ok payload = inr m) :
  (exists raw_profile, dict_get "build_profile" payload = Some (CStr raw_profile) /\
                       strip raw_profile = BuildBundle.build_profile m) /\
  (exists raw, dict_get "source_runs" payload = Some (CObj raw) /\
               map fst (BuildBundle.source_runs m) = map fst raw) /\
  (forall s l, In (s, l) (BuildBundle.source_runs m) ->
     In s SOURCE_NAMES /\ l <> [] /\ forall r, In r l -> uuid_ok r = true) /\
  (exists required, dict_get (BuildBundle.build_profile m) BuildBundle.BUILD_PROFILES = Some required /\
     forall s, In s required -> exists l, dict_get s (BuildBundle.source_runs m) = Some l /\ l <> []).
Proof.
unfold load_bundle_manifest in H.
destruct (_require_string payload "build_profile") as [e|bp] eqn:Ebp; [discriminate|].
destruct (dict_get bp BuildBundle.BUILD_PROFILES) as [required|] eqn:Ereq; [|discriminate].
destruct (dict_get "source_runs" payload) as [[| |raw| |]|] eqn:Eraw; try discriminate.
destruct (parse_source_runs uuid_ok raw) as [e|sr] eqn:Esr; [discriminate|].
destruct (RunBuild.missing_sources required sr) as [|x xs] eqn:Em; [|discriminate].
destruct (check_required_nonempty required sr); [discriminate|].
injection H as <-. cbn [BuildBundle.build_profile BuildBundle.source_runs].
destruct (parse_source_runs_inr uuid_ok raw sr Esr) as [Hk Hall].
split; [|split; [|split]].
- unfold _require_string in Ebp.
  destruct (dict_get "build_profile" payload) as [[rawp| | | |]|]; try discriminate.
  destruct (strip rawp =? ""); [discriminate|]. injection Ebp as <-.
  exists rawp. split; reflexivity.
- exists raw. split; [reflexivity | exact Hk].
- exact Hall.
- exists required. split; [exact Ereq|]. intros s Hs.
  destruct (required_present required sr Em s Hs) as (l & Hl & Hin).
  exists l. split; [exact Hl | exact (proj1 (proj2 (Hall s l Hin)))].
Qed.

(** X19.  The last check of [load_bundle_manifest], that each required
  source has at least one run id, never fires: once [source_runs] has
  been parsed and no required source is missing, every required source
  already has a non-empty list. *)
Theorem check_required_nonempty_unreachable uuid_ok items sr required
  (H : parse_source_runs uuid_ok items = inr sr)
  (Hm : RunBuild.missing_sources required sr = []) :
  check_required_nonempty required sr = None.
Proof.
destruct (parse_source_runs_inr uuid_ok items sr H) as [_ Hall].
assert (Hreq : forall s, In s required -> exists l, dict_get s sr = Some l /\ l <> []).
{ intros s Hs. destruct (required_present required sr Hm s Hs) as (l & Hl & Hin).
  exists l. split; [exact Hl | exact (proj1 (proj2 (Hall s l Hin)))]. }
clear Hm Hall H. induction required as [|s rest IH]; simpl; [reflexivity|].
destruct (Hreq s (or_introl eq_refl)) as (l & Hl & Hne). rewrite Hl.
destruct l as [|x l]; [contradiction|]. simpl.
apply IH. intros s' Hs'. apply Hreq. right. exact Hs'.
Qed.

Definition witness_uuid_ok (run_id : string) : bool := negb (run_id =? "").

Definition witness_source_runs_raw : list (string * cfg) :=
[("onspd", CStr "u1"); ("os_open_usrn", CList [CStr "u2"]); ("os_open_names", CStr "u3");
 ("os_open_roads", CStr "u4"); ("os_open_uprn", CStr "u5"); ("os_open_lids", CStr "u6");
 ("nsul", CStr "u7"); ("ppd", CList [CStr "p1"; CStr "p2"])].

Definition witness_payload : dict cfg :=
[("build_profile", CStr " gb_core_ppd "); ("source_runs", CObj witness_source_runs_raw)].

Lemma load_bundle_manifest_spec_witness :
  exists m,
  load_bundle_manifest witness_uuid_ok witness_payload = inr m /\
  (exists raw_profile, dict_get "build_profile" witness_payload = Some (CStr raw_profile) /\
                       strip raw_profile = BuildBundle.build_profile m) /\
  (exists raw, dict_get "source_runs" witness_payload = Some (CObj raw) /\
               map fst (BuildBundle.source_runs m) = map fst raw) /\
  (forall s l, In (s, l) (BuildBundle.source_runs m) ->
     In s SOURCE_NAMES /\ l <> [] /\ forall r, In r l -> witness_uuid_ok r = true) /\
  (exists required, dict_get (BuildBundle.build_profile m) BuildBundle.BUILD_PROFILES = Some required /\
     forall s, In s required -> exists l, dict_get s (BuildBundle.source_runs m) = Some l /\ l <> []).
Proof.
destruct (load_bundle_manifest witness_uuid_ok witness_payload) as [e|m] eqn:E.
- vm_compute in E. discriminate.
- exists m. split; [reflexivity|].
  exact (load_bundle_manifest_spec witness_uuid_ok witness_payload m E).
Defined.

Lemma check_required_nonempty_unreachable_witness :
  exists sr,
  parse_source_runs witness_uuid_ok witness_source_runs_raw = inr sr /\
  RunBuild.missing_sources
    ["onspd"; "os_open_usrn"; "os_open_names"; "os_open_roads"; "os_open_uprn";
     "os_open_lids"; "nsul"; "ppd"] sr = [] /\
  check_required_nonempty
    ["onspd"; "os_open_usrn"; "os_open_names"; "os_open_roads"; "os_open_uprn";
     "os_open_lids"; "nsul"; "ppd"] sr = None.
Proof.
destruct (parse_source_runs witness_uuid_ok witness_source_runs_raw) as [e|sr] eqn:E.
- vm_compute in E. discriminate.
- exists sr.
  assert (Hm : RunBuild.missing_sources
    ["onspd"; "os_open_usrn"; "os_open_names"; "os_open_roads"; "os_open_uprn";
     "os_open_lids"; "nsul"; "ppd"] sr = []).
  { vm_compute in E. injection E as <-. vm_compute. reflexivity. }
  split; [reflexivity|]. split; [exact Hm|].
  exact (check_required_nonempty_unreachable witness_uuid_ok witness_source_runs_raw sr _ E Hm).
Defined.

End ManifestFacts.

(* ------------------------------------------------------------------ *)
(** ** [_load_bundle], and reading back what [create_build_bundle] wrote *)

Module LoadBundleFacts.
Import Bundle BuildBundle RunBuild.
Local Open Scope string_scope.

(** Appending run ids to the entry of a key, creating it when the key is
  new: the effect of [setdefault(...).extend(ms)] on one lookup. *)
Definition opt_app (o : option (list string)) (ms : list string) : option (list string) :=
match o with
| Some l => Some (l ++ ms)%list
| None => match ms with [] => None | _ => Some ms end
end.

Lemma opt_app_nil o : opt_app o [] = o.
Proof. destruct o; simpl; [rewrite app_nil_r|]; reflexivity. Qed.

Lemma opt_app_assoc o a b : opt_app (opt_app o a) b = opt_app o (a ++ b)%list.
Proof. destruct o; simpl; [rewrite app_assoc; reflexivity|]. destruct a; reflexivity. Qed.

Lemma add_run_get k s r d :
  dict_get k (add_run s r d) = opt_app (dict_get k d) (if s =? k then [r] else []).
Proof.
induction d as [|[k' l] d IH]; simpl.
- destruct (String.eqb_spec s k) as [->|Hne]; simpl.
  + rewrite String.eqb_refl. reflexivity.
  + destruct (String.eqb_spec k s) as [->|_]; [congruence | reflexivity].
- destruct (String.eqb_spec k' s) as [->|Hks]; simpl.
  + destruct (String.eqb_spec k s) as [->|Hne].
    * rewrite String.eqb_refl. reflexivity.
    * destruct (String.eqb_spec s k) as [->|_]; [congruence|]. rewrite opt_app_nil. reflexivity.
  + destruct (String.eqb_spec k k') as [->|Hne]; [|exact IH].
    destruct (String.eqb_spec s k') as [->|_]; [congruence|]. simpl. rewrite app_nil_r. reflexivity.
Qed.

Lemma group_get_gen k rows d :
  dict_get k (fold_left (fun d row => add_run (fst row) (snd row) d) rows d) =
  opt_app (dict_get k d) (map snd (filter (fun row => fst row =? k) rows)).
Proof.
revert d. induction rows as [|row rows IH]; intros d; simpl.
- rewrite opt_app_nil. reflexivity.
- rewrite IH, add_run_get, opt_app_assoc. destruct (fst row =? k); reflexivity.
Qed.

Lemma group_get k rows :
  dict_get k (group_source_rows rows) =
  match map snd (filter (fun row => fst row =? k) rows) with [] => None | l => Some l end.
Proof. unfold group_source_rows. rewrite group_get_gen. simpl. destruct (map snd _); reflexivity. Qed.

Lemma dict_get_map_sorted k (d : dict (list string)) :
  dict_get k (map (fun e => (fst e, sorted_strs (snd e))) d) = option_map sorted_strs (dict_get k d).
Proof.
induction d as [|[k' l] d IH]; simpl; [reflexivity|]. destruct (k =? k'); [reflexivity | exact IH].
Qed.

Lemma has_key_iff {V : Type} (d : dict V) k :
  Fields.has_key d k = match dict_get k d with Some _ => true | None => false end.
Proof.
unfold Fields.has_key. induction d as [|[k' v] d IH]; simpl; [reflexivity|].
destruct (k =? k'); [reflexivity | exact IH].
Qed.

(** The lookups of the [source_runs] [_load_bundle_rows] builds. *)
Lemma load_rows_get rows k :
  dict_get k (map (fun e => (fst e, sorted_strs (snd e))) (group_source_rows rows)) =
  match map snd (filter (fun row => fst row =? k) rows) with
  | [] => None | l => Some (sorted_strs l) end.
Proof.
rewrite dict_get_map_sorted, group_get. destruct (map snd _); reflexivity.
Qed.

Lemma missing_sources_nil_iff required (sr : dict (list string)) :
  missing_sources required sr = [] <-> forall s, In s required -> dict_get s sr <> None.
Proof.
unfold missing_sources. split.
- intros H s Hs Hn.
  assert (Hin : In s (sorted_strs (filter (fun s => negb (Fields.has_key sr s)) required))).
  { apply BuildBundleFacts.in_sorted_strs, filter_In. split; [exact Hs|].
    rewrite has_key_iff, Hn. reflexivity. }
  rewrite H in Hin. destruct Hin.
- intros H. rewrite FinalisationOutput.filter_all_false; [reflexivity|].
  intros s Hs. rewrite has_key_iff. destruct (dict_get s sr) eqn:E; [reflexivity|].
  exfalso. exact (H s Hs E).
Qed.

Lemma map_snd_filter_nil (rows : list (string * string)) s :
  map snd (filter (fun row => fst row =? s) rows) = [] -> forall row, In row rows -> fst row <> s.
Proof.
intros H row Hr E. apply map_eq_nil in H.
assert (Hin : In row (filter (fun row => fst row =? s) rows))
  by (apply filter_In; split; [exact Hr | apply String.eqb_eq; exact E]).
rewrite H in Hin. destruct Hin.
Qed.

(** X20.  [_load_bundle_rows] (the part of [_load_bundle] after it has
  found the bundle): with a known profile, every required source having a
  row, it returns the bundle's profile, hash and status and, for each
  source, the sorted run ids of its rows (no entry for a source without
  rows), so the order [fetchall()] returns the rows in does not matter;
  an unknown profile is a [KeyError], and a required source without rows
  is a [BuildError]. *)
Theorem load_bundle_rows_spec bundle_id build_profile bundle_hash status rows :
  match _load_bundle_rows bundle_id build_profile bundle_hash status rows with
  | inr (bp, bh, bs, source_runs) =>
      bp = build_profile /\ bh = bundle_hash /\ bs = status /\
      (forall s, dict_get s source_runs =
         match map snd (filter (fun row => fst row =? s) rows) with
         | [] => None | l => Some (sorted_strs l) end) /\
      exists required, dict_get build_profile BUILD_PROFILES = Some required /\
        forall s, In s required -> exists row, In row rows /\ fst row = s
  | inl (KeyError k) => k = build_profile /\ dict_get build_profile BUILD_PROFILES = None
  | inl (BuildError _) =>
      exists required s, dict_get build_profile BUILD_PROFILES = Some required /\
        In s required /\ forall row, In row rows -> fst row <> s
  | inl (PassError _ _) => False
  end.
Proof.
unfold _load_bundle_rows. cbv zeta.
destruct (dict_get build_profile BUILD_PROFILES) as [required|] eqn:Ep; [|split; reflexivity].
set (sr := map (fun e => (fst e, sorted_strs (snd e))) (group_source_rows rows)).
destruct (missing_sources required sr) as [|x xs] eqn:Em.
- split; [reflexivity|]. split; [reflexivity|]. split; [reflexivity|].
  split; [intros s; apply load_rows_get|]. exists required. split; [reflexivity|].
  intros s Hs. apply missing_sources_nil_iff with (s := s) in Em; [|exact Hs].
  unfold sr in Em. rewrite load_rows_get in Em.
  destruct (map snd (filter (fun row => fst row =? s) rows)) as [|y ys] eqn:Ef;
    [contradiction|].
  assert (Hy : In y (map snd (filter (fun row => fst row =? s) rows))) by (rewrite Ef; left; reflexivity).
  apply in_map_iff in Hy as (row & _ & Hrow). apply filter_In in Hrow as [Hr Hk].
  exists row. split; [exact Hr | apply String.eqb_eq; exact Hk].
- exists required, x. split; [reflexivity|].
  assert (Hx : In x (filter (fun s => negb (Fields.has_key sr s)) required)).
  { unfold missing_sources in Em.
    apply (Permutation_in _ (Permutation_sym (SortFacts.sort_perm str_leb _))).
    fold (sorted_strs (filter (fun s => negb (Fields.has_key sr s)) required)). rewrite Em.
    left. reflexivity. }
  apply filter_In in Hx as [Hx Hk]. split; [exact Hx|].
  apply map_snd_filter_nil. rewrite has_key_iff in Hk. unfold sr in Hk.
  rewrite load_rows_get in Hk. destruct (map snd _); [reflexivity | discriminate].
Qed.

Lemma check_sources_none st m l :
  check_sources st m l = None -> forall s, In s l -> check_source st m s = None.
Proof.
induction l as [|s' rest IH]; simpl; [intros _ _ []|].
destruct (check_source st m s') eqn:E; [discriminate|].
intros H s [<-|Hs]; [exact E | exact (IH H s Hs)].
Qed.

Lemma check_source_none_nonempty st m s :
  check_source st m s = None -> exists l, dict_get s (source_runs m) = Some l /\ l <> [].
Proof.
unfold check_source. destruct (dict_get s (source_runs m)) as [l|]; [|discriminate].
intros H. exists l. split; [reflexivity|]. intros ->. revert H.
destruct (s =? "ppd"); simpl; discriminate.
Qed.

Lemma source_rows_of_new old bundle_id runs :
  (forall r, In r old -> bs_bundle_id r <> bundle_id) ->
  map (fun r => (bs_source_name r, bs_ingest_run_id r))
    (filter (fun r => bs_bundle_id r =? bundle_id) (old ++ bundle_source_rows_canonical bundle_id runs)%list) =
  flat_map (fun e => map (pair (fst e)) (snd e)) runs.
Proof.
intros Hold. rewrite filter_app.
rewrite (FinalisationOutput.filter_all_false _ old)
  by (intros r Hr; apply String.eqb_neq; exact (Hold r Hr)).
rewrite (FinalisationOutput.filter_all_true _ (bundle_source_rows_canonical bundle_id runs)).
- simpl. induction runs as [|[s l] runs IH]; simpl; [reflexivity|].
  rewrite map_app, IH, map_map. reflexivity.
- intros r Hr. unfold bundle_source_rows_canonical in Hr. apply in_flat_map in Hr as ([s l] & _ & Hr).
  apply in_map_iff in Hr as (i & <- & _). apply String.eqb_refl.
Qed.

Lemma filter_pair_map (s k : string) (l : list string) :
  filter (fun row => fst row =? k) (map (pair s) l) = if s =? k then map (pair s) l else [].
Proof.
induction l as [|x l IH]; simpl; [destruct (s =? k); reflexivity|].
rewrite IH. destruct (s =? k); reflexivity.
Qed.

Lemma filter_flat_map_key (runs : source_runs_t) k :
  NoDup (map fst runs) ->
  map snd (filter (fun row => fst row =? k) (flat_map (fun e => map (pair (fst e)) (snd e)) runs)) =
  match dict_get k runs with Some l => l | None => [] end.
Proof.
induction runs as [|[s l] runs IH]; simpl; [reflexivity|]. intros Hnd.
inversion Hnd as [|? ? Hs Hnd']; subst.
rewrite filter_app, map_app, IH by exact Hnd'. rewrite filter_pair_map.
destruct (String.eqb_spec s k) as [->|Hne].
- rewrite String.eqb_refl, map_map, map_id.
  destruct (dict_get k runs) as [l'|] eqn:E; [|apply app_nil_r].
  exfalso. apply Hs. apply BundleFacts.dict_get_some_in in E. exact (in_map fst _ _ E).
- simpl. destruct (String.eqb_spec k s) as [->|_]; [congruence | reflexivity].
Qed.

Lemma find_fresh_app (l : list bundle_row) nb bundle_id :
  (forall b, In b l -> bb_bundle_id b <> bundle_id) -> bb_bundle_id nb = bundle_id ->
  find (fun b => bb_bundle_id b =? bundle_id) (l ++ [nb])%list = Some nb.
Proof.
intros Hl Hn. induction l as [|b l IH]; simpl.
- rewrite Hn, String.eqb_refl. reflexivity.
- destruct (String.eqb_spec (bb_bundle_id b) bundle_id) as [E|_].
  + exfalso. exact (Hl b (or_introl eq_refl) E).
  + apply IH. intros b' Hb'. apply Hl. right. exact Hb'.
Qed.

Lemma uuid_texts_cons_ne l us :
  uuid_texts l = inr us -> (l = [] <-> us = []).
Proof.
destruct l as [|x l]; simpl; [intros [= <-]; tauto|].
destruct (PgUuid.uuid_text x); [|discriminate].
destruct (uuid_texts l); [discriminate|]. intros [= <-]. split; discriminate.
Qed.

Lemma canonical_source_runs_keys runs runs' :
  canonical_source_runs runs = inr runs' -> map fst runs' = map fst runs.
Proof.
revert runs'. induction runs as [|[s l] runs IH]; simpl; intros runs'.
- intros [= <-]. reflexivity.
- destruct (uuid_texts l); [discriminate|].
  destruct (canonical_source_runs runs) as [|r']; [discriminate|].
  intros [= <-]. simpl. f_equal. apply IH. reflexivity.
Qed.

Lemma canonical_source_runs_get runs runs' k :
  canonical_source_runs runs = inr runs' ->
  dict_get k runs' =
  match dict_get k runs with
  | Some l => match uuid_texts l with inr us => Some us | inl _ => None end
  | None => None
  end.
Proof.
revert runs'. induction runs as [|[s l] runs IH]; simpl; intros runs'.
- intros [= <-]. reflexivity.
- destruct (uuid_texts l) as [|us] eqn:El; [discriminate|].
  destruct (canonical_source_runs runs) as [|r']; [discriminate|].
  intros [= <-]. simpl. destruct (k =? s); [rewrite El; reflexivity|]. apply IH. reflexivity.
Qed.

Lemma canonical_source_runs_ok runs runs' k l :
  canonical_source_runs runs = inr runs' -> dict_get k runs = Some l ->
  exists us, uuid_texts l = inr us.
Proof.
revert runs'. induction runs as [|[s l'] runs IH]; simpl; intros runs'; [discriminate|].
destruct (uuid_texts l') as [|us] eqn:El; [discriminate|].
destruct (canonical_source_runs runs) as [|r']; [discriminate|].
intros _. destruct (k =? s); [intros [= <-]; eauto | apply (IH r'); reflexivity].
Qed.

(** X21.  Reading back a bundle [create_build_bundle] has just created,
  under a bundle id no row used before, [_load_bundle] returns the
  manifest's profile, the bundle hash, status [created], and for each
  source of the manifest with run ids, the canonical texts of those run
  ids (as PostgreSQL's [uuid] type prints them) sorted; sources listed with
  no run id are absent. *)
Theorem create_then_load_bundle sha256_hexdigest new_bundle_id m st res st'
  (Hnd : NoDup (map fst (source_runs m)))
  (Hb : forall b, In b (meta_build_bundle st) -> bb_bundle_id b <> new_bundle_id)
  (Hbs : forall r, In r (meta_build_bundle_source st) -> bs_bundle_id r <> new_bundle_id)
  (H : create_build_bundle sha256_hexdigest new_bundle_id m st = inr (res, st'))
  (Hc : r_status res = "created") :
  r_bundle_id res = new_bundle_id /\
  exists sr,
    _load_bundle st' new_bundle_id = inr (build_profile m, r_bundle_hash res, "created", sr) /\
    forall s, dict_get s sr =
      match dict_get s (source_runs m) with
      | Some ((_ :: _) as l) =>
          match uuid_texts l with inr us => Some (sorted_strs us) | inl _ => None end
      | _ => None
      end.
Proof.
unfold create_build_bundle in H. cbv zeta in H.
destruct (select_bundle st _ _) as [existing|]; [injection H as <- _; discriminate|].
destruct (dict_get (build_profile m) BUILD_PROFILES) as [required|] eqn:Ep; [|discriminate].
destruct (sorted_strs _) as [|x xs]; [|discriminate].
destruct (check_sources st m (sorted_strs required)) as [e|] eqn:Ec; [discriminate|].
unfold bundle_source_rows in H.
destruct (canonical_source_runs (source_runs m)) as [e|runs'] eqn:Ecr; [discriminate|].
injection H as <- <-. split; [reflexivity|]. cbn [r_bundle_hash].
set (bundle_hash := _bundle_hash sha256_hexdigest (build_profile m) (source_runs m)).
unfold _load_bundle. cbn [meta_build_bundle meta_build_bundle_source].
rewrite find_fresh_app by (exact Hb || reflexivity). cbn [bb_build_profile bb_bundle_hash bb_status].
unfold bundle_source_rows_of. cbn [meta_build_bundle_source].
rewrite source_rows_of_new by exact Hbs.
set (rows := flat_map (fun e => map (pair (fst e)) (snd e)) runs').
assert (Hget : forall s,
  dict_get s (map (fun e => (fst e, sorted_strs (snd e))) (group_source_rows rows)) =
  match dict_get s (source_runs m) with
  | Some ((_ :: _) as l) =>
      match uuid_texts l with inr us => Some (sorted_strs us) | inl _ => None end
  | _ => None end).
{ intros s. rewrite load_rows_get. unfold rows.
  rewrite filter_flat_map_key by (rewrite (canonical_source_runs_keys _ _ Ecr); exact Hnd).
  rewrite (canonical_source_runs_get _ _ s Ecr).
  destruct (dict_get s (source_runs m)) as [l|]; [|reflexivity].
  destruct (uuid_texts l) as [|us] eqn:El; [destruct l; reflexivity|].
  destruct l as [|y l], us as [|u us]; try reflexivity;
    apply uuid_texts_cons_ne in El; exfalso; intuition discriminate. }
unfold _load_bundle_rows. cbv zeta. rewrite Ep.
replace (missing_sources required _) with (@nil string).
- eexists. split; [reflexivity | exact Hget].
- symmetry. apply missing_sources_nil_iff. intros s Hs. rewrite Hget.
  assert (Hs' : In s (sorted_strs required)) by (apply BuildBundleFacts.in_sorted_strs; exact Hs).
  destruct (check_source_none_nonempty st m s (check_sources_none st m _ Ec s Hs')) as (l & Hl & Hne).
  rewrite Hl. destruct (canonical_source_runs_ok _ _ s l Ecr Hl) as [us Hus].
  rewrite Hus. destruct l as [|y l]; [contradiction | discriminate].
Qed.

(** The runs of [BuildBundleClaims.sample_runs] and two [ppd] runs. *)
Definition witness_ingest_runs : list ingest_run_row :=
(BuildBundleClaims.sample_runs ++
 [{| ir_run_id := BuildBundleClaims.sample_uuid "10"; ir_source_name := "ppd" |}])%list.

(** A database that already holds another bundle. *)
Definition witness_db : db :=
{| meta_build_bundle :=
     [{| bb_bundle_id := "b0"; bb_build_profile := "gb_core"; bb_bundle_hash := "h0";
         bb_status := "built" |}];
   meta_build_bundle_source :=
     [{| bs_bundle_id := "b0"; bs_source_name := "onspd";
         bs_ingest_run_id := BuildBundleClaims.sample_uuid "01" |}];
   meta_ingest_run := witness_ingest_runs |}.

(** Its [ppd] runs listed out of order and in two non-canonical spellings
  of [...10] and [...08]. *)
Definition witness_manifest : manifest :=
{| build_profile := "gb_core_ppd";
   source_runs :=
     (BuildBundleClaims.gb_core_runs ++
      [("ppd", ["{00000000-0000-4000-8000-000000000010}";
                "00000000000040008000000000000008"])])%list |}.

Lemma create_then_load_bundle_witness :
  exists res st',
  NoDup (map fst (source_runs witness_manifest)) /\
  (forall b, In b (meta_build_bundle witness_db) -> bb_bundle_id b <> "b1") /\
  (forall r, In r (meta_build_bundle_source witness_db) -> bs_bundle_id r <> "b1") /\
  create_build_bundle string_of_list_byte "b1" witness_manifest witness_db = inr (res, st') /\
  r_status res = "created" /\
  r_bundle_id res = "b1" /\
  exists sr,
    _load_bundle st' "b1" = inr (build_profile witness_manifest, r_bundle_hash res, "created", sr) /\
    forall s, dict_get s sr =
      match dict_get s (source_runs witness_manifest) with
      | Some ((_ :: _) as l) =>
          match uuid_texts l with inr us => Some (sorted_strs us) | inl _ => None end
      | _ => None
      end.
Proof.
assert (Hnd : NoDup (map fst (source_runs witness_manifest))).
{ vm_compute.
  repeat (apply NoDup_cons; [intros Hin; simpl in Hin; intuition discriminate|]).
  apply NoDup_nil. }
assert (Hb : forall b, In b (meta_build_bundle witness_db) -> bb_bundle_id b <> "b1").
{ intros b [<-|[]]. discriminate. }
assert (Hbs : forall r, In r (meta_build_bundle_source witness_db) -> bs_bundle_id r <> "b1").
{ intros r [<-|[]]. discriminate. }
destruct (create_build_bundle string_of_list_byte "b1" witness_manifest witness_db)
  as [e|[res st']] eqn:E.
- vm_compute in E. discriminate.
- assert (Hc : r_status res = "created").
  { vm_compute in E. injection E as <- _. reflexivity. }
  exists res, st'. split; [exact Hnd|]. split; [exact Hb|]. split; [exact Hbs|].
  split; [reflexivity|]. split; [exact Hc|].
  exact (create_then_load_bundle string_of_list_byte "b1" witness_manifest witness_db res st'
           Hnd Hb Hbs E Hc).
Defined.

(** On that input, the [ppd] runs read back are the canonical ids, sorted. *)
Example create_then_load_bundle_ppd_ex :
  match create_build_bundle string_of_list_byte "b1" witness_manifest witness_db with
  | inr (_, st') =>
      match _load_bundle st' "b1" with
      | inr (_, _, _, sr) =>
          dict_get "ppd" sr = Some [BuildBundleClaims.sample_uuid "08"; BuildBundleClaims.sample_uuid "10"]
      | inl _ => False
      end
  | inl _ => False
  end.
Proof. vm_compute. reflexivity. Qed.

End LoadBundleFacts.

(* ------------------------------------------------------------------ *)
(** ** [_latest_resumable_run] *)

Module LatestRunFacts.
Import Bundle RunBuild.
Local Open Scope string_scope.

Definition resumable (bundle_id : string) (r : build_run_row) : bool :=
(rr_bundle_id r =? bundle_id) && ((rr_status r =? "started") || (rr_status r =? "failed")).

Lemma started_leb_total a b : started_leb a b = true \/ started_leb b a = true.
Proof. unfold started_leb. rewrite !Z.leb_le. lia. Qed.

Lemma started_leb_trans a b c :
  started_leb a b = true -> started_leb b c = true -> started_leb a c = true.
Proof. unfold started_leb. rewrite !Z.leb_le. lia. Qed.

(** X22.  [_latest_resumable_run] finds a run of the bundle whose status is
  [started] or [failed] and that started no earlier than any other such
  run, returning its id and dataset version; it finds nothing exactly when
  the bundle has no run in either status. *)
Theorem latest_resumable_run_spec st bundle_id :
  match _latest_resumable_run st bundle_id with
  | Some (build_run_id, dataset_version) =>
      exists r, In r (st_runs st) /\ rr_bundle_id r = bundle_id /\
        (rr_status r = "started" \/ rr_status r = "failed") /\
        rr_build_run_id r = build_run_id /\ rr_dataset_version r = dataset_version /\
        forall r', In r' (st_runs st) -> rr_bundle_id r' = bundle_id ->
          (rr_status r' = "started" \/ rr_status r' = "failed") ->
          (rr_started_at_utc r' <= rr_started_at_utc r)%Z
  | None =>
      forall r, In r (st_runs st) -> rr_bundle_id r = bundle_id ->
        rr_status r <> "started" /\ rr_status r <> "failed"
  end.
Proof.
unfold _latest_resumable_run. fold (resumable bundle_id).
set (l := filter (resumable bundle_id) (st_runs st)).
pose proof (SortFacts.sort_perm started_leb l) as P.
pose proof (SortFacts.sort_strongly_sorted started_leb started_leb_total started_leb_trans l) as S.
assert (Hres : forall r, In r l <-> In r (st_runs st) /\ rr_bundle_id r = bundle_id /\
                 (rr_status r = "started" \/ rr_status r = "failed")).
{ intros r. unfold l, resumable. rewrite filter_In, andb_true_iff, orb_true_iff,
    !String.eqb_eq. tauto. }
destruct (PySort.sort started_leb l) as [|r rest] eqn:E.
- intros r Hr Hb. apply Permutation_sym, Permutation_nil in P.
  split; intros Hs; assert (Hin : In r l) by (apply Hres; tauto); rewrite P in Hin; destruct Hin.
- assert (Hr : In r l) by (apply (Permutation_in _ (Permutation_sym P)); left; reflexivity).
  apply Hres in Hr as (Hr & Hb & Hs). exists r.
  split; [exact Hr|]. split; [exact Hb|]. split; [exact Hs|]. split; [reflexivity|].
  split; [reflexivity|].
  intros r' Hr' Hb' Hs'. assert (Hl : In r' l) by (apply Hres; tauto).
  apply (Permutation_in _ P) in Hl. destruct Hl as [<-|Hl]; [lia|].
  inversion S as [|? ? _ F]; subst. rewrite Forall_forall in F.
  specialize (F r' Hl). unfold started_leb in F. apply Z.leb_le in F. exact F.
Qed.

End LatestRunFacts.

(* ------------------------------------------------------------------ *)
(** ** [_parse_optional_string] *)

Module OptionalStringFacts.
Import Bundle SchemaConfig PyStr Manifest.
Local Open Scope string_scope.

(** X23.  [_parse_optional_string] returns a string exactly when
  [_require_string] would return it; it returns [None] when the key is
  missing, holds [null] or holds a string that is blank after stripping;
  and it fails exactly when the key holds something other than a string
  or [null]. *)
Theorem parse_optional_string_spec payload key :
  (forall t, _parse_optional_string payload key = inr (Some t) <->
             _require_string payload key = inr t) /\
  (_parse_optional_string payload key = inr None <->
   dict_get key payload = None \/ dict_get key payload = Some CNull \/
   exists raw, dict_get key payload = Some (CStr raw) /\ strip raw = "") /\
  ((exists e, _parse_optional_string payload key = inl e) <->
   exists v, dict_get key payload = Some v /\ v <> CNull /\ forall raw, v <> CStr raw).
Proof.
unfold _parse_optional_string, _require_string.
destruct (dict_get key payload) as [[raw| | | |]|].
- destruct (String.eqb_spec (strip raw) "") as [Hs|Hs].
  + split; [intros t; split; discriminate|]. split.
    * split; [intros _; right; right; exists raw; split; [reflexivity | exact Hs] | reflexivity].
    * split; [intros [e He]; discriminate|].
      intros (v & Hv & _ & Hn). injection Hv as <-. exfalso. exact (Hn raw eq_refl).
  + split; [intros t; split; intros H; injection H as ->; reflexivity|]. split.
    * split; [discriminate|].
      intros [H|[H|(raw' & H & Hr)]]; try discriminate. injection H as ->. contradiction.
    * split; [intros [e He]; discriminate|].
      intros (v & Hv & _ & Hn). injection Hv as <-. exfalso. exact (Hn raw eq_refl).
- split; [intros t; split; discriminate|]. split.
  + split; [discriminate|]. intros [H|[H|(raw & H & _)]]; discriminate.
  + split; [intros _; exists (CList l); split; [reflexivity|]; split; discriminate | eauto].
- split; [intros t; split; discriminate|]. split.
  + split; [discriminate|]. intros [H|[H|(raw & H & _)]]; discriminate.
  + split; [intros _; exists (CObj l); split; [reflexivity|]; split; discriminate | eauto].
- split; [intros t; split; discriminate|]. split.
  + split; [intros _; right; left; reflexivity | reflexivity].
  + split; [intros [e He]; discriminate|]. intros (v & Hv & Hn & _). injection Hv as <-.
    contradiction.
- split; [intros t; split; discriminate|]. split.
  + split; [discriminate|]. intros [H|[H|(raw & H & _)]]; discriminate.
  + split; [intros _; exists COther; split; [reflexivity|]; split; discriminate | eauto].
- split; [intros t; split; discriminate|]. split.
  + split; [intros _; left; reflexivity | reflexivity].
  + split; [intros [e He]; discriminate|]. intros (v & Hv & _). discriminate.
Qed.

End OptionalStringFacts.

(* ------------------------------------------------------------------ *)
(** ** [_mark_pass_checkpoint] *)

Module CheckpointFacts.
Import RunBuild.
Local Open Scope string_scope.

Lemma existsb_pair_iff id p (cps : list (string * string)) :
  existsb (fun c => (fst c =? id) && (snd c =? p)) cps = true <-> In (id, p) cps.
Proof.
rewrite existsb_exists. split.
- intros ([a b] & Hin & E). apply andb_true_iff in E as [E1 E2].
  apply String.eqb_eq in E1, E2. cbn in E1, E2. subst. exact Hin.
- intros Hin. exists (id, p). split; [exact Hin|]. cbn. rewrite !String.eqb_refl. reflexivity.
Qed.

(** X24.  [_mark_pass_checkpoint] is an upsert on (run, pass): afterwards
  the pair is checkpointed, no other checkpoint is added or removed, no
  pair is ever recorded twice, and the build runs, bundles and output rows
  are untouched. *)
Theorem mark_pass_checkpoint_upsert st build_run_id pass_name :
  let st' := _mark_pass_checkpoint st build_run_id pass_name in
  (forall c, In c (st_checkpoints st') <-> In c (st_checkpoints st) \/ c = (build_run_id, pass_name)) /\
  (NoDup (st_checkpoints st) -> NoDup (st_checkpoints st')) /\
  st_runs st' = st_runs st /\ st_bundle_db st' = st_bundle_db st /\ st_outputs st' = st_outputs st.
Proof.
intros st'. unfold st', _mark_pass_checkpoint.
destruct (existsb _ (st_checkpoints st)) eqn:E.
- apply existsb_pair_iff in E.
  split.
  { intros c. split; [tauto|]. intros [H|H]; [exact H | rewrite H; exact E]. }
  split; [tauto|]. repeat split.
- assert (Hn : ~ In (build_run_id, pass_name) (st_checkpoints st)).
  { intros Hin. apply existsb_pair_iff in Hin. congruence. }
  unfold with_checkpoints. cbn [st_checkpoints st_runs st_bundle_db st_outputs].
  split.
  { intros c. rewrite in_app_iff. cbn. intuition congruence. }
  split; [|repeat split].
  intros Hnd. apply NoDup_app; [exact Hnd | repeat constructor; intros [] |].
  intros x Hx [<-|[]]. contradiction.
Qed.

End CheckpointFacts.
